(** * webserver.c: request parsing, routing, middleware and serialization

    A shallow embedding of [webserver.c].  The C program keeps every string
    in a fixed-size [char] array and moves strings around with [strcpy],
    [strncpy], [strlen], [strcmp], [strncmp], [strstr], [strchr], [sscanf]
    and [snprintf].  The embedding keeps that picture:

    - a [char a[N]] member or local is a [list ascii] of length [N] (every
      byte of the array, including whatever follows the terminator);
    - a [const char*] argument is the list of bytes before the terminating
      NUL (a "C string": it holds no NUL byte);
    - reading a C string out of an array ([read_cstr]) is partial: an array
      without a NUL byte makes the C library run off its end, which has no
      defined behaviour; such steps return [None];
    - [int] members are [Z];
    - function pointers are Rocq functions over the data they can reach
      (request, response, process environment); a call through a null
      pointer is the function that is undefined everywhere;
    - the global [server] is passed explicitly. *)

From Stdlib Require Import ZArith Ascii String.
From stdpp Require Import base option list strings.

Open Scope Z_scope.

(** ** C strings *)

Abbreviation cstring := (list ascii) (only parsing).
Abbreviation char_array := (list ascii) (only parsing).

Definition NUL : ascii := "000"%char.

(** A string literal of the source. *)
Definition lit (s : string) : cstring := list_ascii_of_string s.

(** Rocq strings have no backslash escapes.  In [qlit] an apostrophe
    stands for the double quote of the C literal; no literal of the source
    holds an apostrophe. *)
Definition DQUOTE : ascii := "034"%char.

Definition qlit (s : string) : cstring :=
  (λ c, if Ascii.eqb c "'"%char then DQUOTE else c) <$> lit s.

(** The numeric value of a byte, as [unsigned char]. *)
Definition code (c : ascii) : Z := Z.of_nat (nat_of_ascii c).

(** No NUL byte occurs: the list is the content of a C string. *)
Definition nul_free (s : cstring) : Prop := NUL ∉ s.

#[global] Instance nul_free_dec (s : cstring) : Decision (nul_free s).
Proof. unfold nul_free. apply _. Defined.

(** [strcmp]: the C standard fixes the sign of the result only. *)
Fixpoint strcmp (a b : cstring) : Z :=
  match a, b with
  | [], [] => 0
  | [], _ :: _ => -1
  | _ :: _, [] => 1
  | x :: a', y :: b' =>
      if Ascii.eqb x y then strcmp a' b'
      else if code x <? code y then -1 else 1
  end.

(** [strncmp(a, b, n)] compares at most [n] bytes. *)
Definition strncmp (a b : cstring) (n : nat) : Z :=
  strcmp (take n a) (take n b).

(** [needle] is found at the very start of [hay]. *)
Fixpoint starts_with (needle hay : cstring) : bool :=
  match needle, hay with
  | [], _ => true
  | _ :: _, [] => false
  | x :: n', y :: h' => Ascii.eqb x y && starts_with n' h'
  end.

(** [strstr(hay, needle)]: the offset of the first occurrence, [None] for
    the null pointer. *)
Fixpoint strstr (hay needle : cstring) : option nat :=
  if starts_with needle hay then Some 0%nat
  else match hay with
       | [] => None
       | _ :: hay' => S <$> strstr hay' needle
       end.

(** [strchr(s, c)] for a byte [c] other than NUL: offset of the first [c]. *)
Fixpoint strchr (s : cstring) (c : ascii) : option nat :=
  match s with
  | [] => None
  | x :: s' => if Ascii.eqb x c then Some 0%nat else S <$> strchr s' c
  end.

(** ** Character arrays *)

(** The C string stored at the start of an array: the bytes before the first
    NUL.  [None] when the array holds no NUL (the read leaves the array). *)
Fixpoint read_cstr (a : char_array) : option cstring :=
  match a with
  | [] => None
  | c :: a' => if Ascii.eqb c NUL then Some [] else cons c <$> read_cstr a'
  end.

(** [strlen] of an array, converted to [int]. *)
Definition strlen (a : char_array) : option Z :=
  (λ s, Z.of_nat (length s)) <$> read_cstr a.

(** [strcpy(dst, src)]: the bytes of [src] and the terminator. *)
Definition strcpy (dst : char_array) (src : cstring) : char_array :=
  src ++ NUL :: drop (S (length src)) dst.

(** [strncpy(dst, src, n)]: exactly [n] bytes are written, the bytes of
    [src] padded with NUL; when [src] has [n] bytes or more no terminator is
    written and [dst[n]] keeps its old value. *)
Definition strncpy (dst : char_array) (src : cstring) (n : nat) : char_array :=
  take n (src ++ replicate n NUL) ++ drop n dst.

(** [a[0] = '\0'] *)
Definition clear_first (a : char_array) : char_array := <[0%nat := NUL]> a.

(** An array of [n] bytes whose last byte is NUL. *)
Definition terminated (n : nat) (a : char_array) : Prop :=
  length a = n ∧ a !! pred n = Some NUL.

(** The bytes that a read of at most [n] bytes sees: up to the first NUL
    among the first [n] bytes, never past them. *)
Fixpoint until_nul (a : char_array) : cstring :=
  match a with
  | [] => []
  | c :: a' => if Ascii.eqb c NUL then [] else c :: until_nul a'
  end.

Definition read_cstr_n (a : char_array) (n : nat) : cstring :=
  until_nul (take n a).

(** ** Formatted input and output *)

Definition CR : ascii := "013"%char.
Definition LF : ascii := "010"%char.
Definition CRLF : cstring := [CR; LF].

(** [isspace] in the "C" locale: space, and the controls 9 to 13. *)
Definition isspace (c : ascii) : bool :=
  (code c =? 32) || ((9 <=? code c) && (code c <=? 13)).

Fixpoint skip_space (s : cstring) : cstring :=
  match s with
  | [] => []
  | c :: s' => if isspace c then skip_space s' else s
  end.

(** The longest run of non-space bytes at the start, and what follows. *)
Fixpoint scan_token (s : cstring) : cstring * cstring :=
  match s with
  | [] => ([], [])
  | c :: s' =>
      if isspace c then ([], s)
      else let '(t, rest) := scan_token s' in (c :: t, rest)
  end.

(** One [%s] conversion: leading white space is skipped, then a non-empty
    token is read; at the end of the input the conversion fails. *)
Definition scan_s (s : cstring) : option (cstring * cstring) :=
  match skip_space s with
  | [] => None
  | s1 => Some (scan_token s1)
  end.

(** [sscanf(raw, "%s %s", a, b)]: the string assigned to each of the two
    arrays, [None] for an array that no conversion reached. *)
Definition sscanf_s_s (raw : cstring) : option cstring * option cstring :=
  match scan_s raw with
  | None => (None, None)
  | Some (t1, rest) => (Some t1, fst <$> scan_s rest)
  end.

Definition digit (d : Z) : ascii := ascii_of_nat (48 + Z.to_nat d).

(** Decimal digits of a non-negative number, most significant first. *)
Fixpoint fmt_u (fuel : nat) (n : Z) (acc : cstring) : cstring :=
  match fuel with
  | O => acc
  | S fuel' =>
      let acc' := digit (n mod 10) :: acc in
      if n <? 10 then acc' else fmt_u fuel' (n / 10) acc'
  end.

(** [%d] of an [int]: ten digits are enough below 2^31. *)
Definition fmt_d (z : Z) : cstring :=
  if z <? 0 then "-"%char :: fmt_u 10 (- z) [] else fmt_u 10 z [].

(** [%ld] of a 64-bit [long]: nineteen digits. *)
Definition fmt_ld (z : Z) : cstring :=
  if z <? 0 then "-"%char :: fmt_u 19 (- z) [] else fmt_u 19 z [].

Definition is_int (z : Z) : Prop := -2147483648 <= z <= 2147483647.

Definition is_digit (c : ascii) : bool := (48 <=? code c) && (code c <=? 57).

(** The value of the decimal digits at the start of [s], after [acc]. *)
Fixpoint scan_digits (s : cstring) (acc : Z) : Z :=
  match s with
  | [] => acc
  | c :: s' =>
      if is_digit c then scan_digits s' (10 * acc + (code c - 48)) else acc
  end.

(** One [%d] conversion: white space, an optional sign, decimal digits.
    [Some None] when there is no digit (nothing is assigned), [None] when
    the number does not fit an [int] (no defined result). *)
Definition scan_d (s : cstring) : option (option Z) :=
  let s1 := skip_space s in
  let '(negative, s2) :=
    match s1 with
    | c :: s' =>
        if Ascii.eqb c "-"%char then (true, s')
        else if Ascii.eqb c "+"%char then (false, s')
        else (false, s1)
    | [] => (false, [])
    end in
  match s2 with
  | c :: _ =>
      if is_digit c then
        let magnitude := scan_digits s2 0 in
        let value := if negative : bool then - magnitude else magnitude in
        if (-2147483648 <=? value) && (value <=? 2147483647)
        then Some (Some value) else None
      else Some None
  | [] => Some None
  end.

(** [snprintf(buffer, size, ...)]: the text is cut to [size - 1] bytes. *)
Definition snprintf (size : nat) (text : cstring) : cstring :=
  take (size - 1) text.

(** ** Data model *)

Definition PORT : Z := 8080.
Definition BUFFER_SIZE : Z := 4096.
Definition MAX_ROUTES : Z := 50.
Definition MAX_MIDDLEWARE : Z := 10.

Inductive HttpMethod := GET | POST | PUT | DELETE | UNSUPPORTED.

#[global] Instance HttpMethod_eq_dec : EqDecision HttpMethod.
Proof. solve_decision. Defined.

(** [char path[256]; char query_string[512]; char body[2048];
    int body_length; char headers[1024]] *)
Record HttpRequest := mkRequest {
  req_method : HttpMethod;
  req_path : char_array;
  req_query_string : char_array;
  req_body : char_array;
  req_body_length : Z;
  req_headers : char_array
}.

(** [int status_code; char content_type[64]; char body[4096];
    int body_length] *)
Record HttpResponse := mkResponse {
  res_status_code : Z;
  res_content_type : char_array;
  res_body : char_array;
  res_body_length : Z
}.

(** What the callbacks reach besides request and response: the standard
    output written by [printf], the clock read by [time], the libc
    conversion [ctime], and the [static char name_buffer[64]] of
    [handle_hello]. *)
Record World := mkWorld {
  w_stdout : list ascii;
  w_clock : Z;
  w_ctime : Z → cstring;
  w_name_buffer : char_array
}.

(** The objects a handler or a middleware function is given: [*req], [*res]
    and the environment. *)
Record State := mkState {
  st_req : HttpRequest;
  st_res : HttpResponse;
  st_world : World
}.

(** [typedef void (*RouteHandler)(HttpRequest*, HttpResponse*)] *)
Abbreviation RouteHandler := (State → option State).

(** [typedef bool (*Middleware)(HttpRequest*, HttpResponse*)] *)
Abbreviation Middleware := (State → option (bool * State)).

Record Route := mkRoute {
  route_method : HttpMethod;
  route_path : char_array;
  route_handler : RouteHandler
}.

(** [Route routes[MAX_ROUTES]; int route_count;
    Middleware middleware[MAX_MIDDLEWARE]; int middleware_count] *)
Record Server := mkServer {
  routes : list Route;
  route_count : Z;
  middleware : list Middleware;
  middleware_count : Z
}.

(** Null function pointers: calling one is undefined. *)
Definition null_handler : RouteHandler := λ _, None.
Definition null_middleware : Middleware := λ _, None.

(** The all-zero values of static storage and of [= {0}]. *)
Definition zero_route : Route :=
  mkRoute GET (replicate 256 NUL) null_handler.

Definition zero_request : HttpRequest :=
  mkRequest GET (replicate 256 NUL) (replicate 512 NUL) (replicate 2048 NUL)
            0 (replicate 1024 NUL).

(** [Server server = {0};] *)
Definition server_zero : Server :=
  mkServer (replicate 50 zero_route) 0 (replicate 10 null_middleware) 0.

Definition set_res (st : State) (res : HttpResponse) : State :=
  mkState (st_req st) res (st_world st).

(** [printf]: the text is appended to the standard output. *)
Definition print (w : World) (text : cstring) : World :=
  mkWorld (w_stdout w ++ text) (w_clock w) (w_ctime w) (w_name_buffer w).

Definition set_name_buffer (w : World) (buffer : char_array) : World :=
  mkWorld (w_stdout w) (w_clock w) (w_ctime w) buffer.

(** ** Utility functions *)

Definition parse_method (method_str : cstring) : HttpMethod :=
  if strcmp method_str (lit "GET") =? 0 then GET
  else if strcmp method_str (lit "POST") =? 0 then POST
  else if strcmp method_str (lit "PUT") =? 0 then PUT
  else if strcmp method_str (lit "DELETE") =? 0 then DELETE
  else UNSUPPORTED.

Definition method_to_string (method : HttpMethod) : cstring :=
  match method with
  | GET => lit "GET"
  | POST => lit "POST"
  | PUT => lit "PUT"
  | DELETE => lit "DELETE"
  | UNSUPPORTED => lit "UNSUPPORTED"
  end.

(** [parse_request(raw_request, req)].  The locals [method_str[16]] and
    [full_path[512]] start out unassigned: a request without two tokens
    leaves one of them unassigned and it is read all the same, and a token
    that does not fit is written past its array; neither has a defined
    result. *)
Definition parse_request (raw_request : cstring) (req : HttpRequest)
  : option HttpRequest :=
  let '(method_slot, path_slot) := sscanf_s_s raw_request in
  method_str ← method_slot;
  full_path ← path_slot;
  if negb ((length method_str <? 16)%nat && (length full_path <? 512)%nat)
  then None
  else
    let method := parse_method method_str in
    let '(path, query_string) :=
      match strchr full_path "?"%char with
      | Some query_start =>
          (strncpy (req_path req) (take query_start full_path) 255,
           strncpy (req_query_string req)
                   (drop (S query_start) full_path) 511)
      | None =>
          (strncpy (req_path req) full_path 255,
           clear_first (req_query_string req))
      end in
    '(body, body_length) ←
      match strstr raw_request (CRLF ++ CRLF) with
      | Some body_start =>
          let body :=
            strncpy (req_body req) (drop (body_start + 4) raw_request) 2047 in
          n ← strlen body; Some (body, n)
      | None => Some (req_body req, req_body_length req)
      end;
    Some (mkRequest method path query_string body body_length
                    (strncpy (req_headers req) raw_request 1023)).

Definition init_response (res : HttpResponse) : HttpResponse :=
  mkResponse 200
             (strcpy (res_content_type res) (lit "text/plain"))
             (clear_first (res_body res))
             0.

Definition set_json_response (res : HttpResponse) (status : Z) (json : cstring)
  : option HttpResponse :=
  let content_type := strcpy (res_content_type res) (lit "application/json") in
  let body := strncpy (res_body res) json 4095 in
  body_length ← strlen body;
  Some (mkResponse status content_type body body_length).

Definition set_text_response (res : HttpResponse) (status : Z) (text : cstring)
  : option HttpResponse :=
  let content_type := strcpy (res_content_type res) (lit "text/plain") in
  let body := strncpy (res_body res) text 4095 in
  body_length ← strlen body;
  Some (mkResponse status content_type body body_length).

Definition set_html_response (res : HttpResponse) (status : Z) (html : cstring)
  : option HttpResponse :=
  let content_type := strcpy (res_content_type res) (lit "text/html") in
  let body := strncpy (res_body res) html 4095 in
  body_length ← strlen body;
  Some (mkResponse status content_type body body_length).

Definition get_status_text (code : Z) : cstring :=
  match code with
  | 200 => lit "OK"
  | 201 => lit "Created"
  | 204 => lit "No Content"
  | 400 => lit "Bad Request"
  | 404 => lit "Not Found"
  | 405 => lit "Method Not Allowed"
  | 500 => lit "Internal Server Error"
  | _ => lit "Unknown"
  end.

(** ** Middleware functions *)

(** Prints ["[<time>] <METHOD> <path>"], then ["?<query>"] when the query
    string is not empty, then a newline; always continues. *)
Definition logger_middleware : Middleware := λ st,
  let req := st_req st in
  let w := st_world st in
  let time_str := w_ctime w (w_clock w) in
  if (length time_str =? 0)%nat then None
  else
    let time_str := take (length time_str - 1) time_str in
    path ← read_cstr (req_path req);
    let w1 :=
      print w (lit "[" ++ time_str ++ lit "] "
                 ++ method_to_string (req_method req) ++ lit " " ++ path) in
    first ← req_query_string req !! 0%nat;
    w2 ← (if Ascii.eqb first NUL then Some w1
          else query ← read_cstr (req_query_string req);
               Some (print w1 (lit "?" ++ query)));
    Some (true, mkState req (st_res st) (print w2 [LF])).

Definition cors_middleware : Middleware := λ st, Some (true, st).

Definition auth_middleware : Middleware := λ st,
  let req := st_req st in
  if strncmp (read_cstr_n (req_path req) 6) (lit "/admin") 6 =? 0 then
    headers ← read_cstr (req_headers req);
    match strstr headers (lit "Authorization:") with
    | None =>
        res ← set_json_response (st_res st) 401
                (qlit "{'error': 'Unauthorized'}");
        Some (false, set_res st res)
    | Some _ => Some (true, st)
    end
  else Some (true, st).

(** ** Route handlers *)

Definition handle_home : RouteHandler := λ st,
  let html :=
    lit ("<!DOCTYPE html>"
         ++ "<html><head><title>C Web Server</title></head>"
         ++ "<body>"
         ++ "<h1>Welcome to the C Web Server!</h1>"
         ++ "<p>Available endpoints:</p>"
         ++ "<ul>"
         ++ "<li>GET / - This page</li>"
         ++ "<li>GET /api/hello - Hello JSON</li>"
         ++ "<li>GET /api/time - Current time</li>"
         ++ "<li>GET /api/users - List users</li>"
         ++ "<li>POST /api/users - Create user</li>"
         ++ "<li>GET /api/users/123 - Get specific user</li>"
         ++ "<li>DELETE /api/users/123 - Delete user</li>"
         ++ "<li>GET /admin - Protected route (requires auth)</li>"
         ++ "</ul>"
         ++ "</body></html>")%string in
  res ← set_html_response (st_res st) 200 html;
  Some (set_res st res).

(** [sscanf(name_param, "name=%63s", name_buffer)] where [name_param]
    points at an occurrence of [name=]: the new content of the buffer, which
    is left as it was when no byte follows for the conversion. *)
Definition scan_name (name_param : cstring) (name_buffer : char_array)
  : char_array :=
  match skip_space (drop 5 name_param) with
  | [] => name_buffer
  | s1 => strcpy name_buffer (take 63 (fst (scan_token s1)))
  end.

Definition handle_hello : RouteHandler := λ st,
  let req := st_req st in
  let w := st_world st in
  first ← req_query_string req !! 0%nat;
  '(name, w) ←
    (if Ascii.eqb first NUL then Some (lit "Guest", w)
     else
       query ← read_cstr (req_query_string req);
       match strstr query (lit "name=") with
       | Some name_param =>
           let name_buffer :=
             scan_name (drop name_param query) (w_name_buffer w) in
           name ← read_cstr name_buffer;
           Some (name, set_name_buffer w name_buffer)
       | None => Some (lit "Guest", w)
       end);
  let json :=
    snprintf 256 (qlit "{'message': 'Hello, " ++ name
                  ++ qlit "!', 'timestamp': " ++ fmt_ld (w_clock w)
                  ++ lit "}") in
  res ← set_json_response (st_res st) 200 json;
  Some (mkState req res w).

Definition handle_time : RouteHandler := λ st,
  let w := st_world st in
  let now := w_clock w in
  let time_str := w_ctime w now in
  if (length time_str =? 0)%nat then None
  else
    let time_str := take (length time_str - 1) time_str in
    let json :=
      snprintf 256 (qlit "{'current_time': '" ++ time_str
                    ++ qlit "', 'unix_timestamp': " ++ fmt_ld now
                    ++ lit "}") in
    res ← set_json_response (st_res st) 200 json;
    Some (set_res st res).

(** [handle_users_list]: a fixed JSON document. *)
Definition handle_users_list : RouteHandler := λ st,
  res ← set_json_response (st_res st) 200
          (qlit ("{"
                 ++ "  'users': ["
                 ++ "    {'id': 1, 'name': 'Alice', 'email': 'alice@example.com'},"
                 ++ "    {'id': 2, 'name': 'Bob', 'email': 'bob@example.com'},"
                 ++ "    {'id': 3, 'name': 'Charlie', 'email': 'charlie@example.com'}"
                 ++ "  ],"
                 ++ "  'count': 3"
                 ++ "}")%string);
  Some (set_res st res).

Definition handle_user_create : RouteHandler := λ st,
  body ← read_cstr (req_body (st_req st));
  let w := print (st_world st) (lit "Received POST body: " ++ body ++ [LF]) in
  res ← set_json_response (st_res st) 201
          (qlit ("{"
                 ++ "  'id': 4,"
                 ++ "  'name': 'New User',"
                 ++ "  'email': 'newuser@example.com',"
                 ++ "  'created': true"
                 ++ "}")%string);
  Some (mkState (st_req st) res w).

(** [int user_id = 0; sscanf(req->path, "/api/users/%d", &user_id);]: the
    literal part has to be matched byte for byte before the conversion is
    tried. *)
Definition scan_user_id (path : cstring) : option Z :=
  if starts_with (lit "/api/users/") path then
    assigned ← scan_d (drop 11 path);
    Some (default 0 assigned)
  else Some 0.

Definition handle_user_get : RouteHandler := λ st,
  path ← read_cstr (req_path (st_req st));
  user_id ← scan_user_id path;
  res ←
    (if (0 <? user_id) && (user_id <=? 3) then
       let json :=
         snprintf 256 (qlit "{'id': " ++ fmt_d user_id
                       ++ qlit ", 'name': 'User " ++ fmt_d user_id
                       ++ qlit "', 'email': 'user" ++ fmt_d user_id
                       ++ qlit "@example.com'}") in
       set_json_response (st_res st) 200 json
     else
       set_json_response (st_res st) 404 (qlit "{'error': 'User not found'}"));
  Some (set_res st res).

Definition handle_user_delete : RouteHandler := λ st,
  path ← read_cstr (req_path (st_req st));
  user_id ← scan_user_id path;
  let json :=
    snprintf 128 (qlit "{'message': 'User " ++ fmt_d user_id
                  ++ qlit " deleted', 'success': true}") in
  res ← set_json_response (st_res st) 200 json;
  Some (set_res st res).

Definition handle_admin : RouteHandler := λ st,
  res ← set_json_response (st_res st) 200
          (qlit "{'message': 'Welcome to admin panel'}");
  Some (set_res st res).

Definition handle_not_found : RouteHandler := λ st,
  res ← set_json_response (st_res st) 404
          (qlit "{'error': 'Route not found'}");
  Some (set_res st res).

(** ** Routing system *)

Definition register_route (method : HttpMethod) (path : cstring)
    (handler : RouteHandler) (server : Server) : option Server :=
  if route_count server <? MAX_ROUTES then
    if route_count server <? 0 then None
    else
      let i := Z.to_nat (route_count server) in
      slot ← routes server !! i;
      let route := mkRoute method (strncpy (route_path slot) path 255) handler in
      Some (mkServer (<[i := route]> (routes server))
                     (route_count server + 1)
                     (middleware server) (middleware_count server))
  else Some server.

Definition register_middleware (mw : Middleware) (server : Server)
  : option Server :=
  if middleware_count server <? MAX_MIDDLEWARE then
    if middleware_count server <? 0 then None
    else
      let i := Z.to_nat (middleware_count server) in
      if (i <? length (middleware server))%nat then
        Some (mkServer (routes server) (route_count server)
                       (<[i := mw]> (middleware server))
                       (middleware_count server + 1))
      else None
  else Some server.

(** [path_matches(route_path, req_path)].  The local [pattern[256]] receives
    255 bytes from [strncpy] and nothing else: for a route path of 255 bytes
    or more it holds no terminator that the function wrote, and searching it
    has no defined result. *)
Definition path_matches (route_path req_path : cstring) : option bool :=
  if strcmp route_path req_path =? 0 then Some true
  else
    match strstr route_path (lit "/:id") with
    | Some _ =>
        if (length route_path <? 255)%nat then
          let pattern := take 255 route_path in
          match strstr pattern (lit "/:id") with
          | Some placeholder =>
              let pattern := take placeholder pattern in
              if strncmp pattern req_path (length pattern) =? 0
              then Some true else Some false
          | None => Some false
          end
        else None
    | None => Some false
    end.

(** The condition of the [if] in [find_handler]: the path comparison is
    evaluated only when the methods are equal. *)
Definition route_test (route : Route) (req : HttpRequest) : option bool :=
  if decide (route_method route = req_method req) then
    pattern ← read_cstr (route_path route);
    path ← read_cstr (req_path req);
    path_matches pattern path
  else Some false.

(** The loop of [find_handler] from index [i], with [n] iterations left. *)
Fixpoint find_handler_from (server : Server) (req : HttpRequest) (i n : nat)
  : option RouteHandler :=
  match n with
  | O => Some handle_not_found
  | S n' =>
      route ← routes server !! i;
      hit ← route_test route req;
      if hit : bool then Some (route_handler route)
      else find_handler_from server req (S i) n'
  end.

Definition find_handler (server : Server) (req : HttpRequest)
  : option RouteHandler :=
  find_handler_from server req 0 (Z.to_nat (route_count server)).

(** The middleware loop of [handle_request] from index [i], with [n]
    iterations left: [false] as soon as one function returns false. *)
Fixpoint middleware_from (server : Server) (i n : nat) (st : State)
  : option (bool * State) :=
  match n with
  | O => Some (true, st)
  | S n' =>
      mw ← middleware server !! i;
      '(continue, st') ← mw st;
      if continue : bool then middleware_from server (S i) n' st'
      else Some (false, st')
  end.

Definition handle_request (server : Server) (st : State) : option State :=
  '(continue, st') ←
    middleware_from server 0 (Z.to_nat (middleware_count server)) st;
  if continue : bool then
    handler ← find_handler server (st_req st');
    handler st'
  else Some st'.

(** ** Server setup *)

(** [setup_routes()], applied by [main] to the zeroed [server]. *)
Definition setup_routes (server : Server) : option Server :=
  server ← register_middleware logger_middleware server;
  server ← register_middleware auth_middleware server;
  server ← register_middleware cors_middleware server;
  server ← register_route GET (lit "/") handle_home server;
  server ← register_route GET (lit "/api/hello") handle_hello server;
  server ← register_route GET (lit "/api/time") handle_time server;
  server ← register_route GET (lit "/api/users") handle_users_list server;
  server ← register_route POST (lit "/api/users") handle_user_create server;
  server ← register_route GET (lit "/api/users/:id") handle_user_get server;
  server ← register_route DELETE (lit "/api/users/:id") handle_user_delete server;
  register_route GET (lit "/admin") handle_admin server.

(** ** Serialization and the connection loop *)

(** The text that [snprintf] formats in [send_response]. *)
Definition response_text (status : Z) (content_type : cstring)
    (content_length : Z) (body : cstring) : cstring :=
  lit "HTTP/1.1 " ++ fmt_d status ++ lit " " ++ get_status_text status ++ CRLF
  ++ lit "Content-Type: " ++ content_type ++ CRLF
  ++ lit "Content-Length: " ++ fmt_d content_length ++ CRLF
  ++ lit "Connection: close" ++ CRLF
  ++ CRLF
  ++ body.

(** [send_response]: the bytes handed to [send].  [snprintf] stores at most
    8191 bytes and a terminator in [response[8192]] and returns the length
    of the whole text; [send] is then asked for that many bytes. *)
Definition send_response (res : HttpResponse) : option (list ascii) :=
  content_type ← read_cstr (res_content_type res);
  body ← read_cstr (res_body res);
  let text :=
    response_text (res_status_code res) content_type
                  (res_body_length res) body in
  let len := Z.of_nat (length text) in
  if len <? 8192 then Some text
  else if len =? 8192 then Some (take (Z.to_nat 8191) text ++ [NUL])
  else None.

(** One turn of the accept loop of [main] once [recv] has stored [received]
    (at most [BUFFER_SIZE - 1] bytes, at least one) in the zeroed buffer:
    [res] is the unassigned storage of the local response. *)
Definition serve (server : Server) (received : list ascii)
    (res : HttpResponse) (w : World) : option (list ascii * World) :=
  let req := zero_request in
  let res := init_response res in
  req ← parse_request (until_nul received) req;
  st ← handle_request server (mkState req res w);
  sent ← send_response (st_res st);
  Some (sent, st_world st).

(** ** Vocabulary of the statements *)

(** [needle] occurs somewhere in [hay]. *)
Definition contains (hay needle : cstring) : Prop :=
  ∃ before after, hay = before ++ needle ++ after.

(** The arrays of a response have their declared sizes. *)
Definition sized_response (res : HttpResponse) : Prop :=
  length (res_content_type res) = 64%nat ∧ length (res_body res) = 4096%nat.

(** The invariant of the response: [body] holds a string and [body_length]
    is its length. *)
Definition body_length_ok (res : HttpResponse) : Prop :=
  ∃ body, read_cstr (res_body res) = Some body
          ∧ res_body_length res = Z.of_nat (length body).

(** The arrays of a request have their declared sizes and end in NUL, as
    they do from [HttpRequest req = {0}] on: every write to them is a
    [strncpy] of one byte less than the size. *)
Definition terminated_request (req : HttpRequest) : Prop :=
  terminated 256 (req_path req) ∧ terminated 512 (req_query_string req)
  ∧ terminated 2048 (req_body req) ∧ terminated 1024 (req_headers req).

(** The entries in use: the first [route_count] routes and the first
    [middleware_count] middleware functions, in index order. *)
Definition registered_routes (server : Server) : list Route :=
  take (Z.to_nat (route_count server)) (routes server).

Definition registered_middleware (server : Server) : list Middleware :=
  take (Z.to_nat (middleware_count server)) (middleware server).

(** The route answers the request: the methods are equal and
    [path_matches] returns true on the two paths. *)
Definition route_hit (route : Route) (req : HttpRequest) : Prop :=
  route_method route = req_method req
  ∧ ∃ pattern path,
      read_cstr (route_path route) = Some pattern
      ∧ read_cstr (req_path req) = Some path
      ∧ path_matches pattern path = Some true.

(** A pattern on which [path_matches] has a result for every path: it
    leaves room for a terminator in the 255 bytes copied to the local
    array, or it holds no placeholder and is not copied at all. *)
Definition pattern_ok (pattern : cstring) : Prop :=
  (length pattern < 255)%nat ∨ strstr pattern (lit "/:id") = None.

(** Every route in use holds such a pattern, and the count stays within
    the table. *)
Definition routes_ok (server : Server) : Prop :=
  (Z.to_nat (route_count server) ≤ length (routes server))%nat
  ∧ ∀ route, route ∈ registered_routes server →
      ∃ pattern, read_cstr (route_path route) = Some pattern
                 ∧ pattern_ok pattern.

(** What the registration functions maintain from the zeroed server on:
    the tables keep their sizes, the counts stay within them and every path
    array ends in NUL. *)
Definition server_inv (server : Server) : Prop :=
  length (routes server) = 50%nat
  ∧ length (middleware server) = 10%nat
  ∧ 0 <= route_count server <= MAX_ROUTES
  ∧ 0 <= middleware_count server <= MAX_MIDDLEWARE
  ∧ Forall (λ route, terminated 256 (route_path route)) (routes server).

(** The middleware count stays within the table. *)
Definition middleware_ok (server : Server) : Prop :=
  (Z.to_nat (middleware_count server) ≤ length (middleware server))%nat.

(** The functions [gates], called one after the other from [st], all return
    true and leave [st']. *)
Inductive gates_pass : list Middleware → State → State → Prop :=
  | gates_pass_nil st : gates_pass [] st st
  | gates_pass_cons gate gates st st1 st2 :
      gate st = Some (true, st1) →
      gates_pass gates st1 st2 →
      gates_pass (gate :: gates) st st2.

(** ** Sample data for the examples *)

(** The table that [main] serves from. *)
Definition main_server : Server := default server_zero (setup_routes server_zero).

Definition sample_world : World :=
  mkWorld [] 0 (λ _, lit "Thu Jan  1 00:00:00 1970" ++ [LF]) (replicate 64 NUL).

(** The storage of a local response that was never assigned: here every
    byte happens to be the letter U. *)
Definition unassigned_response : HttpResponse :=
  mkResponse (-1) (replicate 64 "U"%char) (replicate 4096 "U"%char) (-1).

(** The request [main] builds from the received bytes. *)
Definition request_of (received : cstring) : HttpRequest :=
  default zero_request (parse_request received zero_request).

Definition sample_state (received : cstring) : State :=
  mkState (request_of received) (init_response unassigned_response)
          sample_world.

Definition admin_request : cstring :=
  lit "GET /admin HTTP/1.1" ++ CRLF ++ lit "Host: localhost" ++ CRLF ++ CRLF.

Definition users_request : cstring :=
  lit "GET /api/users HTTP/1.1" ++ CRLF ++ CRLF.

(** A server whose two tables are full. *)
Definition full_server : Server :=
  mkServer (replicate 50 (mkRoute GET (strncpy (replicate 256 NUL) (lit "/") 255)
                                  handle_home))
           50 (replicate 10 cors_middleware) 10.

(** A table in which the parameterized route is registered before the
    literal route it shadows, with no middleware. *)
Definition shadowed_server : Server :=
  default server_zero
    (server ← register_route GET (lit "/api/users/:id") handle_user_get
                server_zero;
     register_route GET (lit "/api/users") handle_users_list server).

(** A request whose target has 300 bytes before the question mark. *)
Definition long_path : cstring := lit "/" ++ replicate 299 "a"%char.

Definition long_request : cstring :=
  lit "GET " ++ long_path ++ lit "?x=1" ++ lit " HTTP/1.1" ++ CRLF ++ CRLF.

Definition hello_request : cstring :=
  lit "GET /api/hello?name=Ada HTTP/1.1" ++ CRLF ++ CRLF.

(** A response whose body was written in place, as a callback may do
    through its [HttpResponse*], without an update of [body_length]. *)
Definition stale_response : HttpResponse :=
  mkResponse 200
             (strcpy (replicate 64 NUL) (lit "text/plain"))
             (strncpy (replicate 4096 NUL) (lit "abc") 4095)
             0.

(** Content that fills the body array: 4095 bytes. *)
Definition filling_content : cstring := replicate 4095 "a"%char.

(** ** Further vocabulary *)

(** No white space occurs: the list can be one token of [%s]. *)
Definition space_free (s : cstring) : Prop := Forall (λ c, isspace c = false) s.

(** Only white space occurs. *)
Definition all_space (s : cstring) : Prop := Forall (λ c, isspace c = true) s.

(** Nothing follows, or white space does: where a token of [%s] ends. *)
Definition token_end (rest : cstring) : Prop :=
  rest = [] ∨ ∃ c rest', rest = c :: rest' ∧ isspace c = true.

(** Nothing follows, or a byte that is no digit: where [%d] stops. *)
Definition number_end (rest : cstring) : Prop :=
  rest = [] ∨ ∃ c rest', rest = c :: rest' ∧ is_digit c = false.

(** [needle] occurs in [hay] at offset [i] and at no smaller offset. *)
Definition first_occurrence (hay needle : cstring) (i : nat) : Prop :=
  needle `prefix_of` drop i hay
  ∧ (i ≤ length hay)%nat
  ∧ ∀ j, (j < i)%nat → ¬ needle `prefix_of` drop j hay.

(** The route holds this method, pattern and handler. *)
Definition route_is (entry : HttpMethod * cstring * RouteHandler)
    (route : Route) : Prop :=
  route_method route = entry.1.1
  ∧ read_cstr (route_path route) = Some entry.1.2
  ∧ route_handler route = entry.2.

(** The routes that [setup_routes] registers, in its order. *)
Definition setup_entries : list (HttpMethod * cstring * RouteHandler) :=
  [(GET, lit "/", handle_home);
   (GET, lit "/api/hello", handle_hello);
   (GET, lit "/api/time", handle_time);
   (GET, lit "/api/users", handle_users_list);
   (POST, lit "/api/users", handle_user_create);
   (GET, lit "/api/users/:id", handle_user_get);
   (DELETE, lit "/api/users/:id", handle_user_delete);
   (GET, lit "/admin", handle_admin)].

(** The line that [logger_middleware] prints. *)
Definition log_line (time_str : cstring) (method : HttpMethod)
    (path query : cstring) : cstring :=
  lit "[" ++ time_str ++ lit "] " ++ method_to_string method ++ lit " " ++ path
  ++ (if decide (query = []) then [] else lit "?" ++ query)
  ++ [LF].

(** The documents of [handle_hello], [handle_user_get] and
    [handle_user_delete]. *)
Definition hello_json (name : cstring) (timestamp : Z) : cstring :=
  qlit "{'message': 'Hello, " ++ name ++ qlit "!', 'timestamp': "
  ++ fmt_ld timestamp ++ lit "}".

Definition user_json (user_id : Z) : cstring :=
  qlit "{'id': " ++ fmt_d user_id ++ qlit ", 'name': 'User " ++ fmt_d user_id
  ++ qlit "', 'email': 'user" ++ fmt_d user_id ++ qlit "@example.com'}".

Definition deleted_json (user_id : Z) : cstring :=
  qlit "{'message': 'User " ++ fmt_d user_id
  ++ qlit " deleted', 'success': true}".

(** A state with the given request over the sample response and world. *)
Definition state_of (req : HttpRequest) : State :=
  mkState req (init_response unassigned_response) sample_world.

(** The zeroed request with a path and a query string stored in it. *)
Definition request_with (method : HttpMethod) (path query : cstring)
  : HttpRequest :=
  mkRequest method
            (strncpy (replicate 256 NUL) path 255)
            (strncpy (replicate 512 NUL) query 511)
            (replicate 2048 NUL) 0 (replicate 1024 NUL).

(** A request with a body that itself holds an empty line. *)
Definition post_request : cstring :=
  lit "POST /api/users HTTP/1.1" ++ CRLF ++ CRLF
  ++ lit "{}" ++ CRLF ++ CRLF ++ lit "more".

(** A request to [/admin] whose only [Authorization:] is in its body, and
    one whose [Authorization:] header comes after more than 1023 bytes. *)
Definition marker_in_body_request : cstring :=
  lit "GET /admin HTTP/1.1" ++ CRLF ++ CRLF ++ lit "Authorization:".

Definition late_marker_request : cstring :=
  lit "GET /admin HTTP/1.1" ++ CRLF
  ++ lit "X-Padding: " ++ replicate 1100 "a"%char ++ CRLF
  ++ lit "Authorization: Basic abc" ++ CRLF ++ CRLF.

(** Requests for a path that [setup_routes] does not register. *)
Definition health_request : HttpRequest := request_with GET (lit "/health") [].

(** [handle_hello] answered with this name: status 200 and the greeting
    document with the clock's value, the request untouched and nothing
    printed. *)
Definition greets (name : cstring) (st st' : State) : Prop :=
  st_req st' = st_req st
  ∧ res_status_code (st_res st') = 200
  ∧ read_cstr (res_content_type (st_res st')) = Some (lit "application/json")
  ∧ read_cstr (res_body (st_res st'))
    = Some (hello_json name (w_clock (st_world st)))
  ∧ body_length_ok (st_res st')
  ∧ w_stdout (st_world st') = w_stdout (st_world st)
  ∧ w_clock (st_world st') = w_clock (st_world st).

(** The path that [parse_request] stores for a request target. *)
Definition target_path (target : cstring) : cstring :=
  take 255 (match strchr target "?"%char with
            | Some query_start => take query_start target
            | None => target
            end).

(** A response that [send_response] can serialize: the arrays have their
    sizes, the content type is a string and [body_length] is the length of
    the body. *)
Definition response_ok (res : HttpResponse) : Prop :=
  sized_response res
  ∧ is_Some (read_cstr (res_content_type res))
  ∧ body_length_ok res.

(** What the callbacks need of the environment: [ctime] gives a string
    with a last byte to remove, and the name buffer of [handle_hello] has
    its size and its final NUL, as static storage has from the start. *)
Definition world_ok (w : World) : Prop :=
  (∃ stamp last, w_ctime w (w_clock w) = stamp ++ [last] ∧ nul_free stamp)
  ∧ terminated 64 (w_name_buffer w).

(** What a callback leaves of the environment: clock and [ctime] as they
    were, the name buffer with its size and final NUL, and the output only
    extended. *)
Definition world_kept (w w' : World) : Prop :=
  w_clock w' = w_clock w
  ∧ w_ctime w' = w_ctime w
  ∧ terminated 64 (w_name_buffer w')
  ∧ w_stdout w `prefix_of` w_stdout w'.

(** The handler has a result on every state that [main] can give it, and
    leaves a response that can be serialized.  The last premise is about
    [%d]: the number in the path, if there is one, fits an [int]. *)
Definition handler_answers (handler : RouteHandler) : Prop :=
  ∀ st,
    sized_response (st_res st) → terminated_request (st_req st) →
    world_ok (st_world st) →
    (∀ path, read_cstr (req_path (st_req st)) = Some path →
       is_Some (scan_user_id path)) →
    ∃ st',
      handler st = Some st'
      ∧ st_req st' = st_req st
      ∧ response_ok (st_res st')
      ∧ world_kept (st_world st) (st_world st').

(** The routing table of [setup_routes] read as a function of the method
    and the path of the request: rows in the order of registration, a
    literal pattern as equality and [/api/users/:id] as "starts with
    [/api/users]". *)
Definition main_dispatch (method : HttpMethod) (path : cstring) : RouteHandler :=
  match method with
  | GET =>
      if bool_decide (path = lit "/") then handle_home
      else if bool_decide (path = lit "/api/hello") then handle_hello
      else if bool_decide (path = lit "/api/time") then handle_time
      else if bool_decide (path = lit "/api/users") then handle_users_list
      else if bool_decide (lit "/api/users" `prefix_of` path)
           then handle_user_get
      else if bool_decide (path = lit "/admin") then handle_admin
      else handle_not_found
  | POST =>
      if bool_decide (path = lit "/api/users") then handle_user_create
      else handle_not_found
  | DELETE =>
      if bool_decide (lit "/api/users" `prefix_of` path)
      then handle_user_delete
      else handle_not_found
  | PUT | UNSUPPORTED => handle_not_found
  end.

(** The documents of [handle_time] and [handle_user_create]. *)
Definition time_json (time_str : cstring) (now : Z) : cstring :=
  qlit "{'current_time': '" ++ time_str ++ qlit "', 'unix_timestamp': "
  ++ fmt_ld now ++ lit "}".

Definition created_json : cstring :=
  qlit ("{"
        ++ "  'id': 4,"
        ++ "  'name': 'New User',"
        ++ "  'email': 'newuser@example.com',"
        ++ "  'created': true"
        ++ "}")%string.

(** The answer of the authorization check as [send_response] writes it. *)
Definition unauthorized_text : cstring :=
  response_text 401 (lit "application/json") 25
                (qlit "{'error': 'Unauthorized'}").

(** ** Proof tools *)

(** Evaluation of the tables with the callbacks left as names. *)
Ltac eval_tables :=
  cbv -[logger_middleware auth_middleware cors_middleware handle_home
        handle_hello handle_time handle_users_list handle_user_create
        handle_user_get handle_user_delete handle_admin handle_not_found].

Tactic Notation "eval_tables" "in" hyp(H) :=
  cbv -[logger_middleware auth_middleware cors_middleware handle_home
        handle_hello handle_time handle_users_list handle_user_create
        handle_user_get handle_user_delete handle_admin handle_not_found] in H.

(** * Properties *)

(** ** The C string functions *)

Lemma strcmp_0 (a b : cstring) : strcmp a b = 0 ↔ a = b.
Proof.
  revert b; induction a as [|x a IH]; intros [|y b]; simpl; try done.
  destruct (Ascii.eqb_spec x y) as [->|Hne].
  - rewrite IH. split; [by intros ->|by intros [= ->]].
  - split; [by destruct (code x <? code y)|by intros [= -> _]].
Qed.

Lemma strcmp_eqb (a b : cstring) : (strcmp a b =? 0) = bool_decide (a = b).
Proof.
  case_bool_decide as H.
  - by apply Z.eqb_eq, strcmp_0.
  - apply Z.eqb_neq. by rewrite strcmp_0.
Qed.

Lemma strncmp_prefix (p s : cstring) :
  strncmp p s (length p) = 0 ↔ p `prefix_of` s.
Proof.
  unfold strncmp. rewrite firstn_all, strcmp_0. split.
  - intros ->. apply prefix_take.
  - intros [k ->]. by rewrite take_app_length.
Qed.

Lemma starts_with_prefix (needle hay : cstring) :
  starts_with needle hay = true ↔ needle `prefix_of` hay.
Proof.
  revert hay; induction needle as [|x n IH]; intros hay; simpl.
  - split; [intros _; apply prefix_nil | done].
  - destruct hay as [|y h].
    + split; [done | intros H; by apply prefix_nil_not in H].
    + rewrite andb_true_iff, IH. destruct (Ascii.eqb_spec x y) as [->|Hne].
      * split; [intros [_ H]; by apply prefix_cons | intros H; split; [done|]].
        by apply prefix_cons_inv_2 in H.
      * split; [by intros [? _] | intros H; by apply prefix_cons_inv_1 in H].
Qed.

(** [strstr] returns an occurrence, and no occurrence starts before it. *)
Lemma strstr_Some (hay needle : cstring) (i : nat) :
  strstr hay needle = Some i →
  needle `prefix_of` drop i hay ∧ (i ≤ length hay)%nat ∧
  ∀ j, (j < i)%nat → ¬ needle `prefix_of` drop j hay.
Proof.
  revert i; induction hay as [|c hay IH]; intros i; simpl.
  - destruct (starts_with needle []) eqn:Hs; [|done].
    intros [= <-]. apply starts_with_prefix in Hs. repeat split; [done|lia|lia].
  - destruct (starts_with needle (c :: hay)) eqn:Hs.
    + intros [= <-]. apply starts_with_prefix in Hs.
      repeat split; [done|simpl; lia|lia].
    + destruct (strstr hay needle) as [k|] eqn:Hk; [|done].
      intros [= <-]. destruct (IH k eq_refl) as (Hp & Hle & Hfirst).
      repeat split; [done|simpl; lia|].
      intros [|j] Hj; simpl.
      * rewrite <- starts_with_prefix, Hs. done.
      * apply Hfirst. lia.
Qed.

Lemma strstr_None (hay needle : cstring) :
  strstr hay needle = None → ∀ j, ¬ needle `prefix_of` drop j hay.
Proof.
  induction hay as [|c hay IH]; simpl.
  - destruct (starts_with needle []) eqn:Hs; [done|]. intros _ j.
    rewrite drop_nil, <- starts_with_prefix, Hs. done.
  - destruct (starts_with needle (c :: hay)) eqn:Hs; [done|].
    destruct (strstr hay needle) eqn:Hk; [done|]. intros _ [|j]; simpl.
    + rewrite <- starts_with_prefix, Hs. done.
    + by apply IH.
Qed.

(** An occurrence at offset [length pre] makes [strstr] succeed, at that
    offset or before. *)
Lemma strstr_occurs (pre needle post : cstring) :
  ∃ i, strstr (pre ++ needle ++ post) needle = Some i ∧ (i ≤ length pre)%nat.
Proof.
  destruct (strstr (pre ++ needle ++ post) needle) as [i|] eqn:H.
  - exists i. split; [done|]. apply strstr_Some in H as (_ & _ & Hfirst).
    destruct (decide (i ≤ length pre)%nat); [done|].
    exfalso. apply (Hfirst (length pre)); [lia|].
    rewrite drop_app_length. by apply prefix_app_r.
  - exfalso. apply (strstr_None _ _ H (length pre)).
    rewrite drop_app_length. by apply prefix_app_r.
Qed.

Lemma strchr_Some (s : cstring) (c : ascii) (i : nat) :
  strchr s c = Some i → s !! i = Some c ∧ c ∉ take i s.
Proof.
  revert i; induction s as [|x s IH]; intros i; simpl; [done|].
  destruct (Ascii.eqb_spec x c) as [->|Hne].
  - intros [= <-]. split; [done|]. simpl. apply not_elem_of_nil.
  - destruct (strchr s c) as [k|] eqn:Hk; [|done]. intros [= <-].
    destruct (IH k eq_refl) as [Hl Hn]. split; [done|]. simpl.
    apply not_elem_of_cons. split; [by intros ->|done].
Qed.

Lemma strchr_None (s : cstring) (c : ascii) : strchr s c = None → c ∉ s.
Proof.
  induction s as [|x s IH]; simpl; [intros _; apply not_elem_of_nil|].
  destruct (Ascii.eqb_spec x c) as [->|Hne]; [done|].
  destruct (strchr s c) eqn:Hk; [done|]. intros _.
  apply not_elem_of_cons. split; [by intros ->|by apply IH].
Qed.

(** ** Reading strings out of arrays *)

Lemma nul_free_nil : nul_free [].
Proof. apply not_elem_of_nil. Qed.

Lemma nul_free_cons (c : ascii) (s : cstring) :
  nul_free (c :: s) ↔ c ≠ NUL ∧ nul_free s.
Proof.
  unfold nul_free. rewrite not_elem_of_cons.
  split; (intros [H1 H2]; split; [congruence|done]).
Qed.

Lemma nul_free_app (s t : cstring) :
  nul_free (s ++ t) ↔ nul_free s ∧ nul_free t.
Proof. unfold nul_free. by rewrite not_elem_of_app. Qed.

Lemma nul_free_take (n : nat) (s : cstring) : nul_free s → nul_free (take n s).
Proof.
  unfold nul_free. intros H Hin. apply H.
  by eapply (subseteq_take n).
Qed.

Lemma nul_free_drop (n : nat) (s : cstring) : nul_free s → nul_free (drop n s).
Proof.
  unfold nul_free. intros H Hin. apply H.
  by eapply (subseteq_drop n).
Qed.

Lemma read_cstr_app_nul (s : cstring) (rest : char_array) :
  nul_free s → read_cstr (s ++ NUL :: rest) = Some s.
Proof.
  induction s as [|c s IH]; simpl; [done|].
  intros [Hc Hs]%nul_free_cons.
  destruct (Ascii.eqb_spec c NUL); [done|]. by rewrite IH.
Qed.

Lemma read_cstr_inv (a : char_array) (s : cstring) :
  read_cstr a = Some s → nul_free s ∧ ∃ rest, a = s ++ NUL :: rest.
Proof.
  revert s; induction a as [|c a IH]; intros s; simpl; [done|].
  destruct (Ascii.eqb_spec c NUL) as [->|Hne].
  - intros [= <-]. split; [apply nul_free_nil | by exists a].
  - destruct (read_cstr a) as [t|]; simpl; [|done].
    intros [= <-]. destruct (IH t eq_refl) as [Hfree [rest ->]].
    split; [by apply nul_free_cons | by exists rest].
Qed.

Lemma read_cstr_Some (a : char_array) (s : cstring) :
  read_cstr a = Some s ↔ nul_free s ∧ ∃ rest, a = s ++ NUL :: rest.
Proof.
  split; [apply read_cstr_inv|].
  intros [Hs [rest ->]]. by apply read_cstr_app_nul.
Qed.

Lemma read_cstr_None (a : char_array) : read_cstr a = None ↔ nul_free a.
Proof.
  induction a as [|c a IH]; simpl.
  - split; [intros _; apply nul_free_nil | done].
  - rewrite nul_free_cons. destruct (Ascii.eqb_spec c NUL) as [->|Hne].
    + split; [done | by intros [? _]].
    + destruct (read_cstr a); simpl.
      * split; [done|]. intros [_ H]. by apply IH in H.
      * split; [|done]. intros _. split; [done | by apply IH].
Qed.

Lemma read_cstr_length (a : char_array) (s : cstring) :
  read_cstr a = Some s → (length s < length a)%nat.
Proof.
  intros (_ & rest & ->)%read_cstr_Some. rewrite length_app. simpl. lia.
Qed.

Lemma until_nul_free (a : char_array) : nul_free a → until_nul a = a.
Proof.
  induction a as [|c a IH]; simpl; [done|].
  intros [Hc Ha]%nul_free_cons.
  destruct (Ascii.eqb_spec c NUL); [done|]. by rewrite IH.
Qed.

Lemma until_nul_nul_free (a : char_array) : nul_free (until_nul a).
Proof.
  induction a as [|c a IH]; simpl; [apply nul_free_nil|].
  destruct (Ascii.eqb_spec c NUL); [apply nul_free_nil|].
  by apply nul_free_cons.
Qed.

Lemma until_nul_app_nul (s : cstring) (rest : char_array) :
  nul_free s → until_nul (s ++ NUL :: rest) = s.
Proof.
  induction s as [|c s IH]; simpl; [done|].
  intros [Hc Hs]%nul_free_cons.
  destruct (Ascii.eqb_spec c NUL); [done|]. by rewrite IH.
Qed.

(** ** Writing strings into arrays *)

Lemma strcpy_read (dst : char_array) (src : cstring) :
  nul_free src → read_cstr (strcpy dst src) = Some src.
Proof. intros H. by apply read_cstr_app_nul. Qed.

Lemma strcpy_length (dst : char_array) (src : cstring) :
  (length src < length dst)%nat → length (strcpy dst src) = length dst.
Proof.
  intros H. unfold strcpy. rewrite length_app. simpl. rewrite length_drop. lia.
Qed.

Lemma strncpy_length (dst : char_array) (src : cstring) (n : nat) :
  (n ≤ length dst)%nat → length (strncpy dst src n) = length dst.
Proof.
  intros H. unfold strncpy.
  rewrite length_app, length_take, length_app, length_replicate, length_drop.
  lia.
Qed.

(** A source shorter than the count is stored whole, with its padding. *)
Lemma strncpy_short (dst : char_array) (src : cstring) (n : nat) :
  (length src < n)%nat →
  strncpy dst src n = src ++ replicate (n - length src) NUL ++ drop n dst.
Proof.
  intros H. unfold strncpy. rewrite take_app_ge by lia.
  rewrite take_replicate, <- app_assoc. do 3 f_equal. lia.
Qed.

(** A source of [n] bytes or more leaves its first [n] bytes, no
    terminator, and the old tail of the array. *)
Lemma strncpy_long (dst : char_array) (src : cstring) (n : nat) :
  (n ≤ length src)%nat → strncpy dst src n = take n src ++ drop n dst.
Proof. intros H. unfold strncpy. by rewrite take_app_le by lia. Qed.

Lemma strncpy_read_short (dst : char_array) (src : cstring) (n : nat) :
  nul_free src → (length src < n)%nat →
  read_cstr (strncpy dst src n) = Some src.
Proof.
  intros Hfree H. rewrite strncpy_short by done.
  destruct (n - length src)%nat as [|k] eqn:Hk; [lia|]. simpl.
  by apply read_cstr_app_nul.
Qed.

(** Truncation: the string read back is cut at [n] bytes provided the byte
    after them, which [strncpy] does not write, is NUL already. *)
Lemma strncpy_read_terminated (dst : char_array) (src : cstring) (n : nat) :
  nul_free src → dst !! n = Some NUL →
  read_cstr (strncpy dst src n) = Some (take n src).
Proof.
  intros Hfree Hn. destruct (decide (length src < n)%nat) as [Hlt|Hge].
  - rewrite take_ge by lia. by apply strncpy_read_short.
  - rewrite strncpy_long by lia.
    rewrite (drop_S _ _ _ Hn). apply read_cstr_app_nul.
    by apply nul_free_take.
Qed.

(** Truncation into an array whose tail holds no NUL: no string is left. *)
Lemma strncpy_read_unterminated (dst : char_array) (src : cstring) (n : nat) :
  nul_free src → (n ≤ length src)%nat → nul_free (drop n dst) →
  read_cstr (strncpy dst src n) = None.
Proof.
  intros Hfree Hle Htail. rewrite strncpy_long by done.
  apply read_cstr_None, nul_free_app. split; [by apply nul_free_take|done].
Qed.

Lemma strncpy_terminated (N : nat) (dst : char_array) (src : cstring) :
  terminated (S N) dst → terminated (S N) (strncpy dst src N).
Proof.
  intros [Hlen Hlast]. simpl in Hlast. split.
  - rewrite strncpy_length; [done|lia].
  - simpl. unfold strncpy. rewrite lookup_app_r.
    + rewrite length_take, length_app, length_replicate.
      rewrite lookup_drop. rewrite <- Hlast. f_equal. lia.
    + rewrite length_take, length_app, length_replicate. lia.
Qed.

Lemma terminated_replicate (N : nat) : terminated (S N) (replicate (S N) NUL).
Proof.
  split; [apply length_replicate|].
  apply lookup_replicate_2. simpl. lia.
Qed.

(** ** Path matcher *)

Lemma path_matches_exact (path : cstring) : path_matches path path = Some true.
Proof.
  unfold path_matches. by rewrite (proj2 (strcmp_0 path path) eq_refl).
Qed.

(** A pattern that holds the placeholder at offset [length prefix] matches
    every path that starts with [prefix]. *)
Lemma path_matches_placeholder (prefix rest path : cstring) :
  (length (prefix ++ lit "/:id" ++ rest) < 255)%nat →
  prefix `prefix_of` path →
  path_matches (prefix ++ lit "/:id" ++ rest) path = Some true.
Proof.
  intros Hlen Hpre. unfold path_matches.
  destruct (strcmp _ path =? 0); [done|].
  destruct (strstr_occurs prefix (lit "/:id") rest) as (i & Hi & Hle).
  rewrite Hi. apply Nat.ltb_lt in Hlen as Hlt. rewrite Hlt.
  rewrite take_ge by lia. rewrite Hi.
  rewrite take_app_le by done.
  assert (take i prefix `prefix_of` path) as Hp.
  { etrans; [apply prefix_take | done]. }
  apply strncmp_prefix in Hp. by rewrite Hp.
Qed.

(** Without exact equality and without a placeholder there is no match. *)
Lemma path_matches_literal (pattern path : cstring) :
  pattern ≠ path → strstr pattern (lit "/:id") = None →
  path_matches pattern path = Some false.
Proof.
  intros Hne Hnone. unfold path_matches.
  rewrite strcmp_eqb, bool_decide_eq_false_2 by done. by rewrite Hnone.
Qed.

Lemma path_matches_defined (pattern path : cstring) :
  pattern_ok pattern → is_Some (path_matches pattern path).
Proof.
  unfold path_matches. intros [Hlen%Nat.ltb_lt|Hnone].
  - rewrite Hlen. repeat case_match; eauto.
  - rewrite Hnone. case_match; eauto.
Qed.

(** C3: [path_matches] is true on equal strings; a pattern that ends in
    the placeholder segment [/:id] (and is shorter than the 255 bytes that
    are copied to the local pattern array) matches every path that starts
    with the part of the pattern before the placeholder.  So
    [/api/users/:id] matches [/api/users/123] and [/api/users/123/extra] and
    does not match [/other]. *)
Theorem C3_path_matches :
  (∀ path, path_matches path path = Some true)
  ∧ (∀ prefix path,
       (length (prefix ++ lit "/:id") < 255)%nat →
       prefix `prefix_of` path →
       path_matches (prefix ++ lit "/:id") path = Some true)
  ∧ path_matches (lit "/api/users/:id") (lit "/api/users/123") = Some true
  ∧ path_matches (lit "/api/users/:id") (lit "/api/users/123/extra") = Some true
  ∧ path_matches (lit "/api/users/:id") (lit "/other") = Some false.
Proof.
  split; [apply path_matches_exact|]. split; [|by vm_compute].
  intros prefix path Hlen Hpre.
  pose proof (path_matches_placeholder prefix [] path) as H.
  rewrite app_nil_r in H. by apply H.
Qed.

Lemma C3_path_matches_witness :
  path_matches (lit "/files" ++ lit "/:id") (lit "/files/report.txt")
  = Some true.
Proof.
  apply (proj1 (proj2 C3_path_matches)).
  - vm_compute. lia.
  - by exists (lit "/report.txt").
Defined.

(** C9: the placeholder match knows no segment boundary.  A pattern
    [prefix ++ "/:id"] (shorter than the 255 bytes that are copied to the
    local pattern array) matches [prefix ++ rest] for every [rest], the
    empty one included: [/api/users/:id] matches the bare [/api/users] and
    the continuation [/api/usersXYZ]. *)
Theorem C9_no_segment_boundary :
  (∀ prefix rest,
     (length (prefix ++ lit "/:id") < 255)%nat →
     path_matches (prefix ++ lit "/:id") (prefix ++ rest) = Some true
     ∧ path_matches (prefix ++ lit "/:id") prefix = Some true)
  ∧ path_matches (lit "/api/users/:id") (lit "/api/users") = Some true
  ∧ path_matches (lit "/api/users/:id") (lit "/api/usersXYZ") = Some true.
Proof.
  split; [|by vm_compute].
  intros prefix rest Hlen.
  pose proof (path_matches_placeholder prefix []) as H.
  rewrite app_nil_r in H. split; apply H; try done.
  by apply prefix_app_r.
Qed.

Lemma C9_no_segment_boundary_witness :
  path_matches (lit "/files" ++ lit "/:id") (lit "/files" ++ lit "-old")
  = Some true
  ∧ path_matches (lit "/files" ++ lit "/:id") (lit "/files") = Some true.
Proof.
  apply (proj1 C9_no_segment_boundary).
  vm_compute. lia.
Defined.

(** ** Route lookup *)

Lemma route_test_true (route : Route) (req : HttpRequest) :
  route_test route req = Some true ↔ route_hit route req.
Proof.
  unfold route_test, route_hit. case_decide as Hm.
  - split.
    + intros H. split; [done|].
      destruct (read_cstr (route_path route)) as [pattern|]; [|done].
      destruct (read_cstr (req_path req)) as [path|]; [|done].
      by exists pattern, path.
    + intros [_ (pattern & path & -> & -> & H)]. done.
  - split; [done | by intros [? _]].
Qed.

Lemma route_test_false (route : Route) (req : HttpRequest) :
  route_test route req = Some false → ¬ route_hit route req.
Proof. intros H Hhit%route_test_true. congruence. Qed.

Lemma route_test_defined (route : Route) (req : HttpRequest) (pattern : cstring) :
  read_cstr (route_path route) = Some pattern → pattern_ok pattern →
  is_Some (read_cstr (req_path req)) →
  is_Some (route_test route req).
Proof.
  intros Hp Hlen [path Hq]. unfold route_test. case_decide; [|eauto].
  rewrite Hp, Hq. simpl. by apply path_matches_defined.
Qed.

(** The scan stops at the first route whose test succeeds. *)
Lemma find_handler_from_hit (server : Server) (req : HttpRequest)
    (n i k : nat) (route : Route) :
  (k < n)%nat →
  routes server !! (i + k)%nat = Some route →
  route_test route req = Some true →
  (∀ j, (j < k)%nat →
     ∃ earlier, routes server !! (i + j)%nat = Some earlier
                ∧ route_test earlier req = Some false) →
  find_handler_from server req i n = Some (route_handler route).
Proof.
  revert i k. induction n as [|n IH]; intros i k Hk Hat Hhit Hbefore; [lia|].
  simpl. destruct k as [|k].
  - rewrite Nat.add_0_r in Hat. rewrite Hat. simpl. by rewrite Hhit.
  - destruct (Hbefore 0%nat) as (first & Hfirst & Hmiss); [lia|].
    rewrite Nat.add_0_r in Hfirst. rewrite Hfirst. simpl. rewrite Hmiss. simpl.
    apply (IH (S i) k); [lia| | done |].
    + rewrite <- Hat. f_equal. lia.
    + intros j Hj. destruct (Hbefore (S j)) as (r & Hr & Hm); [lia|].
      exists r. split; [|done]. rewrite <- Hr. f_equal. lia.
Qed.

(** The scan falls through to the fallback when every test fails. *)
Lemma find_handler_from_miss (server : Server) (req : HttpRequest) (n i : nat) :
  (∀ j, (j < n)%nat →
     ∃ route, routes server !! (i + j)%nat = Some route
              ∧ route_test route req = Some false) →
  find_handler_from server req i n = Some handle_not_found.
Proof.
  revert i. induction n as [|n IH]; intros i Hall; [done|]. simpl.
  destruct (Hall 0%nat) as (first & Hfirst & Hmiss); [lia|].
  rewrite Nat.add_0_r in Hfirst. rewrite Hfirst. simpl. rewrite Hmiss. simpl.
  apply IH. intros j Hj. destruct (Hall (S j)) as (r & Hr & Hm); [lia|].
  exists r. split; [|done]. rewrite <- Hr. f_equal. lia.
Qed.

(** Over a stretch of routes whose tests all have a result, either some
    first route succeeds or all of them fail. *)
Lemma first_hit_or_none (server : Server) (req : HttpRequest) (n : nat) :
  (∀ j, (j < n)%nat →
     ∃ route, routes server !! j = Some route
              ∧ is_Some (route_test route req)) →
  (∃ k route, (k < n)%nat ∧ routes server !! k = Some route
     ∧ route_test route req = Some true
     ∧ ∀ j, (j < k)%nat →
         ∃ earlier, routes server !! j = Some earlier
                    ∧ route_test earlier req = Some false)
  ∨ (∀ j, (j < n)%nat →
       ∃ route, routes server !! j = Some route
                ∧ route_test route req = Some false).
Proof.
  induction n as [|n IH]; intros Hall; [right; intros j Hj; lia|].
  destruct IH as [(k & route & Hk & Hat & Hhit & Hbefore)|Hnone].
  { intros j Hj. apply Hall. lia. }
  - left. exists k, route. repeat split; [lia|done..].
  - destruct (Hall n) as (route & Hat & [[|] Ht]); [lia| |].
    + left. exists n, route. repeat split; [lia|done..].
    + right. intros j Hj. destruct (decide (j = n)) as [->|Hne].
      * by exists route.
      * apply Hnone. lia.
Qed.

Lemma registered_routes_lookup (server : Server) (i : nat) (route : Route) :
  registered_routes server !! i = Some route ↔
  (i < Z.to_nat (route_count server))%nat ∧ routes server !! i = Some route.
Proof. unfold registered_routes. rewrite lookup_take_Some. tauto. Qed.

Lemma handle_not_found_response (st : State) :
  ∃ res, handle_not_found st = Some (set_res st res)
         ∧ res_status_code res = 404
         ∧ read_cstr (res_content_type res) = Some (lit "application/json")
         ∧ read_cstr (res_body res) = Some (qlit "{'error': 'Route not found'}")
         ∧ res_body_length res = 28.
Proof.
  unfold handle_not_found, set_json_response, strlen.
  rewrite strncpy_read_short by (compute_done || (vm_compute; lia)).
  eexists. split; [reflexivity|].
  cbn [res_status_code res_content_type res_body res_body_length].
  split_and!; [done| | |done].
  - apply strcpy_read. compute_done.
  - apply strncpy_read_short; [compute_done | vm_compute; lia].
Qed.

(** Registration below capacity fills the slot at index [route_count]: the
    routes in use grow by one entry at the end. *)
Lemma register_route_appends (method : HttpMethod) (path : cstring)
    (handler : RouteHandler) (server : Server) :
  0 <= route_count server < MAX_ROUTES →
  (Z.to_nat (route_count server) < length (routes server))%nat →
  ∃ slot server',
    routes server !! Z.to_nat (route_count server) = Some slot
    ∧ register_route method path handler server = Some server'
    ∧ route_count server' = route_count server + 1
    ∧ middleware server' = middleware server
    ∧ middleware_count server' = middleware_count server
    ∧ registered_routes server' =
        registered_routes server
        ++ [mkRoute method (strncpy (route_path slot) path 255) handler].
Proof.
  intros [Hlo Hhi] Hlen. unfold register_route.
  destruct (lookup_lt_is_Some_2 _ _ Hlen) as [slot Hslot].
  rewrite (proj2 (Z.ltb_lt _ _) Hhi), (proj2 (Z.ltb_ge _ _) Hlo), Hslot.
  eexists slot, _. split; [done|]. split; [reflexivity|].
  split_and!; try done. unfold registered_routes. simpl.
  replace (Z.to_nat (route_count server + 1))
    with (S (Z.to_nat (route_count server))) by lia.
  erewrite take_S_r by (by apply list_lookup_insert_eq).
  by rewrite take_insert_ge by lia.
Qed.

(** ** Middleware chain *)

Lemma registered_middleware_lookup (server : Server) (i : nat) (gate : Middleware) :
  registered_middleware server !! i = Some gate →
  (i < Z.to_nat (middleware_count server))%nat
  ∧ middleware server !! i = Some gate.
Proof. unfold registered_middleware. rewrite lookup_take_Some. tauto. Qed.

(** Gates that pass are run in index order and hand their state on. *)
Lemma middleware_from_pass (server : Server) (gates : list Middleware)
    (i n : nat) (st st' : State) :
  (∀ k gate, gates !! k = Some gate →
     middleware server !! (i + k)%nat = Some gate) →
  gates_pass gates st st' →
  middleware_from server i (length gates + n) st
  = middleware_from server (i + length gates) n st'.
Proof.
  intros Hat Hpass. revert i Hat.
  induction Hpass as [st|gate gates st st1 st2 Hgate Hpass IH]; intros i Hat.
  - simpl. by rewrite Nat.add_0_r.
  - pose proof (Hat 0%nat gate eq_refl) as Hfirst.
    rewrite Nat.add_0_r in Hfirst.
    simpl. rewrite Hfirst. simpl. rewrite Hgate. simpl.
    rewrite IH.
    + f_equal. lia.
    + intros k g Hk. rewrite <- (Hat (S k) g Hk). f_equal. lia.
Qed.

(** The first gate that returns false ends the request: the functions after
    it and the route table are not consulted. *)
Lemma handle_request_stop (server : Server) (gates later : list Middleware)
    (gate : Middleware) (st st1 st2 : State) :
  registered_middleware server = gates ++ gate :: later →
  gates_pass gates st st1 →
  gate st1 = Some (false, st2) →
  handle_request server st = Some st2.
Proof.
  intros Hreg Hpass Hstop. unfold handle_request.
  assert (∀ k g, (gates ++ gate :: later) !! k = Some g →
            (k < Z.to_nat (middleware_count server))%nat
            ∧ middleware server !! k = Some g) as Hat.
  { intros k g Hk. apply registered_middleware_lookup. by rewrite Hreg. }
  destruct (Hat (length gates) gate) as [Hlt Hgate].
  { by rewrite list_lookup_middle. }
  replace (Z.to_nat (middleware_count server))
    with (length gates
          + S (Z.to_nat (middleware_count server) - S (length gates)))%nat
    by lia.
  rewrite (middleware_from_pass server gates 0 _ st st1); [| |done].
  - simpl. rewrite Hgate. simpl. rewrite Hstop. done.
  - intros k g Hk. simpl. apply Hat. by apply lookup_app_l_Some.
Qed.

(** When every gate in use passes, the handler found for the request as the
    gates left it is called on the state they left. *)
Lemma handle_request_pass (server : Server) (st st1 : State) :
  middleware_ok server →
  gates_pass (registered_middleware server) st st1 →
  handle_request server st
  = find_handler server (st_req st1) ≫= λ handler, handler st1.
Proof.
  intros Hok Hpass. unfold handle_request.
  assert (length (registered_middleware server)
          = Z.to_nat (middleware_count server)) as Hlen.
  { unfold registered_middleware. rewrite length_take.
    unfold middleware_ok in Hok. lia. }
  rewrite <- Hlen, <- (Nat.add_0_r (length _)).
  rewrite (middleware_from_pass server _ 0 0 st st1); [done| |done].
  intros k g Hk. simpl. by apply registered_middleware_lookup.
Qed.

(** Registration below capacity appends to the middleware in use. *)
Lemma register_middleware_appends (gate : Middleware) (server : Server) :
  0 <= middleware_count server < MAX_MIDDLEWARE →
  (Z.to_nat (middleware_count server) < length (middleware server))%nat →
  ∃ server',
    register_middleware gate server = Some server'
    ∧ middleware_count server' = middleware_count server + 1
    ∧ length (middleware server') = length (middleware server)
    ∧ routes server' = routes server
    ∧ route_count server' = route_count server
    ∧ registered_middleware server' = registered_middleware server ++ [gate].
Proof.
  intros [Hlo Hhi] Hlen. unfold register_middleware.
  rewrite (proj2 (Z.ltb_lt _ _) Hhi), (proj2 (Z.ltb_ge _ _) Hlo).
  rewrite (proj2 (Nat.ltb_lt _ _) Hlen).
  eexists. split; [reflexivity|]. simpl. split_and!; try done.
  - apply length_insert.
  - unfold registered_middleware. simpl.
    replace (Z.to_nat (middleware_count server + 1))
      with (S (Z.to_nat (middleware_count server))) by lia.
    erewrite take_S_r by (by apply list_lookup_insert_eq).
    by rewrite take_insert_ge by lia.
Qed.

(** Two registrations on the zeroed server. *)
Lemma register_two (first second : Middleware) :
  ∃ server,
    register_middleware first server_zero ≫= register_middleware second
    = Some server
    ∧ registered_middleware server = [first; second].
Proof.
  destruct (register_middleware_appends first server_zero)
    as (s1 & Hs1 & Hc1 & Hl1 & _ & _ & Hr1); [done|simpl; lia|].
  destruct (register_middleware_appends second s1)
    as (s2 & Hs2 & _ & _ & _ & _ & Hr2).
  { rewrite Hc1. done. }
  { rewrite Hc1, Hl1. simpl. lia. }
  exists s2. rewrite Hs1. simpl. split; [done|]. by rewrite Hr2, Hr1.
Qed.

(** C2: the middleware functions run in registration order and the first
    one that returns false ends the request at once: the result is the state
    that function left, whatever functions follow it and whatever routes are
    registered.  A registration appends to the functions in use, and when
    all of them return true the handler is looked up and called on the state
    they left.  With [G1] returning false, registering [G1] then [G2] gives
    the state left by [G1] for every [G2] (even one that could not be
    called); registering [G2] then [G1] runs [G2] first and then [G1] on the
    state [G2] left. *)
Theorem C2_middleware_order :
  (∀ server st gates gate later st1 st2,
     registered_middleware server = gates ++ gate :: later →
     gates_pass gates st st1 →
     gate st1 = Some (false, st2) →
     handle_request server st = Some st2)
  ∧ (∀ server st st1,
       middleware_ok server →
       gates_pass (registered_middleware server) st st1 →
       handle_request server st
       = find_handler server (st_req st1) ≫= λ handler, handler st1)
  ∧ (∀ gate server,
       0 <= middleware_count server < MAX_MIDDLEWARE →
       (Z.to_nat (middleware_count server) < length (middleware server))%nat →
       ∃ server',
         register_middleware gate server = Some server'
         ∧ registered_middleware server'
           = registered_middleware server ++ [gate])
  ∧ (∀ (G1 G2 : Middleware) st st1,
       G1 st = Some (false, st1) →
       ∃ server,
         register_middleware G1 server_zero ≫= register_middleware G2
         = Some server
         ∧ registered_middleware server = [G1; G2]
         ∧ handle_request server st = Some st1)
  ∧ (∀ (G1 G2 : Middleware) st st1 st2,
       G2 st = Some (true, st1) →
       G1 st1 = Some (false, st2) →
       ∃ server,
         register_middleware G2 server_zero ≫= register_middleware G1
         = Some server
         ∧ registered_middleware server = [G2; G1]
         ∧ handle_request server st = Some st2).
Proof.
  split_and!.
  - intros *. apply handle_request_stop.
  - apply handle_request_pass.
  - intros gate server Hcount Hlen.
    destruct (register_middleware_appends gate server Hcount Hlen)
      as (server' & Hreg & _ & _ & _ & _ & Happ).
    by exists server'.
  - intros G1 G2 st st1 HG1.
    destruct (register_two G1 G2) as (server & Hreg & Hchain).
    exists server. split_and!; [done..|].
    apply (handle_request_stop server [] [G2] G1 st st st1);
      [done|constructor|done].
  - intros G1 G2 st st1 st2 HG2 HG1.
    destruct (register_two G2 G1) as (server & Hreg & Hchain).
    exists server. split_and!; [done..|].
    apply (handle_request_stop server [G2] [] G1 st st1 st2); [done| |done].
    econstructor; [done|constructor].
Qed.

(** ** The table of [setup_routes] *)

Lemma setup_routes_main : setup_routes server_zero = Some main_server.
Proof. eval_tables. reflexivity. Qed.

Lemma main_server_middleware :
  registered_middleware main_server
  = [logger_middleware; auth_middleware; cors_middleware].
Proof. eval_tables. reflexivity. Qed.

Lemma main_server_routes :
  (λ route, (route_method route, read_cstr (route_path route)))
    <$> registered_routes main_server
  = [(GET, Some (lit "/")); (GET, Some (lit "/api/hello"));
     (GET, Some (lit "/api/time")); (GET, Some (lit "/api/users"));
     (POST, Some (lit "/api/users")); (GET, Some (lit "/api/users/:id"));
     (DELETE, Some (lit "/api/users/:id")); (GET, Some (lit "/admin"))].
Proof. by vm_compute. Qed.

Lemma main_server_routes_ok : routes_ok main_server.
Proof.
  split; [vm_compute; lia|].
  intros route Hin.
  assert ((route_method route, read_cstr (route_path route))
          ∈ (λ route, (route_method route, read_cstr (route_path route)))
              <$> registered_routes main_server) as H.
  { apply list_elem_of_fmap. by exists route. }
  rewrite main_server_routes in H.
  repeat (apply elem_of_cons in H as [[= _ H]|H];
          [eexists; split; [exact H|left; vm_compute; lia]|]).
  by apply elem_of_nil in H.
Qed.

Lemma main_server_middleware_ok : middleware_ok main_server.
Proof. unfold middleware_ok. vm_compute. lia. Qed.

Lemma C2_middleware_order_witness :
  ∃ st, handle_request main_server (sample_state admin_request) = Some st
        ∧ res_status_code (st_res st) = 401.
Proof.
  eexists. split.
  - eapply (proj1 C2_middleware_order main_server (sample_state admin_request)
              [logger_middleware] auth_middleware [cors_middleware]).
    + apply main_server_middleware.
    + econstructor; [by vm_compute|constructor].
    + by vm_compute.
  - reflexivity.
Defined.

(** ** Registration at capacity *)

(** C10: with [MAX_ROUTES] routes in the table [register_route] returns
    the server as it was, routes and count included, and reports nothing;
    [register_middleware] does the same with [MAX_MIDDLEWARE] functions. *)
Theorem C10_registration_at_capacity :
  (∀ method path handler server,
     route_count server = MAX_ROUTES →
     register_route method path handler server = Some server)
  ∧ (∀ gate server,
       middleware_count server = MAX_MIDDLEWARE →
       register_middleware gate server = Some server).
Proof.
  split.
  - intros method path handler server H. unfold register_route. by rewrite H.
  - intros gate server H. unfold register_middleware. by rewrite H.
Qed.

Lemma C10_registration_at_capacity_witness :
  register_route GET (lit "/late") handle_admin full_server = Some full_server
  ∧ register_middleware auth_middleware full_server = Some full_server.
Proof.
  split.
  - by apply (proj1 C10_registration_at_capacity).
  - by apply (proj2 C10_registration_at_capacity).
Defined.

(** ** Authorization gate *)

Lemma strstr_None_contains (hay needle : cstring) :
  strstr hay needle = None ↔ ¬ contains hay needle.
Proof.
  split.
  - intros H (before & after & ->).
    apply (strstr_None _ _ H (length before)).
    rewrite drop_app_length. by apply prefix_app_r.
  - intros Hnot. destruct (strstr hay needle) as [i|] eqn:H; [|done].
    exfalso. apply Hnot. apply strstr_Some in H as ([k Hk] & _ & _).
    exists (take i hay), k. by rewrite <- Hk, take_drop.
Qed.

(** A bounded read of [n] bytes sees the first [n] bytes of the string. *)
Lemma read_cstr_n_take (a : char_array) (s : cstring) (n : nat) :
  read_cstr a = Some s → read_cstr_n a n = take n s.
Proof.
  intros [Hfree [rest ->]]%read_cstr_inv. unfold read_cstr_n.
  destruct (decide (n ≤ length s)%nat) as [Hle|Hgt].
  - rewrite take_app_le by done. apply until_nul_free. by apply nul_free_take.
  - rewrite take_app_ge by lia. rewrite (take_ge s) by lia.
    destruct (n - length s)%nat as [|k] eqn:Hk; [lia|]. simpl.
    by apply until_nul_app_nul.
Qed.

Lemma set_json_response_short (res : HttpResponse) (status : Z) (json : cstring) :
  nul_free json → (length json < 4095)%nat →
  ∃ res', set_json_response res status json = Some res'
          ∧ res_status_code res' = status
          ∧ read_cstr (res_content_type res') = Some (lit "application/json")
          ∧ read_cstr (res_body res') = Some json
          ∧ res_body_length res' = Z.of_nat (length json).
Proof.
  intros Hfree Hlen. unfold set_json_response, strlen.
  rewrite strncpy_read_short by done.
  eexists. split; [reflexivity|].
  cbn [res_status_code res_content_type res_body res_body_length].
  split_and!; [done| |by apply strncpy_read_short|done].
  apply strcpy_read. compute_done.
Qed.

Lemma auth_middleware_rejects (st : State) (path headers : cstring) :
  read_cstr (req_path (st_req st)) = Some path →
  lit "/admin" `prefix_of` path →
  read_cstr (req_headers (st_req st)) = Some headers →
  ¬ contains headers (lit "Authorization:") →
  ∃ res, auth_middleware st = Some (false, set_res st res)
         ∧ res_status_code res = 401
         ∧ read_cstr (res_content_type res) = Some (lit "application/json")
         ∧ read_cstr (res_body res) = Some (qlit "{'error': 'Unauthorized'}")
         ∧ res_body_length res = 25.
Proof.
  intros Hpath [k ->] Hheaders Hnone%strstr_None_contains.
  destruct (set_json_response_short (st_res st) 401
              (qlit "{'error': 'Unauthorized'}"))
    as (res & Hset & H1 & H2 & H3 & H4); [compute_done|vm_compute; lia|].
  exists res. split_and!; try done.
  unfold auth_middleware.
  rewrite (read_cstr_n_take _ _ _ Hpath).
  replace (take 6 (lit "/admin" ++ k)) with (lit "/admin")
    by (by rewrite (take_app_length' (lit "/admin") k 6)).
  replace (strncmp (lit "/admin") (lit "/admin") 6 =? 0) with true by done.
  rewrite Hheaders. cbn [mbind option_bind]. rewrite Hnone, Hset. done.
Qed.

(** The logger always continues and touches neither request nor response. *)
Lemma logger_middleware_inv (st st1 : State) (continue : bool) :
  logger_middleware st = Some (continue, st1) →
  continue = true ∧ st_req st1 = st_req st ∧ st_res st1 = st_res st.
Proof.
  unfold logger_middleware. intros H.
  repeat (case_match; simplify_option_eq); done.
Qed.

(** C7: when the authorization gate is reached with a request whose path
    begins with [/admin] and whose header block does not contain
    [Authorization:], the dispatcher returns status 401 with the body
    [{"error": "Unauthorized"}]: the result is the state the gate was given
    with that response, whatever functions are registered after the gate and
    whatever routes exist.  In the table of [setup_routes] the gate comes
    after the logger: the result there is the request as it was, the 401
    response, and the environment as the logger left it. *)
Theorem C7_unauthorized :
  (∀ server st gates later st1 path headers,
     registered_middleware server = gates ++ auth_middleware :: later →
     gates_pass gates st st1 →
     read_cstr (req_path (st_req st1)) = Some path →
     lit "/admin" `prefix_of` path →
     read_cstr (req_headers (st_req st1)) = Some headers →
     ¬ contains headers (lit "Authorization:") →
     ∃ res, handle_request server st = Some (set_res st1 res)
            ∧ res_status_code res = 401
            ∧ read_cstr (res_body res) = Some (qlit "{'error': 'Unauthorized'}"))
  ∧ (∀ st logged path headers,
       logger_middleware st = Some logged →
       read_cstr (req_path (st_req st)) = Some path →
       lit "/admin" `prefix_of` path →
       read_cstr (req_headers (st_req st)) = Some headers →
       ¬ contains headers (lit "Authorization:") →
       ∃ res,
         handle_request main_server st
         = Some (mkState (st_req st) res (st_world logged.2))
         ∧ res_status_code res = 401
         ∧ read_cstr (res_body res) = Some (qlit "{'error': 'Unauthorized'}")).
Proof.
  assert (∀ server st gates later st1 path headers,
     registered_middleware server = gates ++ auth_middleware :: later →
     gates_pass gates st st1 →
     read_cstr (req_path (st_req st1)) = Some path →
     lit "/admin" `prefix_of` path →
     read_cstr (req_headers (st_req st1)) = Some headers →
     ¬ contains headers (lit "Authorization:") →
     ∃ res, handle_request server st = Some (set_res st1 res)
            ∧ res_status_code res = 401
            ∧ read_cstr (res_body res) = Some (qlit "{'error': 'Unauthorized'}"))
    as Hgeneral.
  { intros server st gates later st1 path headers Hreg Hpass Hp Hadmin Hh Hno.
    destruct (auth_middleware_rejects st1 path headers Hp Hadmin Hh Hno)
      as (res & Hauth & Hstatus & _ & Hbody & _).
    exists res. split_and!; [|done..].
    by eapply handle_request_stop. }
  split; [exact Hgeneral|].
  intros st [continue st1] path headers Hlog Hp Hadmin Hh Hno.
  destruct (logger_middleware_inv _ _ _ Hlog) as (-> & Hreq & Hres).
  destruct (Hgeneral main_server st [logger_middleware] [cors_middleware]
              st1 path headers) as (res & Hrun & Hstatus & Hbody).
  - apply main_server_middleware.
  - econstructor; [done|constructor].
  - by rewrite Hreq.
  - done.
  - by rewrite Hreq.
  - done.
  - exists res. rewrite Hrun.
    split; [|split; [exact Hstatus|exact Hbody]].
    unfold set_res. by rewrite Hreq.
Qed.

Lemma C7_unauthorized_witness :
  ∃ st, handle_request main_server (sample_state admin_request) = Some st
        ∧ res_status_code (st_res st) = 401
        ∧ read_cstr (res_body (st_res st))
          = Some (qlit "{'error': 'Unauthorized'}").
Proof.
  edestruct (proj1 C7_unauthorized main_server (sample_state admin_request)
               [logger_middleware] [cors_middleware])
    as (res & Hrun & Hstatus & Hbody).
  - apply main_server_middleware.
  - econstructor; [by vm_compute|constructor].
  - by vm_compute.
  - by exists [].
  - by vm_compute.
  - apply strstr_None_contains. by vm_compute.
  - eexists. split; [exact Hrun|]. split; [exact Hstatus|exact Hbody].
Defined.

(** ** Dispatch of literal routes *)

(** The dispatcher on a request that passes every gate in use and for which
    [route], at index [i], is the first route that answers. *)
Lemma handle_request_first_hit (server : Server) (st st1 : State) (i : nat)
    (route : Route) :
  routes_ok server → middleware_ok server →
  gates_pass (registered_middleware server) st st1 →
  registered_routes server !! i = Some route →
  route_hit route (st_req st1) →
  (∀ j earlier, (j < i)%nat →
     registered_routes server !! j = Some earlier →
     ¬ route_hit earlier (st_req st1)) →
  handle_request server st = route_handler route st1.
Proof.
  intros [Hcount Hok] Hmw Hpass [Hi Hat]%registered_routes_lookup Hhit Hfirst.
  rewrite (handle_request_pass server st st1) by done.
  assert (is_Some (read_cstr (req_path (st_req st1)))) as Hpath.
  { destruct Hhit as (_ & pattern & path & _ & Hq & _). eauto. }
  unfold find_handler.
  rewrite (find_handler_from_hit server (st_req st1) _ 0%nat i route);
    [done|done|done|by apply route_test_true|].
  intros j Hj. simpl.
  destruct (lookup_lt_is_Some_2 (routes server) j) as [earlier Hearlier]; [lia|].
  exists earlier. split; [done|].
  assert (registered_routes server !! j = Some earlier) as Hreg.
  { apply registered_routes_lookup. split; [lia|done]. }
  destruct (Hok earlier) as (pattern & Hp & Hlen).
  { apply list_elem_of_lookup. eauto. }
  destruct (route_test_defined earlier (st_req st1) pattern Hp Hlen Hpath)
    as [[|] Htest]; [|done].
  exfalso. apply (Hfirst j earlier Hj Hreg). by apply route_test_true.
Qed.

(** C5, as the code has it: a request that passes the middleware in use,
    whose path is literally the pattern of a route in use with the request's
    method, is answered by that route's handler provided no route registered
    earlier answers the request; the dispatcher returns exactly what the
    handler returns.  An earlier route that matches, for instance a
    parameterized one whose prefix fits, takes the request instead. *)
Theorem C5_literal_route_dispatch (server : Server) (st st1 : State) (i : nat)
    (route : Route) (path : cstring) :
  routes_ok server → middleware_ok server →
  gates_pass (registered_middleware server) st st1 →
  registered_routes server !! i = Some route →
  route_method route = req_method (st_req st1) →
  read_cstr (route_path route) = Some path →
  read_cstr (req_path (st_req st1)) = Some path →
  (∀ j earlier, (j < i)%nat →
     registered_routes server !! j = Some earlier →
     ¬ route_hit earlier (st_req st1)) →
  handle_request server st = route_handler route st1.
Proof.
  intros Hroutes Hmw Hpass Hat Hmethod Hpattern Hpath Hfirst.
  apply (handle_request_first_hit server st st1 i route); try done.
  split; [done|]. exists path, path. split_and!; [done..|].
  apply path_matches_exact.
Qed.

Lemma C5_literal_route_dispatch_witness :
  ∃ st1, handle_request main_server (sample_state users_request)
         = handle_users_list st1.
Proof.
  eexists.
  eapply (C5_literal_route_dispatch main_server (sample_state users_request)
            _ 3 (mkRoute GET _ handle_users_list) (lit "/api/users")).
  - apply main_server_routes_ok.
  - apply main_server_middleware_ok.
  - rewrite main_server_middleware.
    repeat (econstructor; [by vm_compute|]). constructor.
  - eval_tables. reflexivity.
  - by vm_compute.
  - by vm_compute.
  - by vm_compute.
  - intros j earlier Hj Hat. apply route_test_false.
    destruct j as [|[|[|j]]]; [| | |lia];
      eval_tables in Hat; injection Hat as <-; by vm_compute.
Defined.

Lemma C5_counterexample :
  (∃ literal st_literal st_dispatch,
     registered_routes shadowed_server !! 1%nat = Some literal
     ∧ route_method literal = req_method (request_of users_request)
     ∧ read_cstr (route_path literal) = Some (lit "/api/users")
     ∧ read_cstr (req_path (request_of users_request)) = Some (lit "/api/users")
     ∧ route_handler literal (sample_state users_request) = Some st_literal
     ∧ handle_request shadowed_server (sample_state users_request)
       = Some st_dispatch
     ∧ res_status_code (st_res st_literal) = 200
     ∧ res_status_code (st_res st_dispatch) = 404
     ∧ read_cstr (res_body (st_res st_dispatch))
       = Some (qlit "{'error': 'User not found'}"))
  ∧ (∃ literal st_literal st_dispatch,
       registered_routes main_server !! 7%nat = Some literal
       ∧ route_method literal = req_method (request_of admin_request)
       ∧ read_cstr (route_path literal) = Some (lit "/admin")
       ∧ read_cstr (req_path (request_of admin_request)) = Some (lit "/admin")
       ∧ route_handler literal (sample_state admin_request) = Some st_literal
       ∧ handle_request main_server (sample_state admin_request)
         = Some st_dispatch
       ∧ res_status_code (st_res st_literal) = 200
       ∧ res_status_code (st_res st_dispatch) = 401).
Proof.
  split.
  - eexists (mkRoute GET _ handle_users_list), _, _.
    split; [eval_tables; reflexivity|].
    split_and!; by vm_compute.
  - eexists (mkRoute GET _ handle_admin), _, _.
    split; [eval_tables; reflexivity|].
    split_and!; by vm_compute.
Qed.

(** ** Request parser *)

Lemma skip_space_suffix (s : cstring) : skip_space s `suffix_of` s.
Proof.
  induction s as [|c s IH]; simpl; [done|].
  destruct (isspace c); [by apply suffix_cons_r | done].
Qed.

Lemma scan_token_app (s : cstring) : (scan_token s).1 ++ (scan_token s).2 = s.
Proof.
  induction s as [|c s IH]; simpl; [done|].
  destruct (isspace c); [done|].
  destruct (scan_token s) as [t rest]. simpl in *. by rewrite IH.
Qed.

Lemma nul_free_suffix (s t : cstring) : s `suffix_of` t → nul_free t → nul_free s.
Proof. intros [k ->] H. by apply nul_free_app in H as [_ ?]. Qed.

Lemma scan_s_nul_free (s token rest : cstring) :
  scan_s s = Some (token, rest) → nul_free s →
  nul_free token ∧ nul_free rest.
Proof.
  unfold scan_s. intros H Hfree.
  assert (nul_free (skip_space s)) as Hs
    by (eapply nul_free_suffix; [apply skip_space_suffix|done]).
  destruct (skip_space s) as [|c s1] eqn:Hskip; [done|].
  assert (scan_token (c :: s1) = (token, rest)) as Htoken by congruence.
  pose proof (scan_token_app (c :: s1)) as Happ.
  rewrite Htoken in Happ. cbn [fst snd] in Happ. rewrite <- Happ in Hs.
  by apply nul_free_app in Hs.
Qed.

(** The two tokens that [sscanf] stores are pieces of the request. *)
Lemma sscanf_s_s_nul_free (raw method_str full_path : cstring) :
  sscanf_s_s raw = (Some method_str, Some full_path) → nul_free raw →
  nul_free method_str ∧ nul_free full_path.
Proof.
  unfold sscanf_s_s. intros H Hfree.
  destruct (scan_s raw) as [[t1 rest]|] eqn:H1; [|done].
  destruct (scan_s_nul_free _ _ _ H1 Hfree) as [Ht1 Hrest].
  injection H as -> H.
  destruct (scan_s rest) as [[t2 rest2]|] eqn:H2; [|done].
  destruct (scan_s_nul_free _ _ _ H2 Hrest) as [Ht2 _].
  simpl in H. by injection H as <-.
Qed.

Lemma strchr_first (before after : cstring) (c : ascii) :
  c ∉ before → strchr (before ++ c :: after) c = Some (length before).
Proof.
  induction before as [|x before IH]; simpl.
  - intros _. by rewrite Ascii.eqb_refl.
  - intros [Hx Hb]%not_elem_of_cons.
    destruct (Ascii.eqb_spec x c) as [->|_]; [done|]. by rewrite IH.
Qed.

Lemma strchr_absent (s : cstring) (c : ascii) : c ∉ s → strchr s c = None.
Proof.
  intros H. destruct (strchr s c) as [i|] eqn:Hi; [|done].
  apply strchr_Some in Hi as [Hi _]. exfalso. apply H.
  by eapply list_elem_of_lookup_2.
Qed.

Lemma clear_first_read (a : char_array) :
  a ≠ [] → read_cstr (clear_first a) = Some [].
Proof. by destruct a. Qed.

Lemma terminated_last (N : nat) (a : char_array) :
  terminated (S N) a → a !! N = Some NUL.
Proof. by intros [_ H]. Qed.

(** What [parse_request] stores when both tokens fit their arrays and the
    arrays of [req] end in NUL. *)
Lemma parse_request_fields (raw method_str full_path : cstring)
    (req : HttpRequest) :
  nul_free raw → terminated_request req →
  sscanf_s_s raw = (Some method_str, Some full_path) →
  (length method_str < 16)%nat → (length full_path < 512)%nat →
  ∃ body body_length,
    parse_request raw req
    = Some (mkRequest
              (parse_method method_str)
              (match strchr full_path "?"%char with
               | Some query_start =>
                   strncpy (req_path req) (take query_start full_path) 255
               | None => strncpy (req_path req) full_path 255
               end)
              (match strchr full_path "?"%char with
               | Some query_start =>
                   strncpy (req_query_string req)
                           (drop (S query_start) full_path) 511
               | None => clear_first (req_query_string req)
               end)
              body body_length
              (strncpy (req_headers req) raw 1023))
    ∧ is_Some (read_cstr body).
Proof.
  intros Hfree (Hpath & Hquery & Hbody & Hheaders) Hscan Hm Ht.
  unfold parse_request. rewrite Hscan. cbn [mbind option_bind].
  rewrite (proj2 (Nat.ltb_lt _ _) Hm), (proj2 (Nat.ltb_lt _ _) Ht).
  cbn [andb negb].
  destruct (strstr raw (CRLF ++ CRLF)) as [body_start|].
  - unfold strlen.
    rewrite (strncpy_read_terminated (req_body req) _ 2047);
      [|by apply nul_free_drop|by apply terminated_last].
    cbn [fmap option_fmap option_map mbind option_bind].
    destruct (strchr full_path "?"%char); eexists _, _;
      (split; [reflexivity|]);
      rewrite (strncpy_read_terminated (req_body req) _ 2047);
      eauto using nul_free_drop, terminated_last.
  - destruct Hbody as [Hlen Hlast].
    assert (is_Some (read_cstr (req_body req))) as Hread.
    { destruct (read_cstr (req_body req)) eqn:Hr; [eauto|].
      apply read_cstr_None in Hr. exfalso. apply Hr.
      by eapply list_elem_of_lookup_2. }
    cbn [mbind option_bind].
    destruct (strchr full_path "?"%char); eexists _, _;
      (split; [reflexivity|done]).
Qed.

Lemma zero_request_terminated : terminated_request zero_request.
Proof. repeat split; by vm_compute. Qed.

(** C6, as the code has it: when the two tokens of the request line fit
    their arrays, the target is split at its first question mark.  The path
    field holds the part before it, cut to its first 255 bytes when it is
    longer, and the query string holds the part after it; without a question
    mark the path field holds the target, cut in the same way, and the query
    string is empty.  The path field never holds a question mark. *)
Theorem C6_parse_target (raw method_str full_path : cstring)
    (req : HttpRequest) :
  nul_free raw → terminated_request req →
  sscanf_s_s raw = (Some method_str, Some full_path) →
  (length method_str < 16)%nat → (length full_path < 512)%nat →
  ∃ req',
    parse_request raw req = Some req'
    ∧ (∀ before after,
         full_path = before ++ "?"%char :: after → "?"%char ∉ before →
         read_cstr (req_path req') = Some (take 255 before)
         ∧ read_cstr (req_query_string req') = Some after)
    ∧ ("?"%char ∉ full_path →
         read_cstr (req_path req') = Some (take 255 full_path)
         ∧ read_cstr (req_query_string req') = Some [])
    ∧ ∃ path, read_cstr (req_path req') = Some path ∧ "?"%char ∉ path.
Proof.
  intros Hfree Hreq Hscan Hm Ht.
  destruct (parse_request_fields raw method_str full_path req)
    as (body & body_length & Hparse & _); [done..|].
  destruct (sscanf_s_s_nul_free _ _ _ Hscan Hfree) as [_ Hfull].
  destruct Hreq as ([_ Hpath] & [Hqlen _] & _ & _). simpl in Hpath.
  eexists. split; [exact Hparse|].
  cbn [req_path req_query_string]. split_and!.
  - intros before after -> Hbefore.
    rewrite (strchr_first _ _ _ Hbefore).
    rewrite take_app_length.
    replace (drop (S (length before)) (before ++ "?"%char :: after))
      with after
      by (rewrite (cons_middle "?"%char), app_assoc;
          symmetry; apply drop_app_length'; rewrite length_app; simpl; lia).
    apply nul_free_app in Hfull as [Hb Ha]. apply nul_free_cons in Ha as [_ Ha].
    split.
    + by apply strncpy_read_terminated.
    + apply strncpy_read_short; [done|].
      rewrite length_app in Ht. simpl in Ht. lia.
  - intros Hnone. rewrite (strchr_absent _ _ Hnone). split.
    + by apply strncpy_read_terminated.
    + apply clear_first_read. intros Hnil. by rewrite Hnil in Hqlen.
  - destruct (strchr full_path "?"%char) as [i|] eqn:Hi.
    + exists (take 255 (take i full_path)). split.
      * apply strncpy_read_terminated; [by apply nul_free_take|done].
      * apply strchr_Some in Hi as [_ Hnot]. intros Hin. apply Hnot.
        by eapply (subseteq_take 255).
    + exists (take 255 full_path). split.
      * by apply strncpy_read_terminated.
      * apply strchr_None in Hi. intros Hin. apply Hi.
        by eapply (subseteq_take 255).
Qed.

Lemma C6_parse_target_witness :
  ∃ req,
    parse_request hello_request zero_request = Some req
    ∧ read_cstr (req_path req) = Some (lit "/api/hello")
    ∧ read_cstr (req_query_string req) = Some (lit "name=Ada").
Proof.
  destruct (C6_parse_target hello_request (lit "GET")
              (lit "/api/hello?name=Ada") zero_request)
    as (req & Hparse & Hsplit & _).
  - compute_done.
  - apply zero_request_terminated.
  - by vm_compute.
  - vm_compute. lia.
  - vm_compute. lia.
  - exists req. split; [done|].
    apply (Hsplit (lit "/api/hello") (lit "name=Ada")); [done|compute_done].
Defined.

Lemma C6_counterexample :
  ∃ req,
    parse_request long_request zero_request = Some req
    ∧ sscanf_s_s long_request
      = (Some (lit "GET"), Some (long_path ++ "?"%char :: lit "x=1"))
    ∧ ("?"%char ∉ long_path)
    ∧ read_cstr (req_path req) = Some (take 255 long_path)
    ∧ read_cstr (req_path req) ≠ Some long_path.
Proof.
  eexists. split; [by vm_compute|].
  split; [by vm_compute|]. split; [compute_done|].
  split; [by vm_compute|].
  intros H. apply (f_equal (fmap length)) in H. vm_compute in H. done.
Qed.

(** ** Response builder *)

Lemma init_response_ok (res : HttpResponse) :
  res_body res ≠ [] →
  res_status_code (init_response res) = 200
  ∧ read_cstr (res_content_type (init_response res)) = Some (lit "text/plain")
  ∧ read_cstr (res_body (init_response res)) = Some []
  ∧ res_body_length (init_response res) = 0
  ∧ body_length_ok (init_response res).
Proof.
  intros Hbody. unfold body_length_ok. simpl.
  rewrite clear_first_read by done. split_and!; try done.
  by exists [].
Qed.

Lemma init_response_sized (res : HttpResponse) :
  sized_response res → sized_response (init_response res).
Proof.
  intros [Hct Hbody].
  split; unfold init_response; cbn [res_content_type res_body].
  - rewrite strcpy_length; [done|]. rewrite Hct. vm_compute. lia.
  - unfold clear_first. by rewrite length_insert.
Qed.

(** The body and its length after the [strncpy] and [strlen] of a setter,
    for content that leaves room for the terminator. *)
Lemma body_written_short (body : char_array) (content : cstring) :
  nul_free content → (length content < 4095)%nat →
  strlen (strncpy body content 4095) = Some (Z.of_nat (length content))
  ∧ read_cstr (strncpy body content 4095) = Some content.
Proof.
  intros Hfree Hlen. unfold strlen.
  by rewrite strncpy_read_short.
Qed.

(** Longer content is cut to 4095 bytes when the last byte of the array is
    NUL before the call. *)
Lemma body_written_terminated (body : char_array) (content : cstring) :
  nul_free content → body !! 4095%nat = Some NUL →
  strlen (strncpy body content 4095)
  = Some (Z.of_nat (length (take 4095 content)))
  ∧ read_cstr (strncpy body content 4095) = Some (take 4095 content).
Proof.
  intros Hfree Hlast. unfold strlen.
  by rewrite strncpy_read_terminated.
Qed.

(** Content of 4095 bytes or more, written over an array whose last byte is
    not NUL, leaves no terminator in the array: [strlen] has no result. *)
Lemma body_written_unterminated (body : char_array) (content : cstring)
    (last : ascii) :
  nul_free content → (4095 ≤ length content)%nat →
  length body = 4096%nat → body !! 4095%nat = Some last → last ≠ NUL →
  strlen (strncpy body content 4095) = None.
Proof.
  intros Hfree Hlen Hsize Hlast Hne. unfold strlen.
  rewrite strncpy_read_unterminated; [done..|].
  rewrite (drop_S _ _ _ Hlast), drop_ge by lia.
  apply nul_free_cons. split; [done|apply nul_free_nil].
Qed.

(** Each setter keeps the invariant for content shorter than 4095 bytes,
    whatever the arrays held before. *)
Lemma setters_short (res : HttpResponse) (status : Z) (content : cstring) :
  nul_free content → (length content < 4095)%nat →
  (∃ res', set_json_response res status content = Some res'
           ∧ read_cstr (res_body res') = Some content ∧ body_length_ok res')
  ∧ (∃ res', set_text_response res status content = Some res'
             ∧ read_cstr (res_body res') = Some content ∧ body_length_ok res')
  ∧ (∃ res', set_html_response res status content = Some res'
             ∧ read_cstr (res_body res') = Some content ∧ body_length_ok res').
Proof.
  intros Hfree Hlen.
  destruct (body_written_short (res_body res) content Hfree Hlen) as [Hn Hr].
  unfold set_json_response, set_text_response, set_html_response,
    body_length_ok.
  rewrite Hn. cbn [mbind option_bind].
  split_and!; eexists; (split; [reflexivity|]);
    cbn [res_body res_body_length]; (split; [done|]); by exists content.
Qed.

(** Each setter cuts longer content to 4095 bytes and keeps the invariant
    when the last byte of the body array is NUL already. *)
Lemma setters_truncate (res : HttpResponse) (status : Z) (content : cstring) :
  nul_free content → res_body res !! 4095%nat = Some NUL →
  (∃ res', set_json_response res status content = Some res'
           ∧ read_cstr (res_body res') = Some (take 4095 content)
           ∧ body_length_ok res')
  ∧ (∃ res', set_text_response res status content = Some res'
             ∧ read_cstr (res_body res') = Some (take 4095 content)
             ∧ body_length_ok res')
  ∧ (∃ res', set_html_response res status content = Some res'
             ∧ read_cstr (res_body res') = Some (take 4095 content)
             ∧ body_length_ok res').
Proof.
  intros Hfree Hlast.
  destruct (body_written_terminated (res_body res) content Hfree Hlast)
    as [Hn Hr].
  unfold set_json_response, set_text_response, set_html_response,
    body_length_ok.
  rewrite Hn. cbn [mbind option_bind].
  split_and!; eexists; (split; [reflexivity|]);
    cbn [res_body res_body_length]; (split; [done|]);
    by exists (take 4095 content).
Qed.

(** Without that NUL the setters have no defined result on content of 4095
    bytes or more. *)
Lemma setters_unterminated (res : HttpResponse) (status : Z)
    (content : cstring) (last : ascii) :
  nul_free content → (4095 ≤ length content)%nat →
  length (res_body res) = 4096%nat →
  res_body res !! 4095%nat = Some last → last ≠ NUL →
  set_json_response res status content = None
  ∧ set_text_response res status content = None
  ∧ set_html_response res status content = None.
Proof.
  intros Hfree Hlen Hsize Hlast Hne.
  unfold set_json_response, set_text_response, set_html_response.
  by rewrite (body_written_unterminated _ _ last).
Qed.

(** [init_response] clears the first byte of the body only. *)
Lemma init_response_last_byte (res : HttpResponse) :
  res_body (init_response res) !! 4095%nat = res_body res !! 4095%nat.
Proof. simpl. unfold clear_first. by rewrite list_lookup_insert_ne. Qed.

(** C8, at the input where it fails: the local response of [main] is not
    zeroed, [init_response] establishes the invariant on it but leaves the
    last byte of the body array as it was, and a setter given 4095 bytes of
    content then leaves the array without a terminator, so that its
    [strlen] has no defined result. *)
Theorem C8_truncation_without_terminator :
  body_length_ok (init_response unassigned_response)
  ∧ res_body (init_response unassigned_response) !! 4095%nat = Some "U"%char
  ∧ read_cstr (strncpy (res_body (init_response unassigned_response))
                       filling_content 4095) = None
  ∧ set_json_response (init_response unassigned_response) 200 filling_content
    = None
  ∧ set_text_response (init_response unassigned_response) 200 filling_content
    = None
  ∧ set_html_response (init_response unassigned_response) 200 filling_content
    = None.
Proof.
  split; [apply init_response_ok; by vm_compute|].
  split; [by vm_compute|].
  split; [by vm_compute|].
  apply (setters_unterminated _ _ _ "U"%char).
  - compute_done.
  - vm_compute. lia.
  - by vm_compute.
  - by vm_compute.
  - done.
Qed.

(** ** Serialization *)

Lemma fmt_u_length (fuel : nat) (n : Z) (acc : cstring) :
  (length (fmt_u fuel n acc) ≤ fuel + length acc)%nat.
Proof.
  revert n acc. induction fuel as [|fuel IH]; intros n acc; simpl; [lia|].
  destruct (n <? 10); simpl; [lia|].
  etrans; [apply IH|]. simpl. lia.
Qed.

Lemma fmt_d_length (z : Z) : (length (fmt_d z) ≤ 11)%nat.
Proof.
  unfold fmt_d. destruct (z <? 0); simpl.
  - pose proof (fmt_u_length 10 (- z) []). simpl in *. lia.
  - pose proof (fmt_u_length 10 z []). simpl in *. lia.
Qed.

Lemma get_status_text_length (code : Z) :
  (length (get_status_text code) ≤ 21)%nat.
Proof.
  unfold get_status_text. repeat case_match; vm_compute; lia.
Qed.

(** The text of a response always fits [response[8192]]. *)
Lemma response_text_fits (status content_length : Z)
    (content_type body : cstring) :
  (length content_type < 64)%nat → (length body < 4096)%nat →
  Z.of_nat (length (response_text status content_type content_length body))
  < 8192.
Proof.
  intros Hct Hbody. unfold response_text. rewrite !length_app.
  pose proof (fmt_d_length status).
  pose proof (fmt_d_length content_length).
  pose proof (get_status_text_length status).
  change (length (lit "HTTP/1.1 ")) with 9%nat.
  change (length (lit " ")) with 1%nat.
  change (length CRLF) with 2%nat.
  change (length (lit "Content-Type: ")) with 14%nat.
  change (length (lit "Content-Length: ")) with 16%nat.
  change (length (lit "Connection: close")) with 17%nat.
  lia.
Qed.

Lemma send_response_text (res : HttpResponse) (content_type body : cstring) :
  sized_response res →
  read_cstr (res_content_type res) = Some content_type →
  read_cstr (res_body res) = Some body →
  send_response res
  = Some (response_text (res_status_code res) content_type
                        (res_body_length res) body).
Proof.
  intros [Hct Hbody] Hrc Hrb. unfold send_response.
  rewrite Hrc, Hrb. cbn [mbind option_bind].
  apply read_cstr_length in Hrc, Hrb.
  rewrite (proj2 (Z.ltb_lt _ _)); [done|].
  apply response_text_fits; lia.
Qed.

(** What is sent for a response that a setter has just written: the
    length printed is the length of the body. *)
Lemma send_after_setter (res : HttpResponse) (status : Z) (content : cstring)
    (type : cstring) (res' : HttpResponse) :
  sized_response res → nul_free type → (length type < 64)%nat →
  (body_length ← strlen (strncpy (res_body res) content 4095);
   Some (mkResponse status (strcpy (res_content_type res) type)
                    (strncpy (res_body res) content 4095) body_length))
  = Some res' →
  ∃ body,
    read_cstr (res_body res') = Some body
    ∧ send_response res'
      = Some (response_text status type (Z.of_nat (length body)) body).
Proof.
  intros [Hct Hbody] Hfree Hlen. unfold strlen.
  destruct (read_cstr (strncpy (res_body res) content 4095)) as [body|] eqn:Hr;
    [|done].
  cbn [fmap option_fmap option_map mbind option_bind]. intros [= <-].
  exists body. split; [done|].
  match goal with
  | |- send_response ?r = _ => apply (send_response_text r type body)
  end; [|by apply strcpy_read|done].
  split; cbn [res_content_type res_body].
  - rewrite strcpy_length; [done|]. by rewrite Hct.
  - rewrite strncpy_length; [done|]. rewrite Hbody. lia.
Qed.

(** C4, as the code has it: the serialized response is the status line,
    the three header lines, an empty line and the body, and the number after
    [Content-Length:] is the [body_length] member as it stands; it is not
    computed from the body.  After a setter the member is the byte length of
    the body, so the two agree.  For status 201 and the body [{"id":4}] the
    status line is [HTTP/1.1 201 Created] and the length is 8. *)
Theorem C4_serialization :
  (∀ res content_type body,
     sized_response res →
     read_cstr (res_content_type res) = Some content_type →
     read_cstr (res_body res) = Some body →
     send_response res
     = Some (response_text (res_status_code res) content_type
                           (res_body_length res) body))
  ∧ (∀ res status content res',
       sized_response res →
       (set_json_response res status content = Some res' →
        ∃ body,
          read_cstr (res_body res') = Some body
          ∧ send_response res'
            = Some (response_text status (lit "application/json")
                                  (Z.of_nat (length body)) body))
       ∧ (set_text_response res status content = Some res' →
          ∃ body,
            read_cstr (res_body res') = Some body
            ∧ send_response res'
              = Some (response_text status (lit "text/plain")
                                    (Z.of_nat (length body)) body))
       ∧ (set_html_response res status content = Some res' →
          ∃ body,
            read_cstr (res_body res') = Some body
            ∧ send_response res'
              = Some (response_text status (lit "text/html")
                                    (Z.of_nat (length body)) body)))
  ∧ (∀ res,
       sized_response res →
       ∃ res',
         set_json_response res 201 (qlit "{'id':4}") = Some res'
         ∧ send_response res'
           = Some (lit "HTTP/1.1 201 Created" ++ CRLF
                   ++ lit "Content-Type: application/json" ++ CRLF
                   ++ lit "Content-Length: 8" ++ CRLF
                   ++ lit "Connection: close" ++ CRLF
                   ++ CRLF
                   ++ qlit "{'id':4}")).
Proof.
  split; [apply send_response_text|]. split.
  - intros res status content res' Hsized.
    split_and!; apply send_after_setter;
      first [done | compute_done | vm_compute; lia].
  - intros res Hsized.
    destruct (set_json_response_short res 201 (qlit "{'id':4}"))
      as (res' & Hres' & _ & _ & Hbody & _); [compute_done|vm_compute; lia|].
    exists res'. split; [done|].
    destruct (send_after_setter res 201 (qlit "{'id':4}")
                (lit "application/json") res' Hsized)
      as (body & Hb & Hsend); [compute_done|vm_compute; lia|exact Hres'|].
    rewrite Hsend. rewrite Hbody in Hb. injection Hb as <-. by vm_compute.
Qed.

Lemma C4_serialization_witness :
  send_response stale_response
  = Some (response_text 200 (lit "text/plain") 0 (lit "abc")).
Proof.
  apply (proj1 C4_serialization stale_response).
  - split; by vm_compute.
  - by vm_compute.
  - by vm_compute.
Defined.

Lemma C4_counterexample :
  (∃ res,
     set_json_response (init_response unassigned_response) 201
                       (qlit "{'id':4}") = Some res
     ∧ read_cstr (res_body res) = Some (qlit "{'id':4}")
     ∧ send_response res
       = Some (response_text 201 (lit "application/json") 8 (qlit "{'id':4}"))
     ∧ send_response res
       ≠ Some (response_text 201 (lit "application/json") 9 (qlit "{'id':4}")))
  ∧ read_cstr (res_body stale_response) = Some (lit "abc")
  ∧ send_response stale_response
    = Some (lit "HTTP/1.1 200 OK" ++ CRLF
            ++ lit "Content-Type: text/plain" ++ CRLF
            ++ lit "Content-Length: 0" ++ CRLF
            ++ lit "Connection: close" ++ CRLF
            ++ CRLF
            ++ lit "abc").
Proof.
  split; [|split; by vm_compute].
  eexists. split; [by vm_compute|]. split; [by vm_compute|].
  split; [by vm_compute|]. by vm_compute.
Qed.

(** ** The invariant of the tables *)

Lemma server_zero_inv : server_inv server_zero.
Proof.
  split_and!; try done. apply Forall_replicate, (terminated_replicate 255).
Qed.

Lemma register_route_inv (method : HttpMethod) (path : cstring)
    (handler : RouteHandler) (server server' : Server) :
  server_inv server →
  register_route method path handler server = Some server' →
  server_inv server'.
Proof.
  intros (Hr & Hm & Hrc & Hmc & Hterm) Hreg. unfold register_route in Hreg.
  destruct (route_count server <? MAX_ROUTES) eqn:Hlt;
    [|by injection Hreg as <-].
  apply Z.ltb_lt in Hlt.
  destruct (route_count server <? 0); [done|].
  destruct (routes server !! Z.to_nat (route_count server))
    as [slot|] eqn:Hslot; [|done].
  injection Hreg as <-. unfold server_inv. simpl.
  split; [by rewrite length_insert|]. split; [done|].
  split; [unfold MAX_ROUTES in *; lia|]. split; [done|].
  apply Forall_insert; [done|]. simpl.
  apply (strncpy_terminated 255).
  by apply (Forall_lookup_1 _ _ _ _ Hterm Hslot).
Qed.

Lemma register_middleware_inv (gate : Middleware) (server server' : Server) :
  server_inv server →
  register_middleware gate server = Some server' →
  server_inv server'.
Proof.
  intros (Hr & Hm & Hrc & Hmc & Hterm) Hreg. unfold register_middleware in Hreg.
  destruct (middleware_count server <? MAX_MIDDLEWARE) eqn:Hlt;
    [|by injection Hreg as <-].
  apply Z.ltb_lt in Hlt.
  destruct (middleware_count server <? 0); [done|].
  destruct (_ <? _)%nat; [|done].
  injection Hreg as <-. unfold server_inv. simpl.
  split; [done|]. split; [by rewrite length_insert|]. split; [done|].
  split; [unfold MAX_MIDDLEWARE in *; lia|done].
Qed.

Lemma setup_routes_inv (server server' : Server) :
  server_inv server → setup_routes server = Some server' → server_inv server'.
Proof.
  unfold setup_routes. intros Hinv Hsetup.
  repeat match type of Hsetup with
  | register_middleware ?g ?s ≫= _ = Some _ =>
      let s1 := fresh "s" in let H1 := fresh "H" in
      destruct (register_middleware g s) as [s1|] eqn:H1; [|done];
      apply register_middleware_inv in H1; [|done];
      cbn [mbind option_bind] in Hsetup; clear Hinv; rename H1 into Hinv
  | register_route ?m ?p ?h ?s ≫= _ = Some _ =>
      let s1 := fresh "s" in let H1 := fresh "H" in
      destruct (register_route m p h s) as [s1|] eqn:H1; [|done];
      apply register_route_inv in H1; [|done];
      cbn [mbind option_bind] in Hsetup; clear Hinv; rename H1 into Hinv
  end.
  by eapply register_route_inv.
Qed.

Lemma main_server_inv : server_inv main_server.
Proof.
  apply (setup_routes_inv server_zero);
    [apply server_zero_inv|apply setup_routes_main].
Qed.

Lemma terminated_readable (N : nat) (a : char_array) :
  terminated (S N) a →
  ∃ s, read_cstr a = Some s ∧ (length s ≤ N)%nat.
Proof.
  intros [Hlen Hlast]. simpl in Hlast.
  destruct (read_cstr a) as [s|] eqn:Hr.
  - exists s. split; [done|]. apply read_cstr_length in Hr. lia.
  - apply read_cstr_None in Hr. exfalso. apply Hr.
    by eapply list_elem_of_lookup_2.
Qed.

(** Under the invariant every pattern in use is a string of at most 255
    bytes, the first 255 bytes of the path given at registration. *)
Lemma server_inv_patterns (server : Server) (route : Route) :
  server_inv server → route ∈ registered_routes server →
  ∃ pattern, read_cstr (route_path route) = Some pattern
             ∧ (length pattern ≤ 255)%nat.
Proof.
  intros (_ & _ & _ & _ & Hterm) Hin.
  apply (terminated_readable 255).
  rewrite Forall_forall in Hterm. apply Hterm.
  unfold registered_routes in Hin. by eapply (subseteq_take _ _ route).
Qed.

Lemma clear_first_terminated (N : nat) (a : char_array) :
  terminated (S (S N)) a → terminated (S (S N)) (clear_first a).
Proof.
  intros [Hlen Hlast]. unfold clear_first. split.
  - by rewrite length_insert.
  - simpl in *. by rewrite list_lookup_insert_ne.
Qed.

(** The parser keeps the arrays of the request terminated; in particular
    the path of a parsed request can always be read. *)
Lemma parse_request_terminated (raw : cstring) (req req' : HttpRequest) :
  terminated_request req → parse_request raw req = Some req' →
  terminated_request req'.
Proof.
  intros (Hp & Hq & Hb & Hh) Hparse. unfold parse_request in Hparse.
  destruct (sscanf_s_s raw) as [[method_str|] [full_path|]]; try done.
  cbn [mbind option_bind] in Hparse.
  destruct (negb _); [done|].
  destruct (strchr full_path "?"%char);
    (destruct (strstr raw (CRLF ++ CRLF)) as [body_start|];
     [destruct (strlen _) as [len|]|]);
    cbn [mbind option_bind] in Hparse; try done;
    injection Hparse as <-;
    split_and!; cbn [req_path req_query_string req_body req_headers];
    lazymatch goal with
    | |- terminated _ (strncpy (req_path _) _ _) =>
        apply (strncpy_terminated 255); assumption
    | |- terminated _ (strncpy (req_query_string _) _ _) =>
        apply (strncpy_terminated 511); assumption
    | |- terminated _ (strncpy (req_body _) _ _) =>
        apply (strncpy_terminated 2047); assumption
    | |- terminated _ (strncpy (req_headers _) _ _) =>
        apply (strncpy_terminated 1023); assumption
    | |- terminated _ (clear_first _) =>
        apply (clear_first_terminated 510); assumption
    | |- _ => assumption
    end.
Qed.

Lemma parse_request_path_readable (raw : cstring) (req : HttpRequest) :
  parse_request raw zero_request = Some req →
  is_Some (read_cstr (req_path req)).
Proof.
  intros H.
  destruct (parse_request_terminated _ _ _ zero_request_terminated H)
    as (Hp & _).
  destruct (terminated_readable 255 _ Hp) as (s & Hs & _). eauto.
Qed.

(** Under the invariant it is enough that the patterns in use suit
    [path_matches]. *)
Lemma server_inv_routes_ok (server : Server) :
  server_inv server →
  (∀ route pattern, route ∈ registered_routes server →
     read_cstr (route_path route) = Some pattern → pattern_ok pattern) →
  routes_ok server.
Proof.
  intros Hinv Hpat. split.
  - destruct Hinv as (Hlen & _ & Hcount & _). unfold MAX_ROUTES in *. lia.
  - intros route Hin.
    destruct (server_inv_patterns server route Hinv Hin) as (pattern & Hr & _).
    exists pattern. split; [done|]. by eapply Hpat.
Qed.

(** ** Route lookup for parsed requests *)

(** C1: [find_handler] returns the handler of the first route in use, in
    index order, whose method is the request's and whose pattern matches the
    request's path; index order is registration order, since a registration
    appends to the routes in use.  When no route in use matches, it returns
    [handle_not_found], whose response has status 404 and the body
    [{"error": "Route not found"}].  The path of every request that
    [parse_request] builds from the zeroed request can be read. *)
Theorem C1_find_handler_first_match :
  (∀ server req,
     routes_ok server → is_Some (read_cstr (req_path req)) →
     ∃ handler, find_handler server req = Some handler
       ∧ ((∃ i route,
             registered_routes server !! i = Some route
             ∧ route_hit route req
             ∧ (∀ j earlier, (j < i)%nat →
                  registered_routes server !! j = Some earlier →
                  ¬ route_hit earlier req)
             ∧ handler = route_handler route)
          ∨ ((∀ route, route ∈ registered_routes server → ¬ route_hit route req)
             ∧ handler = handle_not_found
             ∧ ∀ st, ∃ res,
                 handler st = Some (set_res st res)
                 ∧ res_status_code res = 404
                 ∧ read_cstr (res_body res)
                   = Some (qlit "{'error': 'Route not found'}"))))
  ∧ (∀ raw req,
       parse_request raw zero_request = Some req →
       is_Some (read_cstr (req_path req)))
  ∧ (∀ method path handler server,
       0 <= route_count server < MAX_ROUTES →
       (Z.to_nat (route_count server) < length (routes server))%nat →
       ∃ slot server',
         register_route method path handler server = Some server'
         ∧ registered_routes server' =
             registered_routes server
             ++ [mkRoute method (strncpy (route_path slot) path 255) handler]).
Proof.
  split.
  - intros server req [Hcount Hok] Hpath.
    destruct (first_hit_or_none server req (Z.to_nat (route_count server)))
      as [(k & route & Hk & Hat & Hhit & Hbefore)|Hnone].
    { intros j Hj.
      destruct (lookup_lt_is_Some_2 (routes server) j) as [route Hat]; [lia|].
      exists route. split; [done|].
      destruct (Hok route) as (pattern & Hp & Hlen).
      { apply list_elem_of_lookup. exists j.
        by apply registered_routes_lookup. }
      by eapply route_test_defined. }
    + exists (route_handler route). split.
      * apply (find_handler_from_hit _ _ _ 0%nat k); done.
      * left. exists k, route. split_and!; try done.
        -- by apply registered_routes_lookup.
        -- by apply route_test_true.
        -- intros j earlier Hj [_ Hearlier]%registered_routes_lookup.
           destruct (Hbefore j Hj) as (r & Hr & Hmiss).
           apply route_test_false. congruence.
    + exists handle_not_found. split.
      * by apply find_handler_from_miss.
      * right. split_and!; try done.
        -- intros route (j & [Hj Hat]%registered_routes_lookup)%list_elem_of_lookup.
           destruct (Hnone j Hj) as (r & Hr & Hmiss).
           apply route_test_false. congruence.
        -- intros st. destruct (handle_not_found_response st)
             as (res & H1 & H2 & _ & H3 & _). by exists res.
  - split; [apply parse_request_path_readable|].
    intros method path handler server Hcount Hlen.
    destruct (register_route_appends method path handler server Hcount Hlen)
      as (slot & server' & _ & Hreg & _ & _ & _ & Happ).
    by exists slot, server'.
Qed.

Lemma C1_find_handler_first_match_witness :
  ∃ req handler,
    parse_request users_request zero_request = Some req
    ∧ find_handler main_server req = Some handler.
Proof.
  destruct (parse_request users_request zero_request) as [req|] eqn:Hparse;
    [|by vm_compute in Hparse].
  pose proof (proj1 (proj2 C1_find_handler_first_match) _ _ Hparse) as Hpath.
  destruct (proj1 C1_find_handler_first_match main_server req
              main_server_routes_ok Hpath) as (handler & Hfind & _).
  exists req, handler. split; [reflexivity|exact Hfind].
Defined.

(** ** Decimal conversions *)

Lemma digit_is_digit (d : Z) :
  0 <= d < 10 → is_digit (digit d) = true ∧ code (digit d) - 48 = d.
Proof.
  intros Hd.
  assert (d = 0 ∨ d = 1 ∨ d = 2 ∨ d = 3 ∨ d = 4 ∨ d = 5 ∨ d = 6 ∨ d = 7
          ∨ d = 8 ∨ d = 9) as Hcases by lia.
  repeat destruct Hcases as [->|Hcases]; try subst d; by vm_compute.
Qed.

(** Scanning the digits that [fmt_u] printed gives the number back. *)
Lemma fmt_u_scan (fuel : nat) (n : Z) (acc : cstring) :
  0 <= n < 10 ^ Z.of_nat fuel →
  scan_digits (fmt_u fuel n acc) 0 = scan_digits acc n.
Proof.
  revert n acc. induction fuel as [|fuel IH]; intros n acc Hn.
  - simpl in *. by replace n with 0 by lia.
  - rewrite Nat2Z.inj_succ, Z.pow_succ_r in Hn by lia.
    cbn [fmt_u]. destruct (n <? 10) eqn:Hlt.
    + apply Z.ltb_lt in Hlt. rewrite Z.mod_small by lia.
      destruct (digit_is_digit n) as [Hd Hv]; [lia|].
      cbn [scan_digits]. rewrite Hd, Hv. done.
    + apply Z.ltb_ge in Hlt. rewrite IH.
      * destruct (digit_is_digit (n mod 10)) as [Hd Hv].
        { apply Z.mod_pos_bound. lia. }
        cbn [scan_digits]. rewrite Hd, Hv. f_equal.
        pose proof (Z.div_mod n 10). lia.
      * split; [apply Z.div_pos; lia|].
        apply Z.div_lt_upper_bound; lia.
Qed.

Lemma fmt_u_head (fuel : nat) (n : Z) (acc : cstring) :
  0 <= n →
  ∃ c rest, fmt_u (S fuel) n acc = c :: rest ∧ is_digit c = true.
Proof.
  revert n acc. induction fuel as [|fuel IH]; intros n acc Hn.
  - destruct (digit_is_digit (n mod 10)) as [Hd _].
    { apply Z.mod_pos_bound. lia. }
    cbn [fmt_u]. destruct (n <? 10); eauto.
  - destruct (digit_is_digit (n mod 10)) as [Hd _].
    { apply Z.mod_pos_bound. lia. }
    change (fmt_u (S (S fuel)) n acc)
      with (if n <? 10 then digit (n mod 10) :: acc
            else fmt_u (S fuel) (n / 10) (digit (n mod 10) :: acc)).
    destruct (n <? 10); [eauto|].
    apply IH. apply Z.div_pos; lia.
Qed.

Lemma is_digit_plain (c : ascii) :
  is_digit c = true →
  isspace c = false ∧ Ascii.eqb c "-"%char = false
  ∧ Ascii.eqb c "+"%char = false.
Proof.
  unfold is_digit, isspace. intros [H1 H2]%andb_true_iff.
  apply Z.leb_le in H1, H2. split_and!.
  - apply orb_false_iff. split; [apply Z.eqb_neq; lia|].
    apply andb_false_iff. right. apply Z.leb_gt. lia.
  - destruct (Ascii.eqb_spec c "-"%char) as [->|]; [|done].
    vm_compute in H1. done.
  - destruct (Ascii.eqb_spec c "+"%char) as [->|]; [|done].
    vm_compute in H1. done.
Qed.

(** What [%d] prints for an [int], [%d] reads back. *)
Lemma fmt_d_scan_d (z : Z) : is_int z → scan_d (fmt_d z) = Some (Some z).
Proof.
  intros [Hlo Hhi]. unfold fmt_d. destruct (z <? 0) eqn:Hneg.
  - apply Z.ltb_lt in Hneg.
    destruct (fmt_u_head 9 (- z) []) as (c & rest & Hfmt & Hc); [lia|].
    pose proof (fmt_u_scan 10 (- z) []) as Hscan.
    rewrite Hfmt in *. unfold scan_d. cbn [skip_space].
    replace (isspace "-"%char) with false by done.
    replace (Ascii.eqb "-"%char "-"%char) with true by done.
    rewrite Hc, Hscan by (simpl; lia). cbn [scan_digits].
    rewrite Z.opp_involutive.
    rewrite (proj2 (Z.leb_le _ _) Hlo), (proj2 (Z.leb_le _ _) Hhi). done.
  - apply Z.ltb_ge in Hneg.
    destruct (fmt_u_head 9 z []) as (c & rest & Hfmt & Hc); [lia|].
    pose proof (fmt_u_scan 10 z []) as Hscan.
    rewrite Hfmt in *. unfold scan_d. cbn [skip_space].
    destruct (is_digit_plain c Hc) as (-> & -> & ->).
    rewrite Hc, Hscan by (simpl; lia). cbn [scan_digits].
    rewrite (proj2 (Z.leb_le _ _) Hlo), (proj2 (Z.leb_le _ _) Hhi). done.
Qed.

(** ** One connection, end to end *)

(** [GET /api/users/2] is answered by [handle_user_get] with status 200 and
    the user's record. *)
Example serve_get_user :
  fst <$> serve main_server
            (lit "GET /api/users/2 HTTP/1.1" ++ CRLF ++ CRLF)
            unassigned_response sample_world
  = Some (response_text 200 (lit "application/json") 57
            (qlit "{'id': 2, 'name': 'User 2', 'email': 'user2@example.com'}")).
Proof. by vm_compute. Qed.

(** No route: the fallback handler answers 404. *)
Example serve_route_miss :
  fst <$> serve main_server
            (lit "GET /nowhere HTTP/1.1" ++ CRLF ++ CRLF)
            unassigned_response sample_world
  = Some (response_text 404 (lit "application/json") 28
            (qlit "{'error': 'Route not found'}")).
Proof. by vm_compute. Qed.

(** A method token outside the four known ones parses to [UNSUPPORTED] and
    falls through to the fallback handler as well. *)
Example serve_unsupported_method :
  req_method (request_of (lit "PATCH /api/users HTTP/1.1" ++ CRLF ++ CRLF))
  = UNSUPPORTED
  ∧ fst <$> serve main_server
              (lit "PATCH /api/users HTTP/1.1" ++ CRLF ++ CRLF)
              unassigned_response sample_world
    = Some (response_text 404 (lit "application/json") 28
              (qlit "{'error': 'Route not found'}")).
Proof. split; by vm_compute. Qed.

(** [/admin] without the marker: 401, for which [get_status_text] has no
    entry; with the marker the admin handler answers. *)
Example serve_admin :
  fst <$> serve main_server admin_request unassigned_response sample_world
  = Some (lit "HTTP/1.1 401 Unknown" ++ CRLF
          ++ lit "Content-Type: application/json" ++ CRLF
          ++ lit "Content-Length: 25" ++ CRLF
          ++ lit "Connection: close" ++ CRLF
          ++ CRLF
          ++ qlit "{'error': 'Unauthorized'}")
  ∧ fst <$> serve main_server
              (lit "GET /admin HTTP/1.1" ++ CRLF
               ++ lit "Authorization: Basic abc" ++ CRLF ++ CRLF)
              unassigned_response sample_world
    = Some (response_text 200 (lit "application/json") 37
              (qlit "{'message': 'Welcome to admin panel'}")).
Proof. split; by vm_compute. Qed.

(** The logger writes one line per request. *)
Example serve_log_line :
  w_stdout <$> (snd <$> serve main_server hello_request
                          unassigned_response sample_world)
  = Some (lit "[Thu Jan  1 00:00:00 1970] GET /api/hello?name=Ada" ++ [LF]).
Proof. by vm_compute. Qed.

(** * Further properties *)

(** ** Method names *)

Lemma parse_method_cases (method_str : cstring) :
  parse_method method_str
  = if decide (method_str = lit "GET") then GET
    else if decide (method_str = lit "POST") then POST
    else if decide (method_str = lit "PUT") then PUT
    else if decide (method_str = lit "DELETE") then DELETE
    else UNSUPPORTED.
Proof.
  unfold parse_method. rewrite !strcmp_eqb.
  repeat (case_bool_decide; case_decide; try done).
Qed.

(** X1: [parse_method] and [method_to_string] are inverse to each other:
    the name of a method parses to that method, and a token that parses to
    one of the four known methods is exactly that method's upper-case name
    (any other token, lower case included, is [UNSUPPORTED]). *)
Theorem X1_method_round_trip :
  (∀ method, parse_method (method_to_string method) = method)
  ∧ (∀ method_str method,
       parse_method method_str = method → method ≠ UNSUPPORTED →
       method_str = method_to_string method)
  ∧ parse_method (lit "get") = UNSUPPORTED.
Proof.
  split; [by intros []|]. split; [|done].
  intros method_str method Hparse Hknown. rewrite parse_method_cases in Hparse.
  repeat case_decide; subst; done.
Qed.

Lemma X1_method_round_trip_witness :
  lit "DELETE" = method_to_string DELETE.
Proof.
  apply (proj1 (proj2 X1_method_round_trip)); [by vm_compute|done].
Defined.

(** ** Tokens of the request line *)

Lemma skip_space_all_space (ws s : cstring) :
  all_space ws → skip_space (ws ++ s) = skip_space s.
Proof.
  induction 1 as [|c ws Hc _ IH]; simpl; [done|]. by rewrite Hc.
Qed.

Lemma scan_token_space_free (token rest : cstring) :
  space_free token → token_end rest →
  scan_token (token ++ rest) = (token, rest).
Proof.
  intros Htoken Hrest. induction Htoken as [|c token Hc _ IH]; simpl.
  - destruct Hrest as [->|(c & rest' & -> & Hc)]; simpl; [done|].
    by rewrite Hc.
  - by rewrite Hc, IH.
Qed.

(** [%s] skips white space and takes the token that follows, up to the next
    white space or the end. *)
Lemma scan_s_token (ws token rest : cstring) :
  all_space ws → token ≠ [] → space_free token → token_end rest →
  scan_s (ws ++ token ++ rest) = Some (token, rest).
Proof.
  intros Hws Hne Htoken Hrest. unfold scan_s.
  rewrite skip_space_all_space by done.
  destruct token as [|c token]; [done|].
  pose proof (Forall_inv Htoken) as Hc. simpl in Hc.
  cbn [app skip_space]. rewrite Hc.
  change (c :: token ++ rest) with ((c :: token) ++ rest).
  by rewrite scan_token_space_free.
Qed.

Lemma sscanf_s_s_tokens (ws0 method_str ws1 target rest : cstring) :
  all_space ws0 → method_str ≠ [] → space_free method_str →
  all_space ws1 → ws1 ≠ [] →
  target ≠ [] → space_free target → token_end rest →
  sscanf_s_s (ws0 ++ method_str ++ ws1 ++ target ++ rest)
  = (Some method_str, Some target).
Proof.
  intros Hws0 Hm Hmfree Hws1 Hws1ne Ht Htfree Hrest. unfold sscanf_s_s.
  rewrite (scan_s_token ws0 method_str); [|done..|].
  - by rewrite (scan_s_token ws1 target rest).
  - right. destruct ws1 as [|c ws1]; [done|].
    exists c, (ws1 ++ target ++ rest). split; [done|].
    by apply (Forall_inv Hws1).
Qed.

(** X2: the request line is read as two tokens separated by any run of
    white space (blanks, tabs, line ends), whatever precedes the first token
    being white space too; what follows the second token is not looked at.
    When the tokens fit their arrays, [parse_request] stores the method that
    [parse_method] gives for the first token. *)
Theorem X2_request_line_tokens (ws0 method_str ws1 target rest : cstring)
    (req : HttpRequest) :
  all_space ws0 → method_str ≠ [] → space_free method_str →
  all_space ws1 → ws1 ≠ [] →
  target ≠ [] → space_free target → token_end rest →
  (length method_str < 16)%nat → (length target < 512)%nat →
  nul_free (ws0 ++ method_str ++ ws1 ++ target ++ rest) →
  terminated_request req →
  sscanf_s_s (ws0 ++ method_str ++ ws1 ++ target ++ rest)
  = (Some method_str, Some target)
  ∧ ∃ req',
      parse_request (ws0 ++ method_str ++ ws1 ++ target ++ rest) req
      = Some req'
      ∧ req_method req' = parse_method method_str.
Proof.
  intros Hws0 Hm Hmfree Hws1 Hws1ne Ht Htfree Hrest Hmlen Htlen Hfree Hreq.
  pose proof (sscanf_s_s_tokens ws0 method_str ws1 target rest
                Hws0 Hm Hmfree Hws1 Hws1ne Ht Htfree Hrest) as Hscan.
  split; [done|].
  destruct (parse_request_fields _ method_str target req Hfree Hreq Hscan
              Hmlen Htlen) as (body & body_length & Hparse & _).
  eexists. split; [exact Hparse|done].
Qed.

Lemma X2_request_line_tokens_witness :
  ∃ req',
    parse_request ([LF] ++ lit "POST" ++ [" "%char; LF] ++ lit "/api/users"
                   ++ (CR :: lit "ignored")) zero_request
    = Some req'
    ∧ req_method req' = POST.
Proof.
  edestruct (X2_request_line_tokens [LF] (lit "POST") [" "%char; LF]
               (lit "/api/users") (CR :: lit "ignored") zero_request)
    as (_ & req' & Hparse & Hmethod).
  - repeat constructor.
  - done.
  - repeat constructor.
  - repeat constructor.
  - done.
  - done.
  - repeat constructor.
  - right. by eexists _, _.
  - vm_compute. lia.
  - vm_compute. lia.
  - compute_done.
  - apply zero_request_terminated.
  - exists req'. split; [exact Hparse|exact Hmethod].
Defined.

(** ** Body and header block of a parsed request *)

Lemma strstr_first (hay needle : cstring) (i : nat) :
  first_occurrence hay needle i → strstr hay needle = Some i.
Proof.
  intros (Hat & _ & Hfirst).
  destruct (strstr hay needle) as [k|] eqn:Hk.
  - apply strstr_Some in Hk as (Hk & _ & Hkfirst). f_equal.
    destruct (lt_eq_lt_dec k i) as [[Hlt| ->]|Hgt]; [|done|].
    + by destruct (Hfirst k Hlt).
    + by destruct (Hkfirst i Hgt).
  - by destruct (strstr_None _ _ Hk i).
Qed.

(** What [parse_request] leaves in the body, its length and the header
    block, whenever it has a result. *)
Lemma parse_request_inv (raw : cstring) (req req' : HttpRequest) :
  parse_request raw req = Some req' →
  req_headers req' = strncpy (req_headers req) raw 1023
  ∧ match strstr raw (CRLF ++ CRLF) with
    | Some body_start =>
        req_body req'
        = strncpy (req_body req) (drop (body_start + 4) raw) 2047
        ∧ strlen (req_body req') = Some (req_body_length req')
    | None =>
        req_body req' = req_body req
        ∧ req_body_length req' = req_body_length req
    end.
Proof.
  unfold parse_request. intros Hparse.
  destruct (sscanf_s_s raw) as [[method_str|] [full_path|]]; try done.
  cbn [mbind option_bind] in Hparse.
  destruct (negb _); [done|].
  destruct (strchr full_path "?"%char);
    (destruct (strstr raw (CRLF ++ CRLF)) as [body_start|];
     [destruct (strlen _) as [len|] eqn:Hlen|]);
    cbn [mbind option_bind] in Hparse; try done;
    injection Hparse as <-; cbn [req_headers req_body req_body_length]; done.
Qed.

(** X3: the body of a parsed request is whatever follows the first empty
    line (CR LF CR LF) of the raw request, cut to its first 2047 bytes, and
    [body_length] is the length of what was kept; a request without an
    empty line leaves body and [body_length] as they were in [req]. *)
Theorem X3_request_body (raw : cstring) (req req' : HttpRequest) :
  nul_free raw → terminated_request req →
  parse_request raw req = Some req' →
  (∀ i, first_occurrence raw (CRLF ++ CRLF) i →
     read_cstr (req_body req') = Some (take 2047 (drop (i + 4) raw))
     ∧ req_body_length req'
       = Z.of_nat (length (take 2047 (drop (i + 4) raw))))
  ∧ (¬ contains raw (CRLF ++ CRLF) →
     req_body req' = req_body req
     ∧ req_body_length req' = req_body_length req).
Proof.
  intros Hfree (_ & _ & Hbody & _) Hparse.
  destruct (parse_request_inv raw req req' Hparse) as [_ Hinv]. split.
  - intros i Hi%strstr_first. rewrite Hi in Hinv. destruct Hinv as [Hb Hlen].
    assert (read_cstr (req_body req') = Some (take 2047 (drop (i + 4) raw)))
      as Hread.
    { rewrite Hb. apply strncpy_read_terminated;
        [by apply nul_free_drop|by apply terminated_last]. }
    split; [done|]. unfold strlen in Hlen. rewrite Hread in Hlen.
    by injection Hlen as <-.
  - intros Hnone%strstr_None_contains. by rewrite Hnone in Hinv.
Qed.

Lemma X3_request_body_witness :
  ∃ req',
    parse_request post_request zero_request = Some req'
    ∧ read_cstr (req_body req') = Some (lit "{}" ++ CRLF ++ CRLF ++ lit "more")
    ∧ req_body_length req' = 10.
Proof.
  destruct (parse_request post_request zero_request)
    as [req'|] eqn:Hparse; [|by vm_compute in Hparse].
  destruct (X3_request_body post_request zero_request req') as [Hbody _];
    [compute_done|apply zero_request_terminated|exact Hparse|].
  destruct (Hbody 24%nat) as [Hread Hlen].
  { split_and!; [by eexists|vm_compute; lia|].
    intros j Hj. apply (bool_decide_eq_false_1 (_ `prefix_of` _)).
    do 24 (destruct j as [|j]; [by vm_compute|]). lia. }
  exists req'. split; [reflexivity|]. split; [exact Hread|exact Hlen].
Defined.

Lemma parse_request_headers (raw : cstring) (req req' : HttpRequest) :
  nul_free raw → terminated_request req →
  parse_request raw req = Some req' →
  read_cstr (req_headers req') = Some (take 1023 raw).
Proof.
  intros Hfree (_ & _ & _ & Hh) Hparse.
  destruct (parse_request_inv raw req req' Hparse) as [-> _].
  apply strncpy_read_terminated; [done|by apply terminated_last].
Qed.

(** X4: the header block of a parsed request is the whole raw request,
    request line and body included, cut to its first 1023 bytes; and the
    parser keeps every array of the request terminated, so that path, query
    string and body are strings of at most 255, 511 and 2047 bytes. *)
Theorem X4_header_block (raw : cstring) (req req' : HttpRequest) :
  nul_free raw → terminated_request req →
  parse_request raw req = Some req' →
  read_cstr (req_headers req') = Some (take 1023 raw)
  ∧ terminated_request req'
  ∧ ∃ path query body,
      read_cstr (req_path req') = Some path ∧ (length path ≤ 255)%nat
      ∧ read_cstr (req_query_string req') = Some query
      ∧ (length query ≤ 511)%nat
      ∧ read_cstr (req_body req') = Some body ∧ (length body ≤ 2047)%nat.
Proof.
  intros Hfree Hreq Hparse.
  split; [by eapply parse_request_headers|].
  pose proof (parse_request_terminated raw req req' Hreq Hparse) as Hreq'.
  split; [done|]. destruct Hreq' as (Hp & Hq & Hb & _).
  destruct (terminated_readable 255 _ Hp) as (path & Hpath & Hplen).
  destruct (terminated_readable 511 _ Hq) as (query & Hquery & Hqlen).
  destruct (terminated_readable 2047 _ Hb) as (body & Hbody & Hblen).
  by exists path, query, body.
Qed.

Lemma X4_header_block_witness :
  ∃ req',
    parse_request post_request zero_request = Some req'
    ∧ read_cstr (req_headers req') = Some post_request.
Proof.
  destruct (parse_request post_request zero_request)
    as [req'|] eqn:Hparse; [|by vm_compute in Hparse].
  destruct (X4_header_block post_request zero_request req') as [Hheaders _];
    [compute_done|apply zero_request_terminated|exact Hparse|].
  exists req'. split; [reflexivity|exact Hheaders].
Defined.

(** ** The authorization check, when it lets a request pass *)

Lemma strstr_contains (hay needle : cstring) :
  contains hay needle → is_Some (strstr hay needle).
Proof.
  intros H. destruct (strstr hay needle) eqn:Hs; [eauto|].
  by apply strstr_None_contains in Hs.
Qed.

Lemma strstr_Some_contains (hay needle : cstring) (i : nat) :
  strstr hay needle = Some i → contains hay needle.
Proof.
  intros ([k Hk] & _ & _)%strstr_Some.
  exists (take i hay), k. by rewrite <- Hk, take_drop.
Qed.

Lemma auth_path_test (req : HttpRequest) (path : cstring) :
  read_cstr (req_path req) = Some path →
  (strncmp (read_cstr_n (req_path req) 6) (lit "/admin") 6 =? 0)
  = bool_decide (lit "/admin" `prefix_of` path).
Proof.
  intros Hpath. rewrite (read_cstr_n_take _ _ _ Hpath).
  unfold strncmp. rewrite take_take, strcmp_eqb.
  change (6 `min` 6)%nat with 6%nat.
  change (take 6 (lit "/admin")) with (lit "/admin").
  apply bool_decide_ext. split.
  - intros H. rewrite <- H. apply prefix_take.
  - intros [k ->]. by rewrite (take_app_length' (lit "/admin") k 6).
Qed.

Lemma auth_middleware_other_path (st : State) (path : cstring) :
  read_cstr (req_path (st_req st)) = Some path →
  ¬ lit "/admin" `prefix_of` path →
  auth_middleware st = Some (true, st).
Proof.
  intros Hpath Hnot. unfold auth_middleware.
  by rewrite (auth_path_test _ _ Hpath), bool_decide_eq_false_2.
Qed.

Lemma auth_middleware_marker (st : State) (headers : cstring) :
  read_cstr (req_headers (st_req st)) = Some headers →
  contains headers (lit "Authorization:") →
  auth_middleware st = Some (true, st).
Proof.
  intros Hheaders [i Hi]%strstr_contains. unfold auth_middleware.
  destruct (_ =? 0); [|done].
  rewrite Hheaders. cbn [mbind option_bind]. by rewrite Hi.
Qed.

(** X5: [auth_middleware] lets a request pass untouched when its path does
    not begin with [/admin], and also when the header block holds the text
    [Authorization:] anywhere, with any value or none: the value is never
    looked at. *)
Theorem X5_auth_passes :
  (∀ st path,
     read_cstr (req_path (st_req st)) = Some path →
     ¬ lit "/admin" `prefix_of` path →
     auth_middleware st = Some (true, st))
  ∧ (∀ st headers,
       read_cstr (req_headers (st_req st)) = Some headers →
       contains headers (lit "Authorization:") →
       auth_middleware st = Some (true, st)).
Proof.
  split; [apply auth_middleware_other_path|apply auth_middleware_marker].
Qed.

Lemma X5_auth_passes_witness :
  auth_middleware (sample_state users_request)
  = Some (true, sample_state users_request)
  ∧ auth_middleware (sample_state marker_in_body_request)
    = Some (true, sample_state marker_in_body_request).
Proof.
  split.
  - apply (proj1 X5_auth_passes _ (lit "/api/users")); [by vm_compute|].
    apply (bool_decide_eq_false_1 (_ `prefix_of` _)). by vm_compute.
  - apply (proj2 X5_auth_passes _ marker_in_body_request); [by vm_compute|].
    by exists (lit "GET /admin HTTP/1.1" ++ CRLF ++ CRLF), [].
Defined.

(** X6: the authorization check of a parsed request looks at the first
    1023 bytes of the raw request.  [Authorization:] anywhere in them, the
    request line and the body included, lets the request pass; a request to
    a path under [/admin] whose first 1023 bytes do not hold it is refused
    with 401, even when the header follows later. *)
Theorem X6_auth_of_parsed_request (raw : cstring) (req req' : HttpRequest)
    (res : HttpResponse) (w : World) :
  nul_free raw → terminated_request req →
  parse_request raw req = Some req' →
  (contains (take 1023 raw) (lit "Authorization:") →
   auth_middleware (mkState req' res w) = Some (true, mkState req' res w))
  ∧ (∀ path,
       read_cstr (req_path req') = Some path →
       lit "/admin" `prefix_of` path →
       ¬ contains (take 1023 raw) (lit "Authorization:") →
       ∃ res',
         auth_middleware (mkState req' res w)
         = Some (false, mkState req' res' w)
         ∧ res_status_code res' = 401).
Proof.
  intros Hfree Hreq Hparse.
  pose proof (parse_request_headers raw req req' Hfree Hreq Hparse) as Hh.
  split.
  - intros Hmarker. by apply (auth_middleware_marker _ (take 1023 raw)).
  - intros path Hpath Hadmin Hnone.
    destruct (auth_middleware_rejects (mkState req' res w) path
                (take 1023 raw) Hpath Hadmin Hh Hnone)
      as (res' & Hauth & Hstatus & _).
    by exists res'.
Qed.

Lemma X6_auth_of_parsed_request_witness :
  contains late_marker_request (lit "Authorization:")
  ∧ ∃ req' res',
      parse_request late_marker_request zero_request = Some req'
      ∧ auth_middleware (mkState req' (init_response unassigned_response)
                                 sample_world)
        = Some (false, mkState req' res' sample_world)
      ∧ res_status_code res' = 401.
Proof.
  split.
  { destruct (strstr late_marker_request (lit "Authorization:")) eqn:Hs.
    - by eapply strstr_Some_contains.
    - by vm_compute in Hs. }
  destruct (parse_request late_marker_request zero_request)
    as [req'|] eqn:Hparse; [|by vm_compute in Hparse].
  destruct (X6_auth_of_parsed_request late_marker_request zero_request req'
              (init_response unassigned_response) sample_world)
    as [_ Hrefuse];
    [compute_done|apply zero_request_terminated|exact Hparse|].
  destruct (Hrefuse (lit "/admin")) as (res' & Hauth & Hstatus).
  - vm_compute in Hparse. injection Hparse as <-. by vm_compute.
  - by exists [].
  - apply strstr_None_contains. by vm_compute.
  - exists req', res'. split; [reflexivity|]. split; [exact Hauth|exact Hstatus].
Defined.

(** ** When a pattern matches *)

Lemma path_matches_true_inv (pattern path : cstring) :
  path_matches pattern path = Some true →
  pattern = path
  ∨ ∃ prefix rest,
      pattern = prefix ++ lit "/:id" ++ rest ∧ prefix `prefix_of` path.
Proof.
  unfold path_matches. rewrite strcmp_eqb. case_bool_decide as Heq; [by left|].
  destruct (strstr pattern (lit "/:id")) as [i|] eqn:Hi; [|done].
  destruct (length pattern <? 255)%nat eqn:Hlen; [|done].
  apply Nat.ltb_lt in Hlen. rewrite take_ge by lia. rewrite Hi.
  destruct (strncmp _ _ _ =? 0) eqn:Hcmp; [|done]. intros _. right.
  apply Z.eqb_eq, strncmp_prefix in Hcmp.
  apply strstr_Some in Hi as ([rest Hrest] & _ & _).
  exists (take i pattern), rest. split; [|done].
  by rewrite <- Hrest, take_drop.
Qed.

(** X7: for a pattern shorter than 255 bytes [path_matches] is true
    exactly when the path equals the pattern or the pattern holds [/:id]
    somewhere and the path starts with what precedes it: whatever follows
    the placeholder in the pattern plays no part.  A pattern without
    [/:id] matches its own text only. *)
Theorem X7_path_matches_exactly :
  (∀ pattern path,
     (length pattern < 255)%nat →
     path_matches pattern path = Some true
     ↔ pattern = path
       ∨ ∃ prefix rest,
           pattern = prefix ++ lit "/:id" ++ rest ∧ prefix `prefix_of` path)
  ∧ (∀ pattern path,
       ¬ contains pattern (lit "/:id") →
       path_matches pattern path = Some (bool_decide (pattern = path))).
Proof.
  split.
  - intros pattern path Hlen. split; [apply path_matches_true_inv|].
    intros [->|(prefix & rest & -> & Hpre)];
      [apply path_matches_exact|by apply path_matches_placeholder].
  - intros pattern path Hnone%strstr_None_contains.
    case_bool_decide as Heq; [subst; apply path_matches_exact|].
    by apply path_matches_literal.
Qed.

Lemma X7_path_matches_exactly_witness :
  path_matches (lit "/shops/:id/items") (lit "/shops/7/orders") = Some true
  ∧ path_matches (lit "/api/users") (lit "/api/users/7") = Some false.
Proof.
  split.
  - apply (proj1 X7_path_matches_exactly); [vm_compute; lia|].
    right. exists (lit "/shops"), (lit "/items"). split; [done|].
    by exists (lit "/7/orders").
  - apply (proj2 X7_path_matches_exactly (lit "/api/users") (lit "/api/users/7")).
    apply strstr_None_contains. by vm_compute.
Defined.

(** ** Lookup by method *)

Lemma route_test_other_method (route : Route) (req : HttpRequest) :
  route_method route ≠ req_method req → route_test route req = Some false.
Proof. intros H. unfold route_test. by case_decide. Qed.

Lemma find_handler_no_method (server : Server) (req : HttpRequest) :
  (Z.to_nat (route_count server) ≤ length (routes server))%nat →
  (∀ route, route ∈ registered_routes server →
     route_method route ≠ req_method req) →
  find_handler server req = Some handle_not_found.
Proof.
  intros Hcount Hother. apply find_handler_from_miss. intros j Hj. simpl.
  destruct (lookup_lt_is_Some_2 (routes server) j) as [route Hat]; [lia|].
  exists route. split; [done|]. apply route_test_other_method, Hother.
  apply list_elem_of_lookup. exists j. by apply registered_routes_lookup.
Qed.

(** X8: [find_handler] compares the method before it looks at any path:
    when no route in use has the request's method the fallback handler is
    returned, whatever the path array of the request holds.  The table of
    [setup_routes] has no route for PUT, so every PUT request, like every
    request with an unknown method, gets the fallback. *)
Theorem X8_method_without_route :
  (∀ server req,
     (Z.to_nat (route_count server) ≤ length (routes server))%nat →
     (∀ route, route ∈ registered_routes server →
        route_method route ≠ req_method req) →
     find_handler server req = Some handle_not_found)
  ∧ (∀ req,
       req_method req = PUT ∨ req_method req = UNSUPPORTED →
       find_handler main_server req = Some handle_not_found).
Proof.
  split; [apply find_handler_no_method|].
  intros req Hmethod. apply find_handler_no_method.
  - apply main_server_routes_ok.
  - intros route Hin.
    assert ((route_method route, read_cstr (route_path route))
            ∈ (λ route, (route_method route, read_cstr (route_path route)))
                <$> registered_routes main_server) as H.
    { apply list_elem_of_fmap. by exists route. }
    rewrite main_server_routes in H.
    repeat (apply elem_of_cons in H as [[= -> _]|H];
            [by destruct Hmethod as [-> | ->]|]).
    by apply elem_of_nil in H.
Qed.

Lemma X8_method_without_route_witness :
  find_handler main_server
    (mkRequest PUT (replicate 256 "x"%char) [] [] 0 [])
  = Some handle_not_found.
Proof. apply (proj2 X8_method_without_route). by left. Defined.

(** ** Registration followed by lookup *)

Lemma route_tests_defined (server : Server) (req : HttpRequest) :
  routes_ok server → is_Some (read_cstr (req_path req)) →
  ∀ j, (j < Z.to_nat (route_count server))%nat →
    ∃ route, routes server !! j = Some route
             ∧ is_Some (route_test route req).
Proof.
  intros [Hcount Hok] Hpath j Hj.
  destruct (lookup_lt_is_Some_2 (routes server) j) as [route Hat]; [lia|].
  exists route. split; [done|].
  destruct (Hok route) as (pattern & Hp & Hlen).
  { apply list_elem_of_lookup. exists j. by apply registered_routes_lookup. }
  by eapply route_test_defined.
Qed.

(** The first hit among the routes in use, when there is a hit at all. *)
Lemma first_hit_exists (server : Server) (req : HttpRequest) (route : Route) :
  routes_ok server → route ∈ registered_routes server → route_hit route req →
  ∃ k first,
    registered_routes server !! k = Some first
    ∧ route_test first req = Some true
    ∧ ∀ j, (j < k)%nat →
        ∃ earlier, registered_routes server !! j = Some earlier
                   ∧ route_test earlier req = Some false.
Proof.
  intros Hok (i & [Hi Hat]%registered_routes_lookup)%list_elem_of_lookup Hhit.
  assert (is_Some (read_cstr (req_path req))) as Hpath.
  { destruct Hhit as (_ & pattern & path & _ & Hq & _). eauto. }
  destruct (first_hit_or_none server req (Z.to_nat (route_count server))
              (route_tests_defined server req Hok Hpath))
    as [(k & first & Hk & Hfirst & Htest & Hbefore)|Hnone].
  - exists k, first. split; [by apply registered_routes_lookup|].
    split; [done|]. intros j Hj.
    destruct (Hbefore j Hj) as (earlier & He & Hm).
    exists earlier. split; [|done]. apply registered_routes_lookup.
    split; [lia|done].
  - destruct (Hnone i Hi) as (r & Hr & Hmiss).
    apply route_test_true in Hhit. congruence.
Qed.

Lemma find_handler_hit_registered (server : Server) (req : HttpRequest)
    (k : nat) (route : Route) :
  registered_routes server !! k = Some route →
  route_test route req = Some true →
  (∀ j, (j < k)%nat →
     ∃ earlier, registered_routes server !! j = Some earlier
                ∧ route_test earlier req = Some false) →
  find_handler server req = Some (route_handler route).
Proof.
  intros [Hk Hat]%registered_routes_lookup Htest Hbefore.
  apply (find_handler_from_hit _ _ _ 0%nat k); [done..|].
  intros j Hj. destruct (Hbefore j Hj) as (earlier & He & Hm).
  exists earlier. split; [|done].
  by apply registered_routes_lookup in He as [_ He].
Qed.

(** X9: a route registered below capacity is found again: a request with
    its method and exactly its path, which no route registered before
    answers, gets the new handler.  And a registration never changes the
    answer for a request that some route registered before already
    answers. *)
Theorem X9_register_then_find :
  (∀ method path handler server req,
     routes_ok server →
     0 <= route_count server < MAX_ROUTES →
     (Z.to_nat (route_count server) < length (routes server))%nat →
     nul_free path → (length path < 255)%nat →
     req_method req = method →
     read_cstr (req_path req) = Some path →
     (∀ route, route ∈ registered_routes server → ¬ route_hit route req) →
     ∃ server',
       register_route method path handler server = Some server'
       ∧ find_handler server' req = Some handler)
  ∧ (∀ method path handler server req route,
       routes_ok server →
       0 <= route_count server < MAX_ROUTES →
       (Z.to_nat (route_count server) < length (routes server))%nat →
       route ∈ registered_routes server → route_hit route req →
       ∃ server',
         register_route method path handler server = Some server'
         ∧ find_handler server' req = find_handler server req).
Proof.
  split.
  - intros method path handler server req Hok Hcount Hlen Hfree Hshort
      Hmethod Hpath Hnone.
    destruct (register_route_appends method path handler server Hcount Hlen)
      as (slot & server' & _ & Hreg & _ & _ & _ & Happ).
    exists server'. split; [done|].
    assert (length (registered_routes server)
            = Z.to_nat (route_count server)) as Hn.
    { unfold registered_routes. rewrite length_take. lia. }
    apply (find_handler_hit_registered server' req
             (Z.to_nat (route_count server))
             (mkRoute method (strncpy (route_path slot) path 255) handler)).
    + rewrite Happ, <- Hn. by apply list_lookup_middle.
    + apply route_test_true. split; [done|]. exists path, path.
      split_and!; [by apply strncpy_read_short|done|apply path_matches_exact].
    + intros j Hj.
      destruct (route_tests_defined server req Hok (mk_is_Some _ _ Hpath) j Hj)
        as (earlier & He & [[|] Htest]).
      * exfalso. apply (Hnone earlier); [|by apply route_test_true].
        apply list_elem_of_lookup. exists j.
        by apply registered_routes_lookup.
      * exists earlier. split; [|done]. rewrite Happ.
        apply lookup_app_l_Some. by apply registered_routes_lookup.
  - intros method path handler server req route Hok Hcount Hlen Hin Hhit.
    destruct (register_route_appends method path handler server Hcount Hlen)
      as (slot & server' & _ & Hreg & _ & _ & _ & Happ).
    exists server'. split; [done|].
    destruct (first_hit_exists server req route Hok Hin Hhit)
      as (k & first & Hk & Htest & Hbefore).
    rewrite (find_handler_hit_registered server req k first); [|done..].
    apply (find_handler_hit_registered server' req k first); [|done|].
    + rewrite Happ. by apply lookup_app_l_Some.
    + intros j Hj. destruct (Hbefore j Hj) as (earlier & He & Hm).
      exists earlier. split; [|done]. rewrite Happ.
      by apply lookup_app_l_Some.
Qed.

Lemma main_server_count : route_count main_server = 8.
Proof. by vm_compute. Qed.

Lemma main_server_routes_length : length (routes main_server) = 50%nat.
Proof. by destruct main_server_inv as (H & _). Qed.

Lemma X9_register_then_find_witness :
  ∃ server',
    register_route GET (lit "/health") handle_admin main_server = Some server'
    ∧ find_handler server' health_request = Some handle_admin.
Proof.
  apply (proj1 X9_register_then_find).
  - apply main_server_routes_ok.
  - rewrite main_server_count. done.
  - rewrite main_server_count, main_server_routes_length. simpl. lia.
  - compute_done.
  - vm_compute. lia.
  - done.
  - by vm_compute.
  - intros route (j & Hat)%list_elem_of_lookup. apply route_test_false.
    do 8 (destruct j as [|j];
          [eval_tables in Hat; injection Hat as <-; by vm_compute|]).
    eval_tables in Hat. done.
Defined.

(** ** What registration stores *)

Lemma registered_routes_length (server : Server) :
  server_inv server →
  length (registered_routes server) = Z.to_nat (route_count server).
Proof.
  intros (Hlen & _ & Hcount & _). unfold registered_routes, MAX_ROUTES in *.
  rewrite length_take. lia.
Qed.

(** One registration of a route, under the invariant of the tables. *)
Lemma register_route_step (method : HttpMethod) (path : cstring)
    (handler : RouteHandler) (server : Server) :
  server_inv server → route_count server < MAX_ROUTES → nul_free path →
  ∃ server' route,
    register_route method path handler server = Some server'
    ∧ server_inv server'
    ∧ route_count server' = route_count server + 1
    ∧ middleware_count server' = middleware_count server
    ∧ registered_middleware server' = registered_middleware server
    ∧ registered_routes server' = registered_routes server ++ [route]
    ∧ route_is (method, take 255 path, handler) route.
Proof.
  intros Hinv Hroom Hfree.
  pose proof Hinv as (Hlen & _ & Hcount & _ & Hterm).
  destruct (register_route_appends method path handler server)
    as (slot & server' & Hslot & Hreg & Hc & Hm & Hmc & Happ);
    [lia|unfold MAX_ROUTES in *; lia|].
  exists server', (mkRoute method (strncpy (route_path slot) path 255) handler).
  split_and!; try done.
  - by eapply register_route_inv.
  - unfold registered_middleware. by rewrite Hm, Hmc.
  - unfold route_is. simpl. split_and!; [done| |done].
    apply strncpy_read_terminated; [done|].
    pose proof (Forall_lookup_1 _ _ _ _ Hterm Hslot) as [_ Hlast].
    exact Hlast.
Qed.

(** One registration of a middleware function, under the invariant. *)
Lemma register_middleware_step (gate : Middleware) (server : Server) :
  server_inv server → middleware_count server < MAX_MIDDLEWARE →
  ∃ server',
    register_middleware gate server = Some server'
    ∧ server_inv server'
    ∧ middleware_count server' = middleware_count server + 1
    ∧ route_count server' = route_count server
    ∧ registered_middleware server' = registered_middleware server ++ [gate]
    ∧ registered_routes server' = registered_routes server.
Proof.
  intros Hinv Hroom.
  pose proof Hinv as (_ & Hlen & _ & Hcount & _).
  destruct (register_middleware_appends gate server)
    as (server' & Hreg & Hc & _ & Hr & Hrc & Happ);
    [lia|unfold MAX_MIDDLEWARE in *; lia|].
  exists server'. split_and!; try done.
  - by eapply register_middleware_inv.
  - unfold registered_routes. by rewrite Hr, Hrc.
Qed.

(** X10: below capacity [register_route] adds one route at the end of the
    routes in use, with the method and handler given and with the path cut
    to its first 255 bytes; the middleware in use and the invariant of the
    tables are kept.  A pattern longer than 255 bytes is therefore stored
    without its tail. *)
Theorem X10_register_route_stores (method : HttpMethod) (path : cstring)
    (handler : RouteHandler) (server : Server) :
  server_inv server → route_count server < MAX_ROUTES → nul_free path →
  ∃ server' route,
    register_route method path handler server = Some server'
    ∧ server_inv server'
    ∧ route_count server' = route_count server + 1
    ∧ middleware_count server' = middleware_count server
    ∧ registered_middleware server' = registered_middleware server
    ∧ registered_routes server' = registered_routes server ++ [route]
    ∧ route_is (method, take 255 path, handler) route.
Proof. apply register_route_step. Qed.

Lemma X10_register_route_stores_witness :
  ∃ server' route,
    register_route GET (long_path ++ lit "/:id") handle_user_get server_zero
    = Some server'
    ∧ registered_routes server' = [route]
    ∧ read_cstr (route_path route) = Some (take 255 long_path).
Proof.
  destruct (X10_register_route_stores GET (long_path ++ lit "/:id")
              handle_user_get server_zero)
    as (server' & route & Hreg & _ & _ & _ & _ & Happ & _ & Hpath & _).
  - apply server_zero_inv.
  - done.
  - compute_done.
  - exists server', route. split; [exact Hreg|]. split; [exact Happ|].
    exact Hpath.
Defined.

(** ** Server setup *)

Lemma register_route_total (method : HttpMethod) (path : cstring)
    (handler : RouteHandler) (server : Server) :
  server_inv server →
  ∃ server', register_route method path handler server = Some server'
             ∧ server_inv server'.
Proof.
  intros Hinv. pose proof Hinv as (Hlen & _ & Hcount & _).
  destruct (register_route method path handler server) as [server'|] eqn:Hreg.
  - exists server'. split; [done|]. by eapply register_route_inv.
  - exfalso. unfold register_route in Hreg.
    destruct (route_count server <? MAX_ROUTES) eqn:Hlt; [|done].
    apply Z.ltb_lt in Hlt. unfold MAX_ROUTES in *.
    rewrite (proj2 (Z.ltb_ge _ _)) in Hreg by lia.
    destruct (lookup_lt_is_Some_2 (routes server)
                (Z.to_nat (route_count server))) as [slot Hslot]; [lia|].
    by rewrite Hslot in Hreg.
Qed.

Lemma register_middleware_total (gate : Middleware) (server : Server) :
  server_inv server →
  ∃ server', register_middleware gate server = Some server'
             ∧ server_inv server'.
Proof.
  intros Hinv. pose proof Hinv as (_ & Hlen & _ & Hcount & _).
  destruct (register_middleware gate server) as [server'|] eqn:Hreg.
  - exists server'. split; [done|]. by eapply register_middleware_inv.
  - exfalso. unfold register_middleware in Hreg.
    destruct (middleware_count server <? MAX_MIDDLEWARE) eqn:Hlt; [|done].
    apply Z.ltb_lt in Hlt. unfold MAX_MIDDLEWARE in *.
    rewrite (proj2 (Z.ltb_ge _ _)) in Hreg by lia.
    rewrite (proj2 (Nat.ltb_lt _ _)) in Hreg by lia. done.
Qed.

(** [setup_routes] always has a result under the invariant, full tables
    included. *)
Lemma setup_routes_total (server : Server) :
  server_inv server →
  ∃ server', setup_routes server = Some server' ∧ server_inv server'.
Proof.
  intros Hinv. unfold setup_routes.
  repeat match goal with
  | Hs : server_inv ?s |- context [register_middleware ?g ?s ≫= _] =>
      let s1 := fresh "s" in let Heq := fresh "Heq" in
      let Hinv1 := fresh "Hinv" in
      destruct (register_middleware_total g s Hs) as (s1 & Heq & Hinv1);
      rewrite Heq; cbn [mbind option_bind]; clear Heq Hs
  | Hs : server_inv ?s |- context [register_route ?m ?p ?h ?s ≫= _] =>
      let s1 := fresh "s" in let Heq := fresh "Heq" in
      let Hinv1 := fresh "Hinv" in
      destruct (register_route_total m p h s Hs) as (s1 & Heq & Hinv1);
      rewrite Heq; cbn [mbind option_bind]; clear Heq Hs
  end.
  by apply register_route_total.
Qed.

(** With room for three functions and eight routes, [setup_routes] appends
    them in the order of its text. *)
Lemma setup_routes_appends (server : Server) :
  server_inv server →
  route_count server <= 42 → middleware_count server <= 7 →
  ∃ server' new,
    setup_routes server = Some server'
    ∧ registered_middleware server'
      = registered_middleware server
        ++ [logger_middleware; auth_middleware; cors_middleware]
    ∧ registered_routes server' = registered_routes server ++ new
    ∧ Forall2 route_is setup_entries new.
Proof.
  intros Hinv Hroutes Hmw. unfold setup_routes.
  destruct (register_middleware_step logger_middleware server Hinv)
    as (s1 & -> & Hinv1 & Hm1 & Hc1 & Hg1 & Hr1);
    [unfold MAX_MIDDLEWARE; lia|]. cbn [mbind option_bind].
  destruct (register_middleware_step auth_middleware s1 Hinv1)
    as (s2 & -> & Hinv2 & Hm2 & Hc2 & Hg2 & Hr2);
    [unfold MAX_MIDDLEWARE; lia|]. cbn [mbind option_bind].
  destruct (register_middleware_step cors_middleware s2 Hinv2)
    as (s3 & -> & Hinv3 & Hm3 & Hc3 & Hg3 & Hr3);
    [unfold MAX_MIDDLEWARE; lia|]. cbn [mbind option_bind].
  destruct (register_route_step GET (lit "/") handle_home s3 Hinv3)
    as (s4 & r1 & -> & Hinv4 & Hc4 & _ & Hg4 & Hr4 & Hi1);
    [unfold MAX_ROUTES; lia|compute_done|]. cbn [mbind option_bind].
  destruct (register_route_step GET (lit "/api/hello") handle_hello s4 Hinv4)
    as (s5 & r2 & -> & Hinv5 & Hc5 & _ & Hg5 & Hr5 & Hi2);
    [unfold MAX_ROUTES; lia|compute_done|]. cbn [mbind option_bind].
  destruct (register_route_step GET (lit "/api/time") handle_time s5 Hinv5)
    as (s6 & r3 & -> & Hinv6 & Hc6 & _ & Hg6 & Hr6 & Hi3);
    [unfold MAX_ROUTES; lia|compute_done|]. cbn [mbind option_bind].
  destruct (register_route_step GET (lit "/api/users") handle_users_list
              s6 Hinv6)
    as (s7 & r4 & -> & Hinv7 & Hc7 & _ & Hg7 & Hr7 & Hi4);
    [unfold MAX_ROUTES; lia|compute_done|]. cbn [mbind option_bind].
  destruct (register_route_step POST (lit "/api/users") handle_user_create
              s7 Hinv7)
    as (s8 & r5 & -> & Hinv8 & Hc8 & _ & Hg8 & Hr8 & Hi5);
    [unfold MAX_ROUTES; lia|compute_done|]. cbn [mbind option_bind].
  destruct (register_route_step GET (lit "/api/users/:id") handle_user_get
              s8 Hinv8)
    as (s9 & r6 & -> & Hinv9 & Hc9 & _ & Hg9 & Hr9 & Hi6);
    [unfold MAX_ROUTES; lia|compute_done|]. cbn [mbind option_bind].
  destruct (register_route_step DELETE (lit "/api/users/:id")
              handle_user_delete s9 Hinv9)
    as (s10 & r7 & -> & Hinv10 & Hc10 & _ & Hg10 & Hr10 & Hi7);
    [unfold MAX_ROUTES; lia|compute_done|]. cbn [mbind option_bind].
  destruct (register_route_step GET (lit "/admin") handle_admin s10 Hinv10)
    as (s11 & r8 & -> & Hinv11 & Hc11 & _ & Hg11 & Hr11 & Hi8);
    [unfold MAX_ROUTES; lia|compute_done|].
  exists s11, [r1; r2; r3; r4; r5; r6; r7; r8]. split; [done|]. split_and!.
  - rewrite Hg11, Hg10, Hg9, Hg8, Hg7, Hg6, Hg5, Hg4, Hg3, Hg2, Hg1.
    by rewrite <- !app_assoc.
  - rewrite Hr11, Hr10, Hr9, Hr8, Hr7, Hr6, Hr5, Hr4, Hr3, Hr2, Hr1.
    by rewrite <- !app_assoc.
  - repeat (constructor; [assumption|]). constructor.
Qed.

(** X11: under the invariant of the tables [setup_routes] always has a
    result and keeps the invariant, full tables included (what does not fit
    is left out without notice).  With room for three more functions and
    eight more routes it appends the logger, the authorization check and the
    CORS function, in this order, and its eight routes in the order of its
    text. *)
Theorem X11_setup_routes :
  (∀ server,
     server_inv server →
     ∃ server', setup_routes server = Some server' ∧ server_inv server')
  ∧ (∀ server,
       server_inv server →
       route_count server <= 42 → middleware_count server <= 7 →
       ∃ server' new,
         setup_routes server = Some server'
         ∧ registered_middleware server'
           = registered_middleware server
             ++ [logger_middleware; auth_middleware; cors_middleware]
         ∧ registered_routes server' = registered_routes server ++ new
         ∧ Forall2 route_is setup_entries new).
Proof. split; [apply setup_routes_total|apply setup_routes_appends]. Qed.

Lemma X11_setup_routes_witness :
  ∃ server' new,
    setup_routes server_zero = Some server'
    ∧ registered_middleware server'
      = [logger_middleware; auth_middleware; cors_middleware]
    ∧ registered_routes server' = new
    ∧ Forall2 route_is setup_entries new.
Proof.
  destruct (proj2 X11_setup_routes server_zero)
    as (server' & new & Hsetup & Hmw & Hroutes & Hentries).
  - apply server_zero_inv.
  - unfold server_zero. cbn [route_count]. lia.
  - unfold server_zero. cbn [middleware_count]. lia.
  - change (registered_middleware server_zero) with (@nil Middleware) in Hmw.
    change (registered_routes server_zero) with (@nil Route) in Hroutes.
    exists server', new.
    split; [exact Hsetup|]. split; [exact Hmw|].
    split; [exact Hroutes|exact Hentries].
Defined.

(** ** The request log *)

Lemma print_print (w : World) (a b : cstring) :
  print (print w a) b = print w (a ++ b).
Proof. unfold print. simpl. by rewrite <- app_assoc. Qed.

(** The first byte of an array that holds a string. *)
Lemma read_cstr_first (a : char_array) (s : cstring) :
  read_cstr a = Some s → a !! 0%nat = Some (hd NUL s) ∧ (hd NUL s = NUL ↔ s = []).
Proof.
  intros (Hfree & rest & ->)%read_cstr_Some. destruct s as [|c s]; [done|].
  apply nul_free_cons in Hfree as [Hc _]. simpl. split; [done|].
  split; [done|discriminate].
Qed.

Lemma logger_middleware_line (st : State) (stamp path query : cstring)
    (last : ascii) :
  w_ctime (st_world st) (w_clock (st_world st)) = stamp ++ [last] →
  read_cstr (req_path (st_req st)) = Some path →
  read_cstr (req_query_string (st_req st)) = Some query →
  logger_middleware st
  = Some (true,
          mkState (st_req st) (st_res st)
                  (print (st_world st)
                         (log_line stamp (req_method (st_req st)) path query))).
Proof.
  intros Hctime Hpath Hquery. unfold logger_middleware. rewrite Hctime.
  rewrite length_app. cbn [length].
  replace (length stamp + 1 =? 0)%nat with false
    by (symmetry; apply Nat.eqb_neq; lia).
  rewrite Nat.add_sub, take_app_length, Hpath. cbn [mbind option_bind].
  destruct (read_cstr_first _ _ Hquery) as [-> Hempty].
  cbn [mbind option_bind]. unfold log_line.
  destruct (Ascii.eqb_spec (hd NUL query) NUL) as [Hnul|Hnul].
  - apply Hempty in Hnul. subst query. rewrite decide_True by done.
    cbn [mbind option_bind]. rewrite print_print.
    do 3 f_equal. by rewrite <- !app_assoc.
  - rewrite Hquery, decide_False by (intros Hq; by apply Hnul, Hempty).
    cbn [mbind option_bind]. rewrite !print_print.
    do 3 f_equal. by rewrite <- !app_assoc.
Qed.

(** X12: [logger_middleware] prints one line, made of the time string
    without its last byte between brackets, the method name, the path and,
    only when the query string is not empty, a question mark and the query
    string; it returns true and leaves request, response, clock and name
    buffer as they were.  The path and the query string are read as strings
    and the time string is not empty. *)
Theorem X12_logger_line (st : State) (stamp path query : cstring)
    (last : ascii) :
  w_ctime (st_world st) (w_clock (st_world st)) = stamp ++ [last] →
  read_cstr (req_path (st_req st)) = Some path →
  read_cstr (req_query_string (st_req st)) = Some query →
  ∃ w,
    logger_middleware st = Some (true, mkState (st_req st) (st_res st) w)
    ∧ w_stdout w
      = w_stdout (st_world st)
        ++ log_line stamp (req_method (st_req st)) path query
    ∧ w_clock w = w_clock (st_world st)
    ∧ w_name_buffer w = w_name_buffer (st_world st)
    ∧ (query = [] → "?"%char ∉ path → "?"%char ∉ stamp →
       "?"%char ∉ log_line stamp (req_method (st_req st)) path query).
Proof.
  intros Hctime Hpath Hquery. eexists. split.
  { by eapply logger_middleware_line. }
  split_and!; [done..|].
  intros -> Hp Hs. unfold log_line. rewrite decide_True by done.
  rewrite !not_elem_of_app. split_and!; try done; try compute_done.
  destruct (req_method (st_req st)); compute_done.
Qed.

Lemma X12_logger_line_witness :
  ∃ w,
    logger_middleware
      (state_of (request_with GET (lit "/api/hello") (lit "name=Ada")))
    = Some (true,
            mkState (request_with GET (lit "/api/hello") (lit "name=Ada"))
                    (init_response unassigned_response) w)
    ∧ w_stdout w
      = lit "[Thu Jan  1 00:00:00 1970] GET /api/hello?name=Ada" ++ [LF].
Proof.
  destruct (X12_logger_line
              (state_of (request_with GET (lit "/api/hello") (lit "name=Ada")))
              (lit "Thu Jan  1 00:00:00 1970") (lit "/api/hello")
              (lit "name=Ada") LF)
    as (w & Hrun & Hout & _); [reflexivity..|].
  exists w. split; [exact Hrun|exact Hout].
Defined.

(** ** The user handlers *)

Lemma fmt_u_app (fuel : nat) (n : Z) (acc : cstring) :
  fmt_u fuel n acc = fmt_u fuel n [] ++ acc.
Proof.
  revert n acc. induction fuel as [|fuel IH]; intros n acc; [done|].
  cbn [fmt_u]. destruct (n <? 10); [done|].
  rewrite (IH _ (_ :: acc)), (IH _ [_]). by rewrite <- app_assoc.
Qed.

Lemma fmt_u_digits (fuel : nat) (n : Z) (acc : cstring) :
  Forall (λ c, is_digit c = true) acc →
  Forall (λ c, is_digit c = true) (fmt_u fuel n acc).
Proof.
  revert n acc. induction fuel as [|fuel IH]; intros n acc Hacc; [done|].
  destruct (digit_is_digit (n mod 10)) as [Hd _].
  { apply Z.mod_pos_bound. lia. }
  cbn [fmt_u]. destruct (n <? 10); [by constructor|].
  apply IH. by constructor.
Qed.

Lemma digits_nul_free (s : cstring) :
  Forall (λ c, is_digit c = true) s → nul_free s.
Proof.
  unfold nul_free. intros Hall Hin.
  by pose proof (proj1 (Forall_forall _ _) Hall _ Hin).
Qed.

Lemma fmt_d_nul_free (z : Z) : nul_free (fmt_d z).
Proof.
  unfold fmt_d. destruct (z <? 0).
  - apply nul_free_cons. split; [done|].
    by apply digits_nul_free, fmt_u_digits.
  - by apply digits_nul_free, fmt_u_digits.
Qed.

Lemma fmt_ld_nul_free (z : Z) : nul_free (fmt_ld z).
Proof.
  unfold fmt_ld. destruct (z <? 0).
  - apply nul_free_cons. split; [done|].
    by apply digits_nul_free, fmt_u_digits.
  - by apply digits_nul_free, fmt_u_digits.
Qed.

Lemma fmt_ld_length (z : Z) : (length (fmt_ld z) ≤ 20)%nat.
Proof.
  unfold fmt_ld. destruct (z <? 0).
  - pose proof (fmt_u_length 19 (- z) []) as Hlen. cbn [length] in *. lia.
  - pose proof (fmt_u_length 19 z []) as Hlen. cbn [length] in *. lia.
Qed.

Lemma scan_digits_end (rest : cstring) (n : Z) :
  number_end rest → scan_digits rest n = n.
Proof. intros [->|(c & rest' & -> & Hc)]; [done|]. simpl. by rewrite Hc. Qed.

(** [%d] reads back what [%d] printed when no digit follows it. *)
Lemma fmt_d_scan_d_app (z : Z) (rest : cstring) :
  is_int z → number_end rest → scan_d (fmt_d z ++ rest) = Some (Some z).
Proof.
  intros [Hlo Hhi] Hend. unfold fmt_d. destruct (z <? 0) eqn:Hneg.
  - apply Z.ltb_lt in Hneg. rewrite <- app_comm_cons, <- fmt_u_app.
    destruct (fmt_u_head 9 (- z) rest) as (c & rest' & Hfmt & Hc); [lia|].
    pose proof (fmt_u_scan 10 (- z) rest) as Hscan.
    rewrite Hfmt in *. unfold scan_d. cbn [skip_space].
    replace (isspace "-"%char) with false by done.
    replace (Ascii.eqb "-"%char "-"%char) with true by done.
    rewrite Hc, Hscan by (simpl; lia). rewrite scan_digits_end by done.
    rewrite Z.opp_involutive.
    rewrite (proj2 (Z.leb_le _ _) Hlo), (proj2 (Z.leb_le _ _) Hhi). done.
  - apply Z.ltb_ge in Hneg. rewrite <- fmt_u_app.
    destruct (fmt_u_head 9 z rest) as (c & rest' & Hfmt & Hc); [lia|].
    pose proof (fmt_u_scan 10 z rest) as Hscan.
    rewrite Hfmt in *. unfold scan_d. cbn [skip_space].
    destruct (is_digit_plain c Hc) as (-> & -> & ->).
    rewrite Hc, Hscan by (simpl; lia). rewrite scan_digits_end by done.
    rewrite (proj2 (Z.leb_le _ _) Hlo), (proj2 (Z.leb_le _ _) Hhi). done.
Qed.

Lemma scan_user_id_number (z : Z) (rest : cstring) :
  is_int z → number_end rest →
  scan_user_id (lit "/api/users/" ++ fmt_d z ++ rest) = Some z.
Proof.
  intros Hz Hend. unfold scan_user_id.
  rewrite (proj2 (starts_with_prefix _ _)) by apply prefix_app_r, reflexivity.
  replace (drop 11 (lit "/api/users/" ++ fmt_d z ++ rest))
    with (fmt_d z ++ rest) by reflexivity.
  by rewrite fmt_d_scan_d_app.
Qed.

Lemma scan_user_id_other (path : cstring) :
  ¬ lit "/api/users/" `prefix_of` path → scan_user_id path = Some 0.
Proof.
  intros Hno. unfold scan_user_id.
  destruct (starts_with (lit "/api/users/") path) eqn:Hstart; [|done].
  by apply starts_with_prefix in Hstart.
Qed.

Lemma user_json_short (user_id : Z) :
  nul_free (user_json user_id) ∧ (length (user_json user_id) < 255)%nat.
Proof.
  pose proof (fmt_d_nul_free user_id). pose proof (fmt_d_length user_id).
  unfold user_json. split.
  - rewrite !nul_free_app. split_and!; try done; compute_done.
  - rewrite !length_app.
    change (length (qlit "{'id': ")) with 7%nat.
    change (length (qlit ", 'name': 'User ")) with 16%nat.
    change (length (qlit "', 'email': 'user")) with 17%nat.
    change (length (qlit "@example.com'}")) with 14%nat. lia.
Qed.

Lemma deleted_json_short (user_id : Z) :
  nul_free (deleted_json user_id) ∧ (length (deleted_json user_id) < 127)%nat.
Proof.
  pose proof (fmt_d_nul_free user_id). pose proof (fmt_d_length user_id).
  unfold deleted_json. split.
  - rewrite !nul_free_app. split_and!; try done; compute_done.
  - rewrite !length_app.
    change (length (qlit "{'message': 'User ")) with 18%nat.
    change (length (qlit " deleted', 'success': true}")) with 27%nat. lia.
Qed.

(** The response of [handle_user_get] in terms of the number that
    [sscanf] leaves in [user_id]. *)
Lemma handle_user_get_response (st : State) (path : cstring) (user_id : Z) :
  read_cstr (req_path (st_req st)) = Some path →
  scan_user_id path = Some user_id →
  ∃ res,
    handle_user_get st = Some (set_res st res)
    ∧ read_cstr (res_content_type res) = Some (lit "application/json")
    ∧ res_status_code res = (if bool_decide (1 <= user_id <= 3) then 200 else 404)
    ∧ read_cstr (res_body res)
      = Some (if bool_decide (1 <= user_id <= 3) then user_json user_id
              else qlit "{'error': 'User not found'}")
    ∧ body_length_ok res.
Proof.
  intros Hpath Hid. unfold handle_user_get. rewrite Hpath. cbn [mbind option_bind].
  rewrite Hid. cbn [mbind option_bind].
  destruct (user_json_short user_id) as [Hfree Hlen].
  case_bool_decide as Hrange.
  - rewrite (proj2 (Z.ltb_lt 0 user_id)), (proj2 (Z.leb_le user_id 3)) by lia.
    cbn [andb]. fold (user_json user_id).
    unfold snprintf. rewrite take_ge by lia.
    destruct (set_json_response_short (st_res st) 200 (user_json user_id))
      as (res & -> & Hstatus & Htype & Hbody & Hlength); [done|lia|].
    exists res. split; [done|]. split_and!; try done.
    exists (user_json user_id). done.
  - replace ((0 <? user_id) && (user_id <=? 3)) with false.
    2:{ symmetry. apply andb_false_iff.
        destruct (decide (0 < user_id)); [right; apply Z.leb_gt|left; apply Z.ltb_ge]; lia. }
    destruct (set_json_response_short (st_res st) 404
                (qlit "{'error': 'User not found'}"))
      as (res & -> & Hstatus & Htype & Hbody & Hlength);
      [compute_done|compute_done|].
    exists res. split; [done|]. split_and!; try done.
    eexists. split; [exact Hbody|exact Hlength].
Qed.

Lemma handle_user_delete_response (st : State) (path : cstring) (user_id : Z) :
  read_cstr (req_path (st_req st)) = Some path →
  scan_user_id path = Some user_id →
  ∃ res,
    handle_user_delete st = Some (set_res st res)
    ∧ read_cstr (res_content_type res) = Some (lit "application/json")
    ∧ res_status_code res = 200
    ∧ read_cstr (res_body res) = Some (deleted_json user_id)
    ∧ body_length_ok res.
Proof.
  intros Hpath Hid. unfold handle_user_delete. rewrite Hpath.
  cbn [mbind option_bind]. rewrite Hid. cbn [mbind option_bind].
  destruct (deleted_json_short user_id) as [Hfree Hlen].
  fold (deleted_json user_id). unfold snprintf. rewrite take_ge by lia.
  destruct (set_json_response_short (st_res st) 200 (deleted_json user_id))
    as (res & -> & Hstatus & Htype & Hbody & Hlength); [done|lia|].
  exists res. split; [done|]. split_and!; try done.
  exists (deleted_json user_id). done.
Qed.

(** X13: [handle_user_get] reads the decimal number that follows
    [/api/users/] in the path, whatever comes after its digits.  For the
    numbers 1, 2 and 3 it answers 200 with the record of that number; for
    every other number, and for a path that does not start with
    [/api/users/], it answers 404 with the error document.  In each case
    [body_length] is the length of the body. *)
Theorem X13_user_get (st : State) (path : cstring) :
  read_cstr (req_path (st_req st)) = Some path →
  (∀ n rest,
     is_int n → number_end rest →
     path = lit "/api/users/" ++ fmt_d n ++ rest →
     ∃ res,
       handle_user_get st = Some (set_res st res)
       ∧ res_status_code res = (if bool_decide (1 <= n <= 3) then 200 else 404)
       ∧ read_cstr (res_body res)
         = Some (if bool_decide (1 <= n <= 3) then user_json n
                 else qlit "{'error': 'User not found'}")
       ∧ body_length_ok res)
  ∧ (¬ lit "/api/users/" `prefix_of` path →
     ∃ res,
       handle_user_get st = Some (set_res st res)
       ∧ res_status_code res = 404
       ∧ read_cstr (res_body res) = Some (qlit "{'error': 'User not found'}")
       ∧ body_length_ok res).
Proof.
  intros Hpath. split.
  - intros n rest Hn Hend ->.
    destruct (handle_user_get_response st _ n Hpath)
      as (res & Hrun & _ & Hstatus & Hbody & Hlength).
    { by apply scan_user_id_number. }
    by exists res.
  - intros Hno.
    destruct (handle_user_get_response st _ 0 Hpath)
      as (res & Hrun & _ & Hstatus & Hbody & Hlength).
    { by apply scan_user_id_other. }
    by exists res.
Qed.

Lemma X13_user_get_witness :
  ∃ res,
    handle_user_get (state_of (request_with GET (lit "/api/users/2abc") []))
    = Some (set_res (state_of (request_with GET (lit "/api/users/2abc") []))
                    res)
    ∧ res_status_code res = 200
    ∧ read_cstr (res_body res)
      = Some (qlit "{'id': 2, 'name': 'User 2', 'email': 'user2@example.com'}").
Proof.
  destruct (proj1 (X13_user_get
                     (state_of (request_with GET (lit "/api/users/2abc") []))
                     (lit "/api/users/2abc") eq_refl)
                  2 (lit "abc"))
    as (res & Hrun & Hstatus & Hbody & _).
  - unfold is_int. lia.
  - right. exists "a"%char, (lit "bc"). split; reflexivity.
  - reflexivity.
  - exists res. split; [exact Hrun|]. split; [exact Hstatus|exact Hbody].
Defined.

(** X14: [handle_user_delete] answers 200 with the document that names the
    number read after [/api/users/], for every number: no user is looked
    up.  For a path that does not start with [/api/users/] the number
    is 0. *)
Theorem X14_user_delete (st : State) (path : cstring) :
  read_cstr (req_path (st_req st)) = Some path →
  (∀ n rest,
     is_int n → number_end rest →
     path = lit "/api/users/" ++ fmt_d n ++ rest →
     ∃ res,
       handle_user_delete st = Some (set_res st res)
       ∧ res_status_code res = 200
       ∧ read_cstr (res_body res) = Some (deleted_json n)
       ∧ body_length_ok res)
  ∧ (¬ lit "/api/users/" `prefix_of` path →
     ∃ res,
       handle_user_delete st = Some (set_res st res)
       ∧ res_status_code res = 200
       ∧ read_cstr (res_body res) = Some (deleted_json 0)
       ∧ body_length_ok res).
Proof.
  intros Hpath. split.
  - intros n rest Hn Hend ->.
    destruct (handle_user_delete_response st _ n Hpath)
      as (res & Hrun & _ & Hstatus & Hbody & Hlength).
    { by apply scan_user_id_number. }
    by exists res.
  - intros Hno.
    destruct (handle_user_delete_response st _ 0 Hpath)
      as (res & Hrun & _ & Hstatus & Hbody & Hlength).
    { by apply scan_user_id_other. }
    by exists res.
Qed.

Lemma X14_user_delete_witness :
  ∃ res,
    handle_user_delete
      (state_of (request_with DELETE (lit "/api/users/-99") []))
    = Some (set_res (state_of (request_with DELETE (lit "/api/users/-99") []))
                    res)
    ∧ res_status_code res = 200
    ∧ read_cstr (res_body res)
      = Some (qlit "{'message': 'User -99 deleted', 'success': true}").
Proof.
  destruct (proj1 (X14_user_delete
                     (state_of (request_with DELETE (lit "/api/users/-99") []))
                     (lit "/api/users/-99") eq_refl)
                  (-99) [])
    as (res & Hrun & Hstatus & Hbody & _).
  - unfold is_int. lia.
  - by left.
  - reflexivity.
  - exists res. split; [exact Hrun|]. split; [exact Hstatus|exact Hbody].
Defined.

(** ** The greeting *)

Lemma hello_json_short (name : cstring) (timestamp : Z) :
  nul_free name → (length name ≤ 63)%nat →
  nul_free (hello_json name timestamp)
  ∧ (length (hello_json name timestamp) < 255)%nat.
Proof.
  intros Hfree Hlen.
  pose proof (fmt_ld_nul_free timestamp). pose proof (fmt_ld_length timestamp).
  unfold hello_json. split.
  - rewrite !nul_free_app. split_and!; try done; compute_done.
  - rewrite !length_app.
    change (length (qlit "{'message': 'Hello, ")) with 20%nat.
    change (length (qlit "!', 'timestamp': ")) with 17%nat.
    change (length (lit "}")) with 1%nat. lia.
Qed.

(** The end of [handle_hello] once the name is chosen. *)
Lemma hello_tail (req : HttpRequest) (res0 : HttpResponse) (w : World)
    (name : cstring) :
  nul_free name → (length name ≤ 63)%nat →
  ∃ res,
    (res ← set_json_response res0 200
             (snprintf 256 (hello_json name (w_clock w)));
     Some (mkState req res w)) = Some (mkState req res w)
    ∧ res_status_code res = 200
    ∧ read_cstr (res_content_type res) = Some (lit "application/json")
    ∧ read_cstr (res_body res) = Some (hello_json name (w_clock w))
    ∧ body_length_ok res.
Proof.
  intros Hfree Hlen.
  destruct (hello_json_short name (w_clock w) Hfree Hlen) as [Hjson Hshort].
  unfold snprintf. rewrite take_ge by lia.
  destruct (set_json_response_short res0 200 (hello_json name (w_clock w)))
    as (res & -> & Hstatus & Htype & Hbody & Hlength); [done|lia|].
  exists res. split; [done|]. split_and!; try done.
  exists (hello_json name (w_clock w)). done.
Qed.

Lemma handle_hello_guest (st : State) (query : cstring) :
  read_cstr (req_query_string (st_req st)) = Some query →
  query = [] ∨ ¬ contains query (lit "name=") →
  ∃ st',
    handle_hello st = Some st' ∧ greets (lit "Guest") st st'
    ∧ w_name_buffer (st_world st') = w_name_buffer (st_world st).
Proof.
  intros Hquery Hcase.
  destruct (hello_tail (st_req st) (st_res st) (st_world st) (lit "Guest"))
    as (res & Hrun & Hstatus & Htype & Hbody & Hlength);
    [compute_done|compute_done|].
  exists (mkState (st_req st) res (st_world st)). split; [|done].
  unfold handle_hello.
  destruct (read_cstr_first _ _ Hquery) as [-> Hempty].
  cbn [mbind option_bind].
  destruct (Ascii.eqb_spec (hd NUL query) NUL) as [Hnul|Hnul].
  - cbn [mbind option_bind]. exact Hrun.
  - destruct Hcase as [->|Hno]; [by destruct Hnul|].
    rewrite Hquery. cbn [mbind option_bind].
    apply strstr_None_contains in Hno. rewrite Hno.
    cbn [mbind option_bind]. exact Hrun.
Qed.

Lemma handle_hello_named (st : State) (query value rest : cstring) (i : nat) :
  read_cstr (req_query_string (st_req st)) = Some query →
  first_occurrence query (lit "name=") i →
  drop (i + 5) query = value ++ rest →
  value ≠ [] → space_free value → token_end rest →
  ∃ st',
    handle_hello st = Some st' ∧ greets (take 63 value) st st'
    ∧ w_name_buffer (st_world st')
      = strcpy (w_name_buffer (st_world st)) (take 63 value).
Proof.
  intros Hquery Hfirst Hdrop Hvalue Hspace Hend.
  pose proof (read_cstr_inv _ _ Hquery) as [Hfree _].
  assert (nul_free (take 63 value)) as Hname.
  { apply nul_free_take.
    assert (nul_free (value ++ rest)) as Hvr
      by (rewrite <- Hdrop; by apply nul_free_drop).
    by apply nul_free_app in Hvr as [? _]. }
  destruct (hello_tail (st_req st) (st_res st)
              (set_name_buffer (st_world st)
                 (strcpy (w_name_buffer (st_world st)) (take 63 value)))
              (take 63 value))
    as (res & Hrun & Hstatus & Htype & Hbody & Hlength);
    [done|rewrite length_take; lia|].
  exists (mkState (st_req st) res
            (set_name_buffer (st_world st)
               (strcpy (w_name_buffer (st_world st)) (take 63 value)))).
  split; [|split; [|reflexivity]].
  - unfold handle_hello.
    destruct (read_cstr_first _ _ Hquery) as [-> Hempty].
    cbn [mbind option_bind].
    destruct (Ascii.eqb_spec (hd NUL query) NUL) as [Hnul|Hnul].
    { apply Hempty in Hnul. subst query.
      destruct Hfirst as ([k Hk] & _). rewrite drop_nil in Hk. done. }
    rewrite Hquery. cbn [mbind option_bind].
    rewrite (strstr_first _ _ _ Hfirst).
    unfold scan_name. rewrite drop_drop, Hdrop.
    destruct value as [|c value]; [done|].
    apply Forall_cons in Hspace as Hc. destruct Hc as [Hc _].
    rewrite <- app_comm_cons. cbn [skip_space]. rewrite Hc.
    rewrite app_comm_cons, scan_token_space_free by done. cbn [fst].
    rewrite strcpy_read by done. cbn [mbind option_bind]. exact Hrun.
  - unfold greets. cbn [st_req st_res st_world]. split_and!; done.
Qed.

Lemma handle_hello_stale (st : State) (query old : cstring) (i : nat) :
  read_cstr (req_query_string (st_req st)) = Some query →
  first_occurrence query (lit "name=") i →
  all_space (drop (i + 5) query) →
  length (w_name_buffer (st_world st)) = 64%nat →
  read_cstr (w_name_buffer (st_world st)) = Some old →
  ∃ st',
    handle_hello st = Some st' ∧ greets old st st'
    ∧ w_name_buffer (st_world st') = w_name_buffer (st_world st).
Proof.
  intros Hquery Hfirst Hspace Hsize Hold.
  pose proof (read_cstr_inv _ _ Hold) as [Hfree _].
  pose proof (read_cstr_length _ _ Hold) as Hlen.
  destruct (hello_tail (st_req st) (st_res st)
              (set_name_buffer (st_world st) (w_name_buffer (st_world st)))
              old)
    as (res & Hrun & Hstatus & Htype & Hbody & Hlength); [done|lia|].
  exists (mkState (st_req st) res
            (set_name_buffer (st_world st) (w_name_buffer (st_world st)))).
  split; [|split; [|reflexivity]].
  - unfold handle_hello.
    destruct (read_cstr_first _ _ Hquery) as [-> Hempty].
    cbn [mbind option_bind].
    destruct (Ascii.eqb_spec (hd NUL query) NUL) as [Hnul|Hnul].
    { apply Hempty in Hnul. subst query.
      destruct Hfirst as ([k Hk] & _). rewrite drop_nil in Hk. done. }
    rewrite Hquery. cbn [mbind option_bind].
    rewrite (strstr_first _ _ _ Hfirst).
    unfold scan_name. rewrite drop_drop.
    rewrite <- (app_nil_r (drop (i + 5) query)).
    rewrite skip_space_all_space by done. cbn [skip_space].
    rewrite Hold. cbn [mbind option_bind]. exact Hrun.
  - unfold greets. cbn [st_req st_res st_world]. split_and!; done.
Qed.

(** X15: [handle_hello] greets [Guest] when the query string is empty or
    holds no [name=].  Otherwise the name is what follows the first [name=]
    up to the next white space or the end, cut to 63 bytes: an ampersand
    does not end it.  The answer is 200 with the greeting document, never
    cut short, and the name is left in the static buffer. *)
Theorem X15_hello_name (st : State) (query : cstring) :
  read_cstr (req_query_string (st_req st)) = Some query →
  (query = [] ∨ ¬ contains query (lit "name=") →
   ∃ st',
     handle_hello st = Some st' ∧ greets (lit "Guest") st st'
     ∧ w_name_buffer (st_world st') = w_name_buffer (st_world st))
  ∧ (∀ i value rest,
       first_occurrence query (lit "name=") i →
       drop (i + 5) query = value ++ rest →
       value ≠ [] → space_free value → token_end rest →
       ∃ st',
         handle_hello st = Some st' ∧ greets (take 63 value) st st'
         ∧ read_cstr (w_name_buffer (st_world st')) = Some (take 63 value)).
Proof.
  intros Hquery. split.
  - by apply handle_hello_guest.
  - intros i value rest Hfirst Hdrop Hvalue Hspace Hend.
    destruct (handle_hello_named st query value rest i)
      as (st' & Hrun & Hgreets & Hbuffer); try done.
    exists st'. split; [done|]. split; [done|].
    rewrite Hbuffer. apply strcpy_read, nul_free_take.
    pose proof (read_cstr_inv _ _ Hquery) as [Hfree _].
    assert (nul_free (value ++ rest)) as Hvr
      by (rewrite <- Hdrop; by apply nul_free_drop).
    by apply nul_free_app in Hvr as [? _].
Qed.

Lemma X15_hello_name_witness :
  ∃ st',
    handle_hello
      (state_of (request_with GET (lit "/api/hello") (lit "x=1&name=Ada&y=2")))
    = Some st'
    ∧ read_cstr (res_body (st_res st'))
      = Some (qlit "{'message': 'Hello, Ada&y=2!', 'timestamp': 0}").
Proof.
  destruct (proj2 (X15_hello_name
                     (state_of (request_with GET (lit "/api/hello")
                                             (lit "x=1&name=Ada&y=2")))
                     (lit "x=1&name=Ada&y=2") eq_refl)
                  4%nat (lit "Ada&y=2") [])
    as (st' & Hrun & Hgreets & _).
  - apply strstr_Some. reflexivity.
  - reflexivity.
  - discriminate.
  - unfold space_free. repeat (constructor; [reflexivity|]). constructor.
  - by left.
  - exists st'. split; [exact Hrun|].
    destruct Hgreets as (_ & _ & _ & Hbody & _). exact Hbody.
Defined.

(** X16: the name buffer of [handle_hello] outlives the request.  After a
    request that named somebody, a request whose first [name=] is followed
    by nothing but white space greets the name of the earlier request, for
    any request and response objects of the second call. *)
Theorem X16_hello_name_kept (st1 : State) (req2 : HttpRequest)
    (res2 : HttpResponse) (query1 value rest query2 : cstring) (i1 i2 : nat) :
  length (w_name_buffer (st_world st1)) = 64%nat →
  read_cstr (req_query_string (st_req st1)) = Some query1 →
  first_occurrence query1 (lit "name=") i1 →
  drop (i1 + 5) query1 = value ++ rest →
  value ≠ [] → space_free value → token_end rest →
  read_cstr (req_query_string req2) = Some query2 →
  first_occurrence query2 (lit "name=") i2 →
  all_space (drop (i2 + 5) query2) →
  ∃ st2 st4,
    handle_hello st1 = Some st2
    ∧ greets (take 63 value) st1 st2
    ∧ handle_hello (mkState req2 res2 (st_world st2)) = Some st4
    ∧ greets (take 63 value) (mkState req2 res2 (st_world st2)) st4.
Proof.
  intros Hsize Hquery1 Hfirst1 Hdrop Hvalue Hspace Hend Hquery2 Hfirst2 Hall.
  destruct (handle_hello_named st1 query1 value rest i1)
    as (st2 & Hrun1 & Hgreets1 & Hbuffer); try done.
  assert (nul_free (take 63 value)) as Hname.
  { apply nul_free_take.
    pose proof (read_cstr_inv _ _ Hquery1) as [Hfree _].
    assert (nul_free (value ++ rest)) as Hvr
      by (rewrite <- Hdrop; by apply nul_free_drop).
    by apply nul_free_app in Hvr as [? _]. }
  destruct (handle_hello_stale (mkState req2 res2 (st_world st2)) query2
              (take 63 value) i2)
    as (st4 & Hrun2 & Hgreets2 & _); try done.
  - cbn [st_world]. rewrite Hbuffer, strcpy_length; [done|].
    rewrite length_take. lia.
  - cbn [st_world]. rewrite Hbuffer. by apply strcpy_read.
  - by exists st2, st4.
Qed.

Lemma X16_hello_name_kept_witness :
  ∃ st2 st4,
    handle_hello
      (state_of (request_with GET (lit "/api/hello") (lit "name=Ada")))
    = Some st2
    ∧ handle_hello
        (mkState (request_with GET (lit "/api/hello") (lit "name="))
                 (init_response unassigned_response) (st_world st2))
      = Some st4
    ∧ read_cstr (res_body (st_res st4))
      = Some (qlit "{'message': 'Hello, Ada!', 'timestamp': 0}").
Proof.
  destruct (X16_hello_name_kept
              (state_of (request_with GET (lit "/api/hello") (lit "name=Ada")))
              (request_with GET (lit "/api/hello") (lit "name="))
              (init_response unassigned_response)
              (lit "name=Ada") (lit "Ada") [] (lit "name=") 0 0)
    as (st2 & st4 & Hrun1 & Hgreets1 & Hrun2 & Hgreets2).
  - reflexivity.
  - reflexivity.
  - apply strstr_Some. reflexivity.
  - reflexivity.
  - discriminate.
  - unfold space_free. repeat (constructor; [reflexivity|]). constructor.
  - by left.
  - reflexivity.
  - apply strstr_Some. reflexivity.
  - constructor.
  - exists st2, st4. split; [exact Hrun1|]. split; [exact Hrun2|].
    destruct Hgreets2 as (_ & _ & _ & Hbody & _).
    destruct Hgreets1 as (_ & _ & _ & _ & _ & _ & Hclock).
    cbn [st_world] in Hbody. rewrite Hclock in Hbody. exact Hbody.
Defined.

(** ** One connection on the table of [setup_routes] *)

Lemma setter_sized (res : HttpResponse) (type content : cstring) :
  sized_response res → (length type < 64)%nat →
  length (strcpy (res_content_type res) type) = 64%nat
  ∧ length (strncpy (res_body res) content 4095) = 4096%nat.
Proof.
  intros [Htype Hbody] Hlen. split.
  - rewrite strcpy_length; [done|lia].
  - rewrite strncpy_length; [done|lia].
Qed.

Lemma set_json_response_ok (res res' : HttpResponse) (status : Z)
    (json : cstring) :
  sized_response res → set_json_response res status json = Some res' →
  response_ok res'.
Proof.
  intros Hsized Hset. unfold set_json_response in Hset.
  unfold strlen in Hset.
  destruct (read_cstr (strncpy (res_body res) json 4095)) as [body|] eqn:Hbody;
    [|done].
  injection Hset as <-.
  destruct (setter_sized res (lit "application/json") json Hsized)
    as [Htype Hlen]; [compute_done|].
  split; [done|]. split.
  - cbn [res_content_type]. rewrite strcpy_read; [done|compute_done].
  - exists body. done.
Qed.

Lemma set_html_response_ok (res res' : HttpResponse) (status : Z)
    (html : cstring) :
  sized_response res → set_html_response res status html = Some res' →
  response_ok res'.
Proof.
  intros Hsized Hset. unfold set_html_response in Hset.
  unfold strlen in Hset.
  destruct (read_cstr (strncpy (res_body res) html 4095)) as [body|] eqn:Hbody;
    [|done].
  injection Hset as <-.
  destruct (setter_sized res (lit "text/html") html Hsized)
    as [Htype Hlen]; [compute_done|].
  split; [done|]. split.
  - cbn [res_content_type]. rewrite strcpy_read; [done|compute_done].
  - exists body. done.
Qed.

(** What [send_response] makes of such a response. *)
Lemma send_response_ok (res : HttpResponse) :
  response_ok res →
  ∃ type body,
    send_response res
    = Some (response_text (res_status_code res) type
                          (Z.of_nat (length body)) body)
    ∧ read_cstr (res_body res) = Some body
    ∧ (length type < 64)%nat ∧ (length body < 4096)%nat.
Proof.
  intros (Hsized & [type Htype] & body & Hbody & Hlength).
  exists type, body.
  rewrite (send_response_text res type body Hsized Htype Hbody), Hlength.
  split; [done|]. split; [done|].
  destruct Hsized as [Hs1 Hs2].
  pose proof (read_cstr_length _ _ Htype). pose proof (read_cstr_length _ _ Hbody).
  lia.
Qed.

(** A document formatted by [snprintf] into a local array of at most 4095
    bytes is stored whole by [set_json_response]. *)
Lemma set_json_snprintf (res : HttpResponse) (status : Z) (size : nat)
    (text : cstring) :
  nul_free text → (size ≤ 4095)%nat →
  ∃ res', set_json_response res status (snprintf size text) = Some res'
          ∧ res_status_code res' = status
          ∧ read_cstr (res_body res') = Some (snprintf size text).
Proof.
  intros Hfree Hsize.
  destruct (set_json_response_short res status (snprintf size text))
    as (res' & Hset & Hstatus & _ & Hbody & _).
  - by apply nul_free_take.
  - unfold snprintf. rewrite length_take. lia.
  - by exists res'.
Qed.

Lemma strcpy_terminated (N : nat) (dst : char_array) (src : cstring) :
  terminated (S N) dst → (length src ≤ N)%nat →
  terminated (S N) (strcpy dst src).
Proof.
  intros [Hlen Hlast] Hsrc. split.
  - rewrite strcpy_length; [done|lia].
  - unfold strcpy. cbn [pred] in *. rewrite lookup_app_r by lia.
    destruct (N - length src)%nat as [|k] eqn:Hk; [done|].
    rewrite lookup_cons_ne_0 by done. cbn [pred]. rewrite lookup_drop.
    replace (S (length src) + k)%nat with N by lia. done.
Qed.

Lemma world_kept_refl (w : World) : world_ok w → world_kept w w.
Proof. intros [_ Hbuffer]. by split_and!. Qed.

Lemma json_handler_answers (st : State) (status : Z) (json : cstring) :
  sized_response (st_res st) → world_ok (st_world st) →
  nul_free json → (length json < 4095)%nat →
  ∃ st',
    (res ← set_json_response (st_res st) status json; Some (set_res st res))
    = Some st'
    ∧ st_req st' = st_req st
    ∧ response_ok (st_res st')
    ∧ world_kept (st_world st) (st_world st').
Proof.
  intros Hsized Hworld Hfree Hlen.
  destruct (set_json_response_short (st_res st) status json Hfree Hlen)
    as (res & Hset & _).
  exists (set_res st res). rewrite Hset. split; [done|]. split; [done|].
  split; [by eapply set_json_response_ok|by apply world_kept_refl].
Qed.

Lemma handle_not_found_answers : handler_answers handle_not_found.
Proof.
  intros st Hsized _ Hworld _. unfold handle_not_found.
  apply json_handler_answers; [done|done|compute_done|compute_done].
Qed.

Lemma handle_admin_answers : handler_answers handle_admin.
Proof.
  intros st Hsized _ Hworld _. unfold handle_admin.
  apply json_handler_answers; [done|done|compute_done|compute_done].
Qed.

Lemma handle_users_list_answers : handler_answers handle_users_list.
Proof.
  intros st Hsized _ Hworld _. unfold handle_users_list.
  apply json_handler_answers; [done|done|compute_done|compute_done].
Qed.

Lemma handle_home_answers : handler_answers handle_home.
Proof.
  intros st Hsized _ Hworld _. unfold handle_home.
  match goal with
  | |- context [set_html_response _ _ ?html] =>
      destruct (proj2 (proj2 (setters_short (st_res st) 200 html
                                ltac:(compute_done) ltac:(compute_done))))
        as (res & Hset & _)
  end.
  exists (set_res st res). cbn zeta. rewrite Hset. split; [done|].
  split; [done|].
  split; [by eapply set_html_response_ok|by apply world_kept_refl].
Qed.

Lemma handle_time_answers : handler_answers handle_time.
Proof.
  intros st Hsized _ Hworld _. pose proof Hworld as [(stamp & last & Hctime & Hstamp) _].
  unfold handle_time. rewrite Hctime. rewrite length_app. cbn [length].
  replace (length stamp + 1 =? 0)%nat with false
    by (symmetry; apply Nat.eqb_neq; lia).
  rewrite Nat.add_sub, take_app_length. cbn zeta.
  match goal with
  | |- context [set_json_response _ _ (snprintf 256 ?text)] =>
      destruct (set_json_snprintf (st_res st) 200 256 text)
        as (res & Hset & _)
  end.
  { pose proof (fmt_ld_nul_free (w_clock (st_world st))).
    rewrite !nul_free_app. split_and!; try done; compute_done. }
  { lia. }
  exists (set_res st res). rewrite Hset. split; [done|]. split; [done|].
  split; [by eapply set_json_response_ok|by apply world_kept_refl].
Qed.

Lemma handle_user_create_answers : handler_answers handle_user_create.
Proof.
  intros st Hsized (_ & _ & Hbody & _) Hworld _.
  destruct (terminated_readable _ _ Hbody) as (body & Hread & _).
  unfold handle_user_create. rewrite Hread. cbn [mbind option_bind].
  match goal with
  | |- context [set_json_response _ _ ?json] =>
      destruct (set_json_response_short (st_res st) 201 json
                  ltac:(compute_done) ltac:(compute_done))
        as (res & Hset & _)
  end.
  eexists. rewrite Hset. split; [reflexivity|]. cbn [st_req st_res st_world].
  split; [done|]. split; [by eapply set_json_response_ok|].
  destruct Hworld as [_ Hbuffer]. split_and!; try done.
  cbn [print w_stdout]. by apply prefix_app_r.
Qed.

Lemma handle_user_get_answers : handler_answers handle_user_get.
Proof.
  intros st Hsized (Hpath & _) Hworld Hid.
  destruct (terminated_readable _ _ Hpath) as (path & Hread & _).
  destruct (Hid path Hread) as [user_id Hscan].
  destruct (handle_user_get_response st path user_id Hread Hscan)
    as (res & Hrun & Htype & _ & _ & Hlength).
  exists (set_res st res). split; [done|]. split; [done|].
  split; [|by apply world_kept_refl].
  unfold handle_user_get in Hrun. rewrite Hread in Hrun.
  cbn [mbind option_bind] in Hrun. rewrite Hscan in Hrun.
  cbn [mbind option_bind] in Hrun.
  destruct ((0 <? user_id) && (user_id <=? 3)).
  - destruct (set_json_response _ 200 _) as [res'|] eqn:Hset; [|done].
    apply set_json_response_ok in Hset; [|done].
    cbn [mbind option_bind] in Hrun. by injection Hrun as <-.
  - destruct (set_json_response _ 404 _) as [res'|] eqn:Hset; [|done].
    apply set_json_response_ok in Hset; [|done].
    cbn [mbind option_bind] in Hrun. by injection Hrun as <-.
Qed.

Lemma handle_user_delete_answers : handler_answers handle_user_delete.
Proof.
  intros st Hsized (Hpath & _) Hworld Hid.
  destruct (terminated_readable _ _ Hpath) as (path & Hread & _).
  destruct (Hid path Hread) as [user_id Hscan].
  destruct (handle_user_delete_response st path user_id Hread Hscan)
    as (res & Hrun & Htype & _ & _ & Hlength).
  exists (set_res st res). split; [done|]. split; [done|].
  split; [|by apply world_kept_refl].
  unfold handle_user_delete in Hrun. rewrite Hread in Hrun.
  cbn [mbind option_bind] in Hrun. rewrite Hscan in Hrun.
  cbn [mbind option_bind] in Hrun. cbn zeta in Hrun.
  destruct (set_json_response _ 200 _) as [res'|] eqn:Hset; [|done].
  apply set_json_response_ok in Hset; [|done].
  cbn [mbind option_bind] in Hrun. by injection Hrun as <-.
Qed.

Lemma scan_token_nul_free (s : cstring) :
  nul_free s → nul_free (scan_token s).1.
Proof.
  intros Hfree. rewrite <- (scan_token_app s) in Hfree.
  by apply nul_free_app in Hfree as [? _].
Qed.

(** The buffer after [sscanf(name_param, "name=%63s", name_buffer)]. *)
Lemma scan_name_terminated (name_param : cstring) (name_buffer : char_array) :
  nul_free name_param → terminated 64 name_buffer →
  terminated 64 (scan_name name_param name_buffer).
Proof.
  intros Hfree Hbuffer. unfold scan_name.
  destruct (skip_space (drop 5 name_param)); [done|].
  apply strcpy_terminated; [done|]. rewrite length_take. lia.
Qed.

Lemma handle_hello_answers : handler_answers handle_hello.
Proof.
  intros st Hsized (_ & Hquery & _) Hworld _.
  destruct (terminated_readable _ _ Hquery) as (query & Hread & _).
  pose proof (read_cstr_inv _ _ Hread) as [Hfree _].
  pose proof Hworld as [_ Hbuffer].
  assert (∀ name w,
            nul_free name → world_kept (st_world st) w →
            ∃ st',
              (res ← set_json_response (st_res st) 200
                       (snprintf 256 (hello_json name (w_clock w)));
               Some (mkState (st_req st) res w)) = Some st'
              ∧ st_req st' = st_req st
              ∧ response_ok (st_res st')
              ∧ world_kept (st_world st) (st_world st')) as Htail.
  { intros name w Hname Hkept.
    destruct (set_json_snprintf (st_res st) 200 256
                (hello_json name (w_clock w))) as (res & Hset & _).
    - pose proof (fmt_ld_nul_free (w_clock w)). unfold hello_json.
      rewrite !nul_free_app. split_and!; try done; compute_done.
    - lia.
    - eexists. rewrite Hset. split; [reflexivity|].
      cbn [st_req st_res st_world]. split; [done|].
      split; [by eapply set_json_response_ok|done]. }
  unfold handle_hello.
  destruct (read_cstr_first _ _ Hread) as [-> Hempty].
  cbn [mbind option_bind].
  destruct (Ascii.eqb (hd NUL query) NUL).
  { cbn [mbind option_bind].
    apply (Htail (lit "Guest")); [compute_done|by apply world_kept_refl]. }
  rewrite Hread. cbn [mbind option_bind].
  destruct (strstr query (lit "name=")) as [i|].
  - pose proof (scan_name_terminated (drop i query)
                  (w_name_buffer (st_world st))
                  (nul_free_drop _ _ Hfree) Hbuffer) as Hnew.
    destruct (terminated_readable _ _ Hnew) as (name & Hname & _).
    rewrite Hname. cbn [mbind option_bind].
    apply (Htail name).
    + by pose proof (read_cstr_inv _ _ Hname) as [? _].
    + split_and!; done.
  - cbn [mbind option_bind].
    apply (Htail (lit "Guest")); [compute_done|by apply world_kept_refl].
Qed.

(** The authorization check lets the state pass as it is, or stops with a
    response of its own. *)
Lemma auth_middleware_answers (st : State) :
  sized_response (st_res st) → terminated_request (st_req st) →
  auth_middleware st = Some (true, st)
  ∨ ∃ res, auth_middleware st = Some (false, set_res st res)
           ∧ response_ok res.
Proof.
  intros Hsized (_ & _ & _ & Hheaders).
  destruct (terminated_readable _ _ Hheaders) as (headers & Hread & _).
  unfold auth_middleware.
  destruct (strncmp _ _ _ =? 0); [|by left].
  rewrite Hread. cbn [mbind option_bind].
  destruct (strstr headers (lit "Authorization:")); [by left|].
  destruct (set_json_response_short (st_res st) 401
              (qlit "{'error': 'Unauthorized'}"))
    as (res & Hset & _); [compute_done|compute_done|].
  right. exists res. rewrite Hset. split; [done|].
  by eapply set_json_response_ok.
Qed.

Lemma find_handler_from_in (server : Server) (req : HttpRequest) (n i : nat)
    (handler : RouteHandler) :
  find_handler_from server req i n = Some handler →
  handler = handle_not_found
  ∨ ∃ j route, (j < i + n)%nat ∧ routes server !! j = Some route
               ∧ handler = route_handler route.
Proof.
  revert i. induction n as [|n IH]; intros i; cbn [find_handler_from].
  - intros [= <-]. by left.
  - destruct (routes server !! i) as [route|] eqn:Hroute; [|done].
    cbn [mbind option_bind].
    destruct (route_test route req) as [[|]|]; cbn [mbind option_bind];
      [| |done].
    + intros [= <-]. right. exists i, route. split; [lia|done].
    + intros Hrest. destruct (IH _ Hrest) as [->|(j & r & Hj & Hr & ->)];
        [by left|].
      right. exists j, r. split; [lia|done].
Qed.

Lemma find_handler_in (server : Server) (req : HttpRequest)
    (handler : RouteHandler) :
  find_handler server req = Some handler →
  handler = handle_not_found
  ∨ handler ∈ route_handler <$> registered_routes server.
Proof.
  intros Hfind. apply find_handler_from_in in Hfind
    as [->|(j & route & Hj & Hroute & ->)]; [by left|].
  right. apply list_elem_of_fmap. exists route. split; [done|].
  apply (list_elem_of_lookup_2 _ j), registered_routes_lookup. done.
Qed.

Lemma find_handler_defined (server : Server) (req : HttpRequest) :
  routes_ok server → is_Some (read_cstr (req_path req)) →
  is_Some (find_handler server req).
Proof.
  intros Hroutes Hpath. unfold find_handler.
  destruct (first_hit_or_none server req (Z.to_nat (route_count server))
              (route_tests_defined server req Hroutes Hpath))
    as [(k & route & Hk & Hroute & Hhit & Hearlier)|Hmiss].
  - by rewrite (find_handler_from_hit server req _ 0 k route).
  - by rewrite find_handler_from_miss.
Qed.

Lemma main_server_handlers :
  route_handler <$> registered_routes main_server
  = [handle_home; handle_hello; handle_time; handle_users_list;
     handle_user_create; handle_user_get; handle_user_delete; handle_admin].
Proof. eval_tables. reflexivity. Qed.

(** Every handler that [find_handler] can return on the table of
    [setup_routes] has a result. *)
Lemma main_server_handler_answers (req : HttpRequest) (handler : RouteHandler) :
  find_handler main_server req = Some handler → handler_answers handler.
Proof.
  intros [->|Hin]%find_handler_in; [apply handle_not_found_answers|].
  rewrite main_server_handlers in Hin.
  repeat (apply elem_of_cons in Hin as [->|Hin]);
    [apply handle_home_answers|apply handle_hello_answers
    |apply handle_time_answers|apply handle_users_list_answers
    |apply handle_user_create_answers|apply handle_user_get_answers
    |apply handle_user_delete_answers|apply handle_admin_answers|].
  by apply elem_of_nil in Hin.
Qed.

Lemma world_kept_trans (w1 w2 w3 : World) :
  world_kept w1 w2 → world_kept w2 w3 → world_kept w1 w3.
Proof.
  intros (Hc1 & Ht1 & _ & Ho1) (Hc2 & Ht2 & Hb2 & Ho2). split_and!.
  - by rewrite Hc2.
  - by rewrite Ht2.
  - done.
  - by etrans.
Qed.

Lemma world_kept_ok (w w' : World) : world_ok w → world_kept w w' → world_ok w'.
Proof.
  intros [(stamp & last & Hctime & Hstamp) _] (Hclock & Htime & Hbuffer & _).
  split; [|done]. exists stamp, last. by rewrite Htime, Hclock.
Qed.

(** The request that [main] hands to [handle_request]. *)
Lemma parse_request_target (raw method_str target : cstring) :
  nul_free raw →
  sscanf_s_s raw = (Some method_str, Some target) →
  (length method_str < 16)%nat → (length target < 512)%nat →
  ∃ req,
    parse_request raw zero_request = Some req
    ∧ terminated_request req
    ∧ req_method req = parse_method method_str
    ∧ read_cstr (req_path req) = Some (target_path target).
Proof.
  intros Hfree Hscan Hmethod Htarget.
  destruct (parse_request_fields raw method_str target zero_request Hfree
              zero_request_terminated Hscan Hmethod Htarget)
    as (body & body_length & Hparse & _).
  pose proof (sscanf_s_s_nul_free _ _ _ Hscan Hfree) as [_ Htfree].
  eexists. split; [exact Hparse|].
  split; [exact (parse_request_terminated _ _ _ zero_request_terminated Hparse)|].
  split; [reflexivity|]. cbn [req_path]. unfold target_path.
  destruct (strchr target "?"%char) as [query_start|].
  - apply strncpy_read_terminated; [by apply nul_free_take|reflexivity].
  - apply strncpy_read_terminated; [done|reflexivity].
Qed.

(** [handle_request] on the table of [setup_routes]: the logger, then the
    authorization check, which may answer itself, then the handler. *)
Lemma handle_request_main (st : State) :
  sized_response (st_res st) → terminated_request (st_req st) →
  world_ok (st_world st) →
  (∀ path, read_cstr (req_path (st_req st)) = Some path →
     is_Some (scan_user_id path)) →
  ∃ st',
    handle_request main_server st = Some st'
    ∧ response_ok (st_res st')
    ∧ world_kept (st_world st) (st_world st').
Proof.
  intros Hsized Hreq Hworld Hid. pose proof Hreq as (Hpath & Hquery & _).
  destruct (terminated_readable _ _ Hpath) as (path & Hrpath & _).
  destruct (terminated_readable _ _ Hquery) as (query & Hrquery & _).
  pose proof Hworld as [(stamp & last & Hctime & Hstamp) Hbuffer].
  pose proof (logger_middleware_line st stamp path query last Hctime Hrpath
                Hrquery) as Hlogger.
  set (w1 := print (st_world st)
               (log_line stamp (req_method (st_req st)) path query)) in *.
  set (st1 := mkState (st_req st) (st_res st) w1) in *.
  assert (world_kept (st_world st) w1) as Hkept1.
  { split_and!; try done. cbn [w1 print w_stdout]. by apply prefix_app_r. }
  pose proof (world_kept_ok _ _ Hworld Hkept1) as Hworld1.
  destruct (auth_middleware_answers st1 Hsized Hreq)
    as [Hauth|(res & Hauth & Hres)].
  - assert (gates_pass (registered_middleware main_server) st st1) as Hgates.
    { rewrite main_server_middleware.
      eapply gates_pass_cons; [exact Hlogger|].
      eapply gates_pass_cons; [exact Hauth|].
      eapply gates_pass_cons; [reflexivity|]. constructor. }
    rewrite (handle_request_pass main_server st st1 main_server_middleware_ok
               Hgates).
    destruct (find_handler_defined main_server (st_req st1)
                main_server_routes_ok) as [handler Hfind]; [by eexists|].
    rewrite Hfind. cbn [mbind option_bind].
    destruct (main_server_handler_answers _ _ Hfind st1 Hsized Hreq Hworld1 Hid)
      as (st' & Hrun & _ & Hres & Hkept).
    exists st'. split; [exact Hrun|]. split; [exact Hres|].
    exact (world_kept_trans _ _ _ Hkept1 Hkept).
  - exists (set_res st1 res). split; [|split; [exact Hres|exact Hkept1]].
    apply (handle_request_stop main_server [logger_middleware]
             [cors_middleware] auth_middleware st st1).
    + exact main_server_middleware.
    + eapply gates_pass_cons; [exact Hlogger|]. constructor.
    + exact Hauth.
Qed.

Lemma serve_main_server (received : list ascii) (res : HttpResponse)
    (w : World) (method_str target : cstring) :
  sized_response res → world_ok w →
  sscanf_s_s (until_nul received) = (Some method_str, Some target) →
  (length method_str < 16)%nat → (length target < 512)%nat →
  is_Some (scan_user_id (target_path target)) →
  ∃ status type body w',
    serve main_server received res w
    = Some (response_text status type (Z.of_nat (length body)) body, w')
    ∧ (length type < 64)%nat ∧ (length body < 4096)%nat
    ∧ world_ok w' ∧ w_stdout w `prefix_of` w_stdout w'.
Proof.
  intros Hsized Hworld Hscan Hmethod Htarget Hid.
  destruct (parse_request_target (until_nul received) method_str target
              (until_nul_nul_free received) Hscan Hmethod Htarget)
    as (req & Hparse & Hreq & _ & Hpath).
  destruct (handle_request_main (mkState req (init_response res) w))
    as (st' & Hrun & Hres & Hkept).
  - by apply init_response_sized.
  - exact Hreq.
  - exact Hworld.
  - cbn [st_req]. intros path Hread. rewrite Hpath in Hread.
    by injection Hread as <-.
  - destruct (send_response_ok _ Hres) as (type & body & Hsend & _ & Ht & Hb).
    exists (res_status_code (st_res st')), type, body, (st_world st').
    unfold serve. rewrite Hparse. cbn [mbind option_bind].
    rewrite Hrun. cbn [mbind option_bind]. rewrite Hsend.
    split; [reflexivity|]. split; [exact Ht|]. split; [exact Hb|].
    split; [exact (world_kept_ok _ _ Hworld Hkept)|].
    by destruct Hkept as (_ & _ & _ & Hout).
Qed.

(** X17: on the table of [setup_routes], one turn of the accept loop has a
    defined result for every received text whose first two tokens fit the
    arrays of [parse_request] (at most 15 and 511 bytes) and whose user
    number, if the path has one, fits an [int]: whatever the method, the
    path, the headers and the unassigned bytes of the response, no read
    leaves an array.  The bytes sent are a response whose Content-Length is
    the length of its body, the response fits the 8192 bytes of its buffer,
    output is only appended, and the environment serves the next turn. *)
Theorem X17_serve_answers (received : list ascii) (res : HttpResponse)
    (w : World) (method_str target : cstring) :
  sized_response res → world_ok w →
  sscanf_s_s (until_nul received) = (Some method_str, Some target) →
  (length method_str < 16)%nat → (length target < 512)%nat →
  is_Some (scan_user_id (target_path target)) →
  ∃ status type body w',
    serve main_server received res w
    = Some (response_text status type (Z.of_nat (length body)) body, w')
    ∧ Z.of_nat (length (response_text status type (Z.of_nat (length body))
                                      body)) < 8192
    ∧ world_ok w' ∧ w_stdout w `prefix_of` w_stdout w'.
Proof.
  intros Hsized Hworld Hscan Hmethod Htarget Hid.
  destruct (serve_main_server received res w method_str target)
    as (status & type & body & w' & Hserve & Ht & Hb & Hw & Hout); try done.
  exists status, type, body, w'. split; [done|].
  split; [by apply response_text_fits|done].
Qed.

Lemma X17_serve_answers_witness :
  ∃ status type body w',
    serve main_server
          (lit "PATCH /api/users/7?x=1 HTTP/1.1" ++ CRLF ++ CRLF)
          unassigned_response sample_world
    = Some (response_text status type (Z.of_nat (length body)) body, w').
Proof.
  destruct (X17_serve_answers
              (lit "PATCH /api/users/7?x=1 HTTP/1.1" ++ CRLF ++ CRLF)
              unassigned_response sample_world
              (lit "PATCH") (lit "/api/users/7?x=1"))
    as (status & type & body & w' & Hserve & _).
  - split; reflexivity.
  - split.
    + exists (lit "Thu Jan  1 00:00:00 1970"), LF.
      split; [reflexivity|compute_done].
    + split; reflexivity.
  - reflexivity.
  - compute_done.
  - compute_done.
  - exists 7. reflexivity.
  - exists status, type, body, w'. exact Hserve.
Defined.

(** ** The routing table of [setup_routes] *)

Lemma path_matches_no_placeholder (pattern path : cstring) :
  strstr pattern (lit "/:id") = None →
  path_matches pattern path = Some (bool_decide (path = pattern)).
Proof.
  intros Hnone. case_bool_decide as Heq.
  - subst. apply path_matches_exact.
  - apply path_matches_literal; [congruence|done].
Qed.

Lemma path_matches_users_id (path : cstring) :
  path_matches (lit "/api/users/:id") path
  = Some (bool_decide (lit "/api/users" `prefix_of` path)).
Proof.
  case_bool_decide as Hprefix.
  - change (lit "/api/users/:id") with (lit "/api/users" ++ lit "/:id" ++ []).
    apply path_matches_placeholder; [compute_done|done].
  - unfold path_matches. rewrite strcmp_eqb. case_bool_decide as Heq.
    { destruct Hprefix. rewrite <- Heq. by exists (lit "/:id"). }
    replace (strstr (lit "/api/users/:id") (lit "/:id")) with (Some 10%nat)
      by reflexivity.
    replace (length (lit "/api/users/:id") <? 255)%nat with true
      by reflexivity.
    replace (take 255 (lit "/api/users/:id")) with (lit "/api/users/:id")
      by reflexivity.
    replace (strstr (lit "/api/users/:id") (lit "/:id")) with (Some 10%nat)
      by reflexivity.
    replace (take 10 (lit "/api/users/:id")) with (lit "/api/users")
      by reflexivity.
    destruct (strncmp (lit "/api/users") path (length (lit "/api/users")) =? 0)
      eqn:Hcmp; [|done].
    apply Z.eqb_eq, strncmp_prefix in Hcmp. done.
Qed.

Lemma route_test_literal (route : Route) (req : HttpRequest)
    (method : HttpMethod) (pattern path : cstring) (handler : RouteHandler) :
  route_is (method, pattern, handler) route →
  read_cstr (req_path req) = Some path →
  strstr pattern (lit "/:id") = None →
  route_test route req
  = Some (bool_decide (req_method req = method)
          && bool_decide (path = pattern)).
Proof.
  intros (Hm & Hp & _) Hpath Hnone. cbn [fst snd] in *.
  unfold route_test. rewrite Hm, Hp, Hpath. cbn [mbind option_bind].
  rewrite path_matches_no_placeholder by done.
  destruct (decide (method = req_method req)) as [<-|Hne].
  - rewrite (bool_decide_eq_true_2 (method = method)) by done. done.
  - rewrite (bool_decide_eq_false_2 (req_method req = method)) by done. done.
Qed.

Lemma route_test_users_id (route : Route) (req : HttpRequest)
    (method : HttpMethod) (path : cstring) (handler : RouteHandler) :
  route_is (method, lit "/api/users/:id", handler) route →
  read_cstr (req_path req) = Some path →
  route_test route req
  = Some (bool_decide (req_method req = method)
          && bool_decide (lit "/api/users" `prefix_of` path)).
Proof.
  intros (Hm & Hp & _) Hpath. cbn [fst snd] in *.
  unfold route_test. rewrite Hm, Hp, Hpath. cbn [mbind option_bind].
  rewrite path_matches_users_id.
  destruct (decide (method = req_method req)) as [<-|Hne].
  - rewrite (bool_decide_eq_true_2 (method = method)) by done. done.
  - rewrite (bool_decide_eq_false_2 (req_method req = method)) by done. done.
Qed.

Lemma find_handler_from_step (server : Server) (req : HttpRequest) (i n : nat)
    (route : Route) (method : HttpMethod) (pattern : cstring)
    (handler : RouteHandler) (hit : bool) :
  routes server !! i = Some route →
  route_is (method, pattern, handler) route →
  route_test route req = Some hit →
  find_handler_from server req i (S n)
  = if hit then Some handler else find_handler_from server req (S i) n.
Proof.
  intros Hroute (_ & _ & Hh) Htest. cbn [find_handler_from].
  rewrite Hroute. cbn [mbind option_bind]. rewrite Htest.
  cbn [mbind option_bind]. by rewrite Hh.
Qed.

(** The routes in use on the table of [setup_routes]. *)
Lemma main_server_entries :
  Forall2 route_is setup_entries (registered_routes main_server).
Proof. eval_tables. repeat constructor. Qed.

Lemma main_server_dispatch (req : HttpRequest) (path : cstring) :
  read_cstr (req_path req) = Some path →
  find_handler main_server req = Some (main_dispatch (req_method req) path).
Proof.
  intros Hpath.
  unfold find_handler. rewrite main_server_count.
  change (Z.to_nat 8) with 8%nat.
  repeat match goal with
  | |- context [find_handler_from main_server req ?i (S ?n)] =>
      let r := fresh "r" in
      let Hr := fresh "Hr" in
      let His := fresh "His" in
      edestruct (Forall2_lookup_l route_is setup_entries
                   (registered_routes main_server) i)
        as (r & Hr & His); [exact main_server_entries|reflexivity|];
      apply registered_routes_lookup in Hr as [_ Hr];
      erewrite (find_handler_from_step main_server req i n);
        [|exact Hr|exact His
         |first [eapply route_test_users_id; [exact His|exact Hpath]
                |eapply route_test_literal;
                   [exact His|exact Hpath|reflexivity]]]
  end.
  cbn [find_handler_from]. unfold main_dispatch.
  destruct (req_method req);
    repeat match goal with
    | |- context [bool_decide (?a = ?b :> HttpMethod)] =>
        first [rewrite (bool_decide_eq_true_2 (a = b)) by reflexivity
              |rewrite (bool_decide_eq_false_2 (a = b)) by discriminate]
    end;
    cbn [andb];
    repeat match goal with
    | |- context [bool_decide ?P] => destruct (bool_decide P)
    end;
    reflexivity.
Qed.

(** X18: on the table of [setup_routes], [find_handler] is the function
    [main_dispatch] of the method and the path: the literal rows answer
    their exact path only, the two rows [/api/users/:id] answer every path
    that starts with [/api/users] (for GET after the exact [/api/users]
    row), and everything else, every PUT and every unsupported method
    included, goes to [handle_not_found]. *)
Theorem X18_dispatch_table (req : HttpRequest) (path : cstring) :
  read_cstr (req_path req) = Some path →
  find_handler main_server req = Some (main_dispatch (req_method req) path).
Proof. apply main_server_dispatch. Qed.

Lemma X18_dispatch_table_witness :
  find_handler main_server (request_with DELETE (lit "/api/users") [])
  = Some (main_dispatch DELETE (lit "/api/users"))
  ∧ main_dispatch DELETE (lit "/api/users") = handle_user_delete.
Proof.
  split.
  - exact (X18_dispatch_table (request_with DELETE (lit "/api/users") [])
             (lit "/api/users") eq_refl).
  - eval_tables. reflexivity.
Defined.

(** ** Rejected requests on the wire *)

Lemma serve_unauthorized (received : list ascii) (res : HttpResponse)
    (w : World) (method_str target stamp : cstring) (last : ascii) :
  sized_response res →
  w_ctime w (w_clock w) = stamp ++ [last] →
  sscanf_s_s (until_nul received) = (Some method_str, Some target) →
  (length method_str < 16)%nat → (length target < 512)%nat →
  lit "/admin" `prefix_of` target_path target →
  ¬ contains (take 1023 (until_nul received)) (lit "Authorization:") →
  ∃ query,
    serve main_server received res w
    = Some (unauthorized_text,
            print w (log_line stamp (parse_method method_str)
                              (target_path target) query)).
Proof.
  intros Hsized Hctime Hscan Hmethod Htarget Hadmin Hnone.
  destruct (parse_request_target (until_nul received) method_str target
              (until_nul_nul_free received) Hscan Hmethod Htarget)
    as (req & Hparse & Hreq & Hm & Hpath).
  pose proof (parse_request_headers _ _ _ (until_nul_nul_free received)
                zero_request_terminated Hparse) as Hheaders.
  pose proof Hreq as (_ & Hquery & _).
  destruct (terminated_readable _ _ Hquery) as (query & Hrquery & _).
  exists query.
  set (st := mkState req (init_response res) w).
  pose proof (logger_middleware_line st stamp _ query last Hctime Hpath Hrquery)
    as Hlogger.
  cbn [st st_req st_res st_world] in Hlogger. rewrite Hm in Hlogger.
  set (w1 := print w (log_line stamp (parse_method method_str)
                               (target_path target) query)) in *.
  set (st1 := mkState req (init_response res) w1) in *.
  destruct (auth_middleware_rejects st1 _ _ Hpath Hadmin Hheaders Hnone)
    as (res1 & Hauth & Hstatus & Htype & Hbody & Hlength).
  destruct (auth_middleware_answers st1) as [Hpass|(res2 & Hstop & Hok)].
  { by apply init_response_sized. }
  { exact Hreq. }
  { rewrite Hauth in Hpass. discriminate. }
  rewrite Hauth in Hstop. injection Hstop as <-.
  destruct Hok as (Hsized1 & _).
  assert (handle_request main_server st = Some (set_res st1 res1)) as Hrun.
  { apply (handle_request_stop main_server [logger_middleware]
             [cors_middleware] auth_middleware st st1).
    - exact main_server_middleware.
    - eapply gates_pass_cons; [exact Hlogger|]. constructor.
    - exact Hauth. }
  unfold serve. rewrite Hparse. cbn [mbind option_bind].
  fold st. rewrite Hrun. cbn [mbind option_bind set_res st_res st_world st1].
  rewrite (send_response_text res1 _ _ Hsized1 Htype Hbody).
  rewrite Hstatus, Hlength. reflexivity.
Qed.

(** X19: a request whose path starts with [/admin], whatever its method,
    and whose first 1023 bytes hold no [Authorization:], is answered with
    exactly one text: status 401 with the reason phrase [Unknown], because
    [get_status_text] has no entry for 401, and the Unauthorized document of
    25 bytes.  The request is logged before it is rejected and nothing else
    is printed. *)
Theorem X19_unauthorized_on_the_wire (received : list ascii)
    (res : HttpResponse) (w : World) (method_str target stamp : cstring)
    (last : ascii) :
  sized_response res →
  w_ctime w (w_clock w) = stamp ++ [last] →
  sscanf_s_s (until_nul received) = (Some method_str, Some target) →
  (length method_str < 16)%nat → (length target < 512)%nat →
  lit "/admin" `prefix_of` target_path target →
  ¬ contains (take 1023 (until_nul received)) (lit "Authorization:") →
  (∃ query,
     serve main_server received res w
     = Some (unauthorized_text,
             print w (log_line stamp (parse_method method_str)
                               (target_path target) query)))
  ∧ lit "HTTP/1.1 401 Unknown" ++ CRLF `prefix_of` unauthorized_text
  ∧ get_status_text 401 = lit "Unknown".
Proof.
  intros Hsized Hctime Hscan Hmethod Htarget Hadmin Hnone.
  split; [by eapply serve_unauthorized|].
  split; [|reflexivity]. eexists. reflexivity.
Qed.

Lemma X19_unauthorized_on_the_wire_witness :
  ∃ w',
    serve main_server (lit "POST /administrator HTTP/1.1" ++ CRLF ++ CRLF)
          unassigned_response sample_world
    = Some (unauthorized_text, w').
Proof.
  destruct (proj1 (X19_unauthorized_on_the_wire
                     (lit "POST /administrator HTTP/1.1" ++ CRLF ++ CRLF)
                     unassigned_response sample_world
                     (lit "POST") (lit "/administrator")
                     (lit "Thu Jan  1 00:00:00 1970") LF
                     ltac:(split; reflexivity) eq_refl eq_refl
                     ltac:(compute_done) ltac:(compute_done)
                     ltac:(by exists (lit "istrator"))
                     ltac:(by apply strstr_None_contains)))
    as (query & Hserve).
  eexists. exact Hserve.
Defined.

(** ** The remaining handlers *)

(** X20: [handle_user_create] prints the body of the request on the
    standard output and answers 201 with one fixed document: two requests
    with different bodies get the same response. *)
Theorem X20_user_create (st1 st2 : State) (body1 body2 : cstring) :
  read_cstr (req_body (st_req st1)) = Some body1 →
  read_cstr (req_body (st_req st2)) = Some body2 →
  st_res st1 = st_res st2 →
  ∃ res,
    handle_user_create st1
    = Some (mkState (st_req st1) res
                    (print (st_world st1)
                           (lit "Received POST body: " ++ body1 ++ [LF])))
    ∧ handle_user_create st2
      = Some (mkState (st_req st2) res
                      (print (st_world st2)
                             (lit "Received POST body: " ++ body2 ++ [LF])))
    ∧ res_status_code res = 201
    ∧ read_cstr (res_body res) = Some created_json
    ∧ res_body_length res = 83.
Proof.
  intros Hbody1 Hbody2 Hres.
  destruct (set_json_response_short (st_res st1) 201 created_json)
    as (res & Hset & Hstatus & _ & Hbody & Hlength);
    [compute_done|compute_done|].
  exists res. unfold handle_user_create.
  rewrite Hbody1, Hbody2, <- Hres. cbn [mbind option_bind].
  fold created_json. rewrite Hset. cbn [mbind option_bind].
  split_and!; [reflexivity|reflexivity|exact Hstatus|exact Hbody|].
  rewrite Hlength. reflexivity.
Qed.

Lemma X20_user_create_witness :
  ∃ res w',
    handle_user_create
      (state_of (mkRequest POST (replicate 256 NUL) (replicate 512 NUL)
                           (strncpy (replicate 2048 NUL) (lit "{}") 2047) 2
                           (replicate 1024 NUL)))
    = Some (mkState (mkRequest POST (replicate 256 NUL) (replicate 512 NUL)
                               (strncpy (replicate 2048 NUL) (lit "{}") 2047) 2
                               (replicate 1024 NUL)) res w')
    ∧ res_status_code res = 201
    ∧ w_stdout w' = lit "Received POST body: {}" ++ [LF].
Proof.
  destruct (X20_user_create
              (state_of (mkRequest POST (replicate 256 NUL) (replicate 512 NUL)
                           (strncpy (replicate 2048 NUL) (lit "{}") 2047) 2
                           (replicate 1024 NUL)))
              (state_of zero_request) (lit "{}") [] eq_refl eq_refl eq_refl)
    as (res & Hrun & _ & Hstatus & _).
  eexists _, _. split; [exact Hrun|]. split; [exact Hstatus|reflexivity].
Defined.

(** X21: [handle_time] answers 200 with the document that holds the time
    string without its last byte and the value of the clock, cut to the 255
    bytes of its local array; a time string of at most 195 bytes is never
    cut. *)
Theorem X21_time (st : State) (stamp : cstring) (last : ascii) :
  w_ctime (st_world st) (w_clock (st_world st)) = stamp ++ [last] →
  nul_free stamp →
  ∃ res,
    handle_time st = Some (set_res st res)
    ∧ res_status_code res = 200
    ∧ read_cstr (res_body res)
      = Some (take 255 (time_json stamp (w_clock (st_world st))))
    ∧ body_length_ok res
    ∧ ((length stamp ≤ 195)%nat →
       read_cstr (res_body res)
       = Some (time_json stamp (w_clock (st_world st)))).
Proof.
  intros Hctime Hstamp.
  pose proof (fmt_ld_nul_free (w_clock (st_world st))) as Hfree.
  pose proof (fmt_ld_length (w_clock (st_world st))) as Hlen.
  destruct (set_json_response_short (st_res st) 200
              (take 255 (time_json stamp (w_clock (st_world st)))))
    as (res & Hset & Hstatus & _ & Hbody & Hlength).
  { apply nul_free_take. unfold time_json.
    rewrite !nul_free_app. split_and!; try done; compute_done. }
  { rewrite length_take. lia. }
  exists res. split.
  - unfold handle_time. rewrite Hctime, length_app. cbn [length].
    replace (length stamp + 1 =? 0)%nat with false
      by (symmetry; apply Nat.eqb_neq; lia).
    rewrite Nat.add_sub, take_app_length. cbn zeta.
    fold (time_json stamp (w_clock (st_world st))). unfold snprintf.
    change (256 - 1)%nat with 255%nat. by rewrite Hset.
  - split; [done|]. split; [done|]. split.
    + eexists. split; [exact Hbody|exact Hlength].
    + intros Hshort. rewrite Hbody. f_equal. apply take_ge.
      unfold time_json. rewrite !length_app.
      change (length (qlit "{'current_time': '")) with 18%nat.
      change (length (qlit "', 'unix_timestamp': ")) with 21%nat.
      change (length (lit "}")) with 1%nat. lia.
Qed.

Lemma X21_time_witness :
  ∃ res,
    handle_time (state_of zero_request)
    = Some (set_res (state_of zero_request) res)
    ∧ read_cstr (res_body res)
      = Some (qlit ("{'current_time': 'Thu Jan  1 00:00:00 1970', "
                    ++ "'unix_timestamp': 0}")%string).
Proof.
  destruct (X21_time (state_of zero_request) (lit "Thu Jan  1 00:00:00 1970")
              LF eq_refl ltac:(compute_done))
    as (res & Hrun & _ & _ & _ & Hbody).
  exists res. split; [exact Hrun|]. apply Hbody. compute_done.
Defined.

(** ** From the received text to the handler *)

(** A request outside [/admin] passes the three middleware functions and
    reaches the handler of the routing table with the log line printed. *)
Lemma serve_dispatch (received : list ascii) (res : HttpResponse) (w : World)
    (method_str target stamp : cstring) (last : ascii) :
  w_ctime w (w_clock w) = stamp ++ [last] →
  sscanf_s_s (until_nul received) = (Some method_str, Some target) →
  (length method_str < 16)%nat → (length target < 512)%nat →
  ¬ lit "/admin" `prefix_of` target_path target →
  ∃ req query,
    terminated_request req
    ∧ read_cstr (req_path req) = Some (target_path target)
    ∧ serve main_server received res w
      = (st ← main_dispatch (parse_method method_str) (target_path target)
                (mkState req (init_response res)
                   (print w (log_line stamp (parse_method method_str)
                                      (target_path target) query)));
         sent ← send_response (st_res st);
         Some (sent, st_world st)).
Proof.
  intros Hctime Hscan Hmethod Htarget Hadmin.
  destruct (parse_request_target (until_nul received) method_str target
              (until_nul_nul_free received) Hscan Hmethod Htarget)
    as (req & Hparse & Hreq & Hm & Hpath).
  pose proof Hreq as (_ & Hquery & _).
  destruct (terminated_readable _ _ Hquery) as (query & Hrquery & _).
  exists req, query. split; [exact Hreq|]. split; [exact Hpath|].
  set (st := mkState req (init_response res) w).
  pose proof (logger_middleware_line st stamp _ query last Hctime Hpath Hrquery)
    as Hlogger.
  cbn [st st_req st_res st_world] in Hlogger. rewrite Hm in Hlogger.
  set (w1 := print w (log_line stamp (parse_method method_str)
                               (target_path target) query)) in *.
  set (st1 := mkState req (init_response res) w1) in *.
  assert (gates_pass (registered_middleware main_server) st st1) as Hgates.
  { rewrite main_server_middleware.
    eapply gates_pass_cons; [exact Hlogger|].
    eapply gates_pass_cons;
      [exact (auth_middleware_other_path st1 _ Hpath Hadmin)|].
    eapply gates_pass_cons; [reflexivity|]. constructor. }
  unfold serve. rewrite Hparse. cbn [mbind option_bind]. fold st.
  rewrite (handle_request_pass main_server st st1 main_server_middleware_ok
             Hgates).
  cbn [st1 st_req].
  rewrite (main_server_dispatch req _ Hpath), Hm. reflexivity.
Qed.

Lemma handle_user_delete_sized (st st' : State) :
  sized_response (st_res st) → handle_user_delete st = Some st' →
  response_ok (st_res st').
Proof.
  intros Hsized Hrun. unfold handle_user_delete in Hrun.
  destruct (read_cstr (req_path (st_req st))) as [path|]; [|done].
  cbn [mbind option_bind] in Hrun.
  destruct (scan_user_id path) as [user_id|]; [|done].
  cbn [mbind option_bind] in Hrun. cbn zeta in Hrun.
  destruct (set_json_response _ 200 _) as [res|] eqn:Hset; [|done].
  apply set_json_response_ok in Hset; [|done].
  cbn [mbind option_bind] in Hrun. by injection Hrun as <-.
Qed.

(** X22: a DELETE request whose path starts with [/api/users], with or
    without a number, is answered 200 with the document that reports the
    deletion of the number that [%d] finds after [/api/users/], which is 0
    when there is none; the only output is the log line. *)
Theorem X22_delete_on_the_wire (received : list ascii) (res : HttpResponse)
    (w : World) (target stamp : cstring) (last : ascii) (user_id : Z) :
  sized_response res →
  w_ctime w (w_clock w) = stamp ++ [last] →
  sscanf_s_s (until_nul received) = (Some (lit "DELETE"), Some target) →
  (length target < 512)%nat →
  lit "/api/users" `prefix_of` target_path target →
  scan_user_id (target_path target) = Some user_id →
  ∃ query,
    serve main_server received res w
    = Some (response_text 200 (lit "application/json")
                          (Z.of_nat (length (deleted_json user_id)))
                          (deleted_json user_id),
            print w (log_line stamp DELETE (target_path target) query)).
Proof.
  intros Hsized Hctime Hscan Htarget Husers Hid.
  destruct (serve_dispatch received res w (lit "DELETE") target stamp last)
    as (req & query & Hreq & Hpath & Hserve); try done.
  { compute_done. }
  { intros [k1 Hk1]. destruct Husers as [k2 Hk2]. rewrite Hk2 in Hk1.
    discriminate. }
  exists query. rewrite Hserve.
  change (parse_method (lit "DELETE")) with DELETE.
  unfold main_dispatch. rewrite bool_decide_eq_true_2 by done.
  set (st1 := mkState req (init_response res) _).
  destruct (handle_user_delete_response st1 _ user_id Hpath Hid)
    as (res1 & Hrun & Htype & Hstatus & Hbody & Hlength).
  pose proof (handle_user_delete_sized st1 _ (init_response_sized _ Hsized)
                Hrun) as (Hsized1 & _).
  cbn [set_res st_res] in Hsized1.
  rewrite Hrun. cbn [mbind option_bind set_res st_res st_world st1].
  rewrite (send_response_text res1 _ _ Hsized1 Htype Hbody).
  destruct Hlength as (body & Hbody' & ->). rewrite Hbody in Hbody'.
  injection Hbody' as <-. rewrite Hstatus. reflexivity.
Qed.

Lemma X22_delete_on_the_wire_witness :
  ∃ w',
    serve main_server (lit "DELETE /api/users HTTP/1.1" ++ CRLF ++ CRLF)
          unassigned_response sample_world
    = Some (response_text 200 (lit "application/json") 46
              (qlit "{'message': 'User 0 deleted', 'success': true}"),
            w').
Proof.
  destruct (X22_delete_on_the_wire
              (lit "DELETE /api/users HTTP/1.1" ++ CRLF ++ CRLF)
              unassigned_response sample_world
              (lit "/api/users") (lit "Thu Jan  1 00:00:00 1970") LF 0
              ltac:(split; reflexivity) eq_refl eq_refl
              ltac:(compute_done) ltac:(by exists []) eq_refl)
    as (query & Hserve).
  eexists. exact Hserve.
Defined.

(** ** The handlers with a fixed answer *)

Lemma set_html_response_short (res : HttpResponse) (status : Z) (html : cstring) :
  nul_free html → (length html < 4095)%nat →
  ∃ res', set_html_response res status html = Some res'
          ∧ res_status_code res' = status
          ∧ read_cstr (res_content_type res') = Some (lit "text/html")
          ∧ read_cstr (res_body res') = Some html
          ∧ res_body_length res' = Z.of_nat (length html).
Proof.
  intros Hfree Hlen. unfold set_html_response, strlen.
  rewrite strncpy_read_short by done.
  eexists. split; [reflexivity|].
  cbn [res_status_code res_content_type res_body res_body_length].
  split_and!; [done| |by apply strncpy_read_short|done].
  apply strcpy_read. compute_done.
Qed.

(** X23: [handle_home], [handle_users_list] and [handle_admin] have a
    result on every state, whatever the request holds and whatever the
    response held before: status 200, the page as [text/html] for the
    first and a JSON document for the other two, with [body_length] the
    length of the body.  In particular [handle_admin] itself never looks at
    the headers: the protection of [/admin] is the middleware function
    alone. *)
Theorem X23_fixed_answers (st : State) :
  (∃ res body,
     handle_home st = Some (set_res st res)
     ∧ res_status_code res = 200
     ∧ read_cstr (res_content_type res) = Some (lit "text/html")
     ∧ read_cstr (res_body res) = Some body
     ∧ res_body_length res = Z.of_nat (length body)
     ∧ lit "<!DOCTYPE html>" `prefix_of` body
     ∧ lit "</html>" `suffix_of` body)
  ∧ (∃ res body,
       handle_users_list st = Some (set_res st res)
       ∧ res_status_code res = 200
       ∧ read_cstr (res_content_type res) = Some (lit "application/json")
       ∧ read_cstr (res_body res) = Some body
       ∧ res_body_length res = Z.of_nat (length body)
       ∧ contains body (qlit "'count': 3"))
  ∧ (∃ res,
       handle_admin st = Some (set_res st res)
       ∧ res_status_code res = 200
       ∧ read_cstr (res_content_type res) = Some (lit "application/json")
       ∧ read_cstr (res_body res)
         = Some (qlit "{'message': 'Welcome to admin panel'}")
       ∧ res_body_length res = 37).
Proof.
  split_and!.
  - unfold handle_home.
    match goal with
    | |- context [set_html_response _ _ ?html] =>
        destruct (set_html_response_short (st_res st) 200 html
                    ltac:(compute_done) ltac:(compute_done))
          as (res & Hset & Hstatus & Htype & Hbody & Hlength);
        exists res, html
    end.
    cbn zeta. rewrite Hset.
    split_and!; [reflexivity|exact Hstatus|exact Htype|exact Hbody
                |exact Hlength| |].
    + compute_done.
    + compute_done.
  - unfold handle_users_list.
    match goal with
    | |- context [set_json_response _ _ ?json] =>
        destruct (set_json_response_short (st_res st) 200 json
                    ltac:(compute_done) ltac:(compute_done))
          as (res & Hset & Hstatus & Htype & Hbody & Hlength);
        exists res, json
    end.
    rewrite Hset.
    split_and!; [reflexivity|exact Hstatus|exact Htype|exact Hbody
                |exact Hlength|].
    apply (strstr_Some_contains _ _ 201). reflexivity.
  - unfold handle_admin.
    destruct (set_json_response_short (st_res st) 200
                (qlit "{'message': 'Welcome to admin panel'}")
                ltac:(compute_done) ltac:(compute_done))
      as (res & Hset & Hstatus & Htype & Hbody & Hlength).
    exists res. rewrite Hset.
    split_and!; [reflexivity|exact Hstatus|exact Htype|exact Hbody|].
    rewrite Hlength. reflexivity.
Qed.
